(** * ava-e2e-tests: the JSON-RPC requester and the RPC workflow runner

    A shallow embedding of
      - [gecko_client/json_rpc_requester.go]  (module [gecko_client]) and
      - [commons/ava_testsuite/rpc_workflow_runner/rpc_workflow_runner.go]
        (module [rpc_workflow_runner]),
    with the properties their specification states about them.

    Go values are modelled as follows.  A Go [string] and a [[]byte] are
    Rocq strings; [int], [int64] and [time.Duration] are [Z] (the one
    arithmetic operation of the source on an [int], [currentPayerNonce + 1],
    wraps at 64 bits); a [time.Time] is the number of nanoseconds since the
    Unix epoch, in [Z].  A Go function returning [(T, error)] returns a sum.
    Code that talks to the node runs in a state monad over the wall clock and
    the history of calls made so far; loops take fuel, and running out of it
    stands for a run that has not returned yet. *)

From Stdlib Require Import ZArith String Ascii DecimalString List Bool Lia.
Import ListNotations.

Local Open Scope string_scope.
Local Open Scope Z_scope.

(** ** The Go library functions the two files use *)

Module golang.

(** What a call into code outside the two files gives back: a value, or an
    error of which the text ([err.Error()]) is all that is looked at. *)
Inductive reply (A : Type) : Type :=
| Got (a : A)
| Failed (text : string).
Arguments Got {A} a.
Arguments Failed {A} text.

(** Errors as the two files see them.  [Foreign] is an error value made
    elsewhere (a binding, the HTTP stack, [strconv]); [NewError] and
    [Propagate] are the two constructors of [palantir/stacktrace], the
    message given with its format arguments filled in. *)
Inductive error : Type :=
| Foreign (text : string)
| NewError (msg : string)
| Propagate (cause : error) (msg : string).

Definition minInt64 : Z := - 2 ^ 63.
Definition maxInt64 : Z := 2 ^ 63 - 1.

(** Addition on Go's 64-bit [int]: two's complement wrap-around. *)
Definition int_add (a b : Z) : Z :=
  (a + b + 2 ^ 63) mod 2 ^ 64 - 2 ^ 63.

Fixpoint inCutset (c : ascii) (cutset : string) : bool :=
  match cutset with
  | EmptyString => false
  | String d rest => Ascii.eqb c d || inCutset c rest
  end.

(** [strings.TrimLeft]: drops every leading character that is in [cutset]. *)
Fixpoint strings_TrimLeft (s cutset : string) : string :=
  match s with
  | EmptyString => EmptyString
  | String c rest =>
      if inCutset c cutset then strings_TrimLeft rest cutset else s
  end.

Fixpoint cutPrefix (prefix s : string) : option string :=
  match prefix, s with
  | EmptyString, _ => Some s
  | String a p, String b t => if Ascii.eqb a b then cutPrefix p t else None
  | String _ _, EmptyString => None
  end.

(** [strings.TrimPrefix]: [s] without the leading [prefix], once; [s] itself
    when it does not start with [prefix]. *)
Definition strings_TrimPrefix (s prefix : string) : string :=
  match cutPrefix prefix s with
  | Some rest => rest
  | None => s
  end.

Definition strings_HasPrefix (s prefix : string) : bool :=
  match cutPrefix prefix s with
  | Some _ => true
  | None => false
  end.

(** [strings.Contains]: [substr] occurs somewhere in [s]. *)
Fixpoint strings_Contains (s substr : string) : bool :=
  match s with
  | EmptyString => strings_HasPrefix EmptyString substr
  | String _ rest => strings_HasPrefix s substr || strings_Contains rest substr
  end.

Definition digitValue (c : ascii) : option Z :=
  let n := Z.of_nat (nat_of_ascii c) in
  if (48 <=? n) && (n <=? 57) then Some (n - 48) else None.

Fixpoint parseDigits (s : string) (acc : Z) : option Z :=
  match s with
  | EmptyString => Some acc
  | String c rest =>
      match digitValue c with
      | Some d => parseDigits rest (10 * acc + d)
      | None => None
      end
  end.

(** [strconv.Atoi]: an optional sign, then one or more decimal digits, the
    value in the range of [int]. *)
Definition strconv_Atoi (s : string) : reply Z :=
  let syntaxError := Failed ("strconv.Atoi: parsing " ++ s ++ ": invalid syntax") in
  let '(negative, digits) :=
    match s with
    | String "+"%char rest => (false, rest)
    | String "-"%char rest => (true, rest)
    | _ => (false, s)
    end in
  match digits with
  | EmptyString => syntaxError
  | _ =>
      match parseDigits digits 0 with
      | None => syntaxError
      | Some n =>
          let v := if negative then - n else n in
          if (minInt64 <=? v) && (v <=? maxInt64) then Got v
          else Failed ("strconv.Atoi: parsing " ++ s ++ ": value out of range")
      end
  end.

(** [%v] of an [int]. *)
Definition fmt_int (n : Z) : string :=
  NilZero.string_of_int (Z.to_int n).

(** [time.Duration] counts nanoseconds. *)
Definition time_Second : Z := 1000000000.
Definition time_Hour : Z := 3600 * time_Second.

(** [Time.Add] and [Time.Unix] on a time given in nanoseconds. *)
Definition Time_Add (t d : Z) : Z := t + d.
Definition Time_Unix (t : Z) : Z := t / time_Second.

(** [Time.Sub] gives a [Duration], which saturates at the ends of int64. *)
Definition Time_Sub (t u : Z) : Z :=
  Z.min maxInt64 (Z.max minInt64 (t - u)).

End golang.

Import golang.

(** ** Package [gecko_client]: the JSON-RPC requester and the reply types *)

Module gecko_client.

(** A value of Go's [interface{}] as [encoding/json] reads and writes it;
    a number is kept as its literal. *)
#[local] Unset Elimination Schemes.
Inductive interface_ : Type :=
| Nil
| Bool (b : bool)
| Number (literal : string)
| Str (s : string)
| Array (items : list interface_)
| Object (fields : list (string * interface_)).
#[local] Set Elimination Schemes.

(** [map[string]interface{}] *)
Definition object : Type := list (string * interface_).

Definition JSON_RPC_VERSION : string := "2.0".

Record JsonRpcRequest : Type := {
  JsonRpc : string;
  Method : string;
  Params : object;
  Id : Z
}.

Record JsonRpcError : Type := {
  Code : Z;
  Message : string;
  Data : interface_
}.

Record JsonRpcResponse : Type := {
  JsonRpcVersion : string;
  Error : JsonRpcError;
  Result : object;
  ResponseId : Z
}.

(** [http.Client]; a [Timeout] of zero means no timeout. *)
Record http_Client : Type := { Timeout : Z }.

(** [http.DefaultClient], the zero [http.Client]. *)
Definition http_DefaultClient : http_Client := {| Timeout := 0 |}.

(** An [*http.Response]: the status code, and what [ioutil.ReadAll] gets
    from the body. *)
Record http_Response : Type := {
  StatusCode : Z;
  Body : reply string
}.

(** What the requester takes from outside the repository: [encoding/json],
    [net/http] with the network behind it, [nat.Port.Int] and the [%v]
    renderings of the two values it prints. *)
Record Platform : Type := {
  json_Marshal : JsonRpcRequest -> reply string;
  json_Unmarshal : string -> reply JsonRpcResponse;
  Client_Post : http_Client -> string -> string -> string -> reply http_Response;
  Port_Int : string -> Z;
  fmt_object : object -> string;
  fmt_JsonRpcError : JsonRpcError -> string
}.

Record geckoJsonRpcRequester : Type := {
  ipAddr : string;
  port : string;
  client : http_Client
}.

Definition newGeckoJsonRpcRequester (ipAddr port : string) (requestTimeout : Z)
  : geckoJsonRpcRequester :=
  {| ipAddr := ipAddr;
     port := port;
     client := {| Timeout := requestTimeout |} |}.

Section Requester.

Variable platform : Platform.

(** [http.Post] of [net/http] is [DefaultClient.Post]. *)
Definition http_Post (url contentType body : string) : reply http_Response :=
  Client_Post platform http_DefaultClient url contentType body.

Definition requestUrl (requester : geckoJsonRpcRequester) (endpoint : string) : string :=
  "http://" ++ ipAddr requester ++ ":"
    ++ fmt_int (Port_Int platform (port requester)) ++ "/" ++ endpoint.

Definition makeRpcRequest (requester : geckoJsonRpcRequester)
    (endpoint method : string) (params : object) : string + error :=
  let endpoint := strings_TrimLeft endpoint "/" in
  let request :=
    {| JsonRpc := JSON_RPC_VERSION; Method := method; Params := params; Id := 1 |} in
  match json_Marshal platform request with
  | Failed text =>
      inr (Propagate (Foreign text)
             ("Could not marshall request to endpoint '" ++ endpoint
                ++ "' with method '" ++ method ++ "' and params '"
                ++ fmt_object platform params ++ "' to JSON"))
  | Got requestBodyBytes =>
      let url := requestUrl requester endpoint in
      match http_Post url "application/json" requestBodyBytes with
      | Failed text =>
          inr (Propagate (Foreign text)
                 ("Error occurred when making JSON RPC POST request to " ++ url))
      | Got resp =>
          let statusCode := StatusCode resp in
          match Body resp with
          | Failed text =>
              inr (Propagate (Foreign text) "Error occurred when reading response body")
          | Got responseBodyBytes =>
              if negb (statusCode =? 200) then
                inr (NewError
                       ("Received response with non-200 code '" ++ fmt_int statusCode
                          ++ "' and response body '" ++ responseBodyBytes ++ "'"))
              else
                match json_Unmarshal platform responseBodyBytes with
                | Failed text =>
                    inr (Propagate (Foreign text) "Error unmarshalling JSON response")
                | Got response =>
                    if negb (Code (Error response) =? 0) then
                      inr (NewError
                             ("RPC call failed: "
                                ++ fmt_JsonRpcError platform (Error response)))
                    else inl responseBodyBytes
                end
          end
      end
  end.

End Requester.

(** The reply types the runner reads. *)
Record AccountInfo : Type := {
  Address : string;
  Nonce : string;
  Balance : string
}.

Record Validator : Type := {
  StartTime : string;
  EndTime : string;
  StakeAmount : string;
  ValidatorId : string
}.

End gecko_client.

(** ** Package [rpc_workflow_runner] *)

Module rpc_workflow_runner.

Import gecko_client.

Definition GENESIS_USERNAME : string := "genesis".
Definition GENESIS_PASSWORD : string := "genesis34!23".
Definition TRANSACTION_ACCEPTED_STATUS : string := "Accepted".
Definition AVA_ASSET_ID : string := "AVA".
Definition TIME_UNTIL_STAKING_BEGINS : Z := 20 * time_Second.
Definition TIME_UNTIL_STAKING_ENDS : Z := 72 * time_Hour.
Definition TIME_UNTIL_DELEGATING_BEGINS : Z := 20 * time_Second.
Definition TIME_UNTIL_DELEGATING_ENDS : Z := 72 * time_Hour.
Definition DELEGATION_FEE_RATE : Z := 500000.
Definition XCHAIN_ADDRESS_PREFIX : string := "X-".
Definition NO_IMPORT_INPUTS_ERROR_STR : string :=
  "problem issuing transaction: no import inputs".
Definition IMPORT_AVA_TO_XCHAIN_TIMEOUT : Z := time_Second.

(** *** The node, seen through the API bindings

    The bindings ([InfoApi], [KeystoreApi], [XChainApi], [PChainApi]) are not
    part of the two files.  A call to one of them is recorded with its
    arguments, in the order of the Go call. *)
Inductive Call : Type :=
| InfoApi_GetNodeId
| KeystoreApi_CreateUser (username password : string)
| XChainApi_ImportKey (username password privateKey : string)
| XChainApi_CreateAddress (username password : string)
| XChainApi_Send (amount : Z) (assetId to username password : string)
| XChainApi_ExportAVA (to : string) (amount : Z) (username password : string)
| XChainApi_ImportAVA (to username password : string)
| XChainApi_GetTxStatus (txnId : string)
| PChainApi_CreateAccount (username password : string) (privateKey : option string)
| PChainApi_ImportAVA (username password to : string) (payerNonce : Z)
| PChainApi_ExportAVA (amount : Z) (to : string) (payerNonce : Z)
| PChainApi_IssueTx (tx : string)
| PChainApi_Sign (tx signer username password : string)
| PChainApi_AddDefaultSubnetValidator
    (id : string) (startTime endTime stakeAmount payerNonce : Z)
    (destination : string) (delegationFeeRate : Z)
| PChainApi_AddDefaultSubnetDelegator
    (id : string) (startTime endTime stakeAmount payerNonce : Z)
    (destination : string)
| PChainApi_GetCurrentValidators (subnetId : option string)
| PChainApi_GetAccount (address : string).

(** The type of the value a binding returns next to its [error]. *)
Definition Returns (c : Call) : Type :=
  match c with
  | KeystoreApi_CreateUser _ _ => bool
  | PChainApi_GetCurrentValidators _ => list Validator
  | PChainApi_GetAccount _ => AccountInfo
  | _ => string
  end.

(** What has happened so far, as far as the node and the clock can tell. *)
Inductive Event : Type :=
| Called (c : Call)
| Slept (d : Z).

(** The state a workflow runs in: the wall clock, and the events so far,
    the latest first. *)
Record World : Type := {
  now : Z;
  history : list Event
}.

(** A [*gecko_client.GeckoClient] with the node behind it: what the node
    answers to a call, given all that happened before it, and how much
    wall-clock time an event takes on top of what it asks for (a call asks
    for none, a sleep for its duration), in nanoseconds. *)
Record GeckoClient : Type := {
  respond : list Event -> forall c : Call, reply (Returns c);
  overhead : list Event -> Event -> N
}.

Definition M (A : Type) : Type := World -> option A * World.

Definition ret {A : Type} (a : A) : M A := fun w => (Some a, w).

Definition bind {A B : Type} (m : M A) (k : A -> M B) : M B :=
  fun w =>
    match m w with
    | (Some a, w') => k a w'
    | (None, w') => (None, w')
    end.

(** The run is still going when the fuel is gone. *)
Definition outOfFuel {A : Type} : M A := fun w => (None, w).

Definition asksFor (e : Event) : Z :=
  match e with
  | Called _ => 0
  | Slept d => Z.max 0 d
  end.

Definition after (client : GeckoClient) (e : Event) (w : World) : World :=
  {| now := now w + asksFor e + Z.of_N (overhead client (history w) e);
     history := e :: history w |}.

Definition call (client : GeckoClient) (c : Call) : M (reply (Returns c)) :=
  fun w => (Some (respond client (history w) c), after client (Called c) w).

Definition time_Sleep (client : GeckoClient) (d : Z) : M unit :=
  fun w => (Some tt, after client (Slept d) w).

Definition time_Now : M Z := fun w => (Some (now w), w).

Definition time_Since (t : Z) : M Z := fun w => (Some (Time_Sub (now w) t), w).

Declare Scope go_scope.
Delimit Scope go_scope with go.
Notation "x <- m ;; k" := (bind m (fun x => k))
  (at level 61, m at next level, right associativity) : go_scope.
Notation "m ;; k" := (bind m (fun _ => k))
  (at level 61, right associativity) : go_scope.
(** [x, err := m; if err != nil { return f err }; k] *)
Notation "x <- m 'orReturn' f ;; k" :=
  (bind m (fun r => match r with
                    | Got x => k
                    | Failed text => ret (f (Foreign text))
                    end))
  (at level 61, m at next level, f at next level, right associativity) : go_scope.
(** The same for a function of the runner, which returns [(T, error)]. *)
Notation "x <-- m 'orReturn' f ;; k" :=
  (bind m (fun r => match r with
                    | inl x => k
                    | inr err => ret (f err)
                    end))
  (at level 61, m at next level, f at next level, right associativity) : go_scope.
(** [err := m; if err != nil { return f err }; k] *)
Notation "m 'orReturn' f ;; k" :=
  (bind m (fun r => match r with
                    | None => k
                    | Some err => ret (f err)
                    end))
  (at level 61, f at next level, right associativity) : go_scope.

Local Open Scope go_scope.

(** How a loop with a [return] in its body ends. *)
Inductive LoopEnd (R S : Type) : Type :=
| Returned (r : R)
| Finished (s : S).
Arguments Returned {R S} r.
Arguments Finished {R S} s.

Record GeckoUser : Type := {
  username : string;
  password : string
}.

Definition NewGeckoUser (username password : string) : GeckoUser :=
  {| username := username; password := password |}.

Record RpcWorkflowRunner : Type := {
  client : GeckoClient;
  geckoUser : GeckoUser;
  networkAcceptanceTimeout : Z
}.

Definition NewRpcWorkflowRunner (client : GeckoClient) (username password : string)
    (networkAcceptanceTimeout : Z) : RpcWorkflowRunner :=
  {| client := client;
     geckoUser := NewGeckoUser username password;
     networkAcceptanceTimeout := networkAcceptanceTimeout |}.

Definition getCurrentPayerNonce (runner : RpcWorkflowRunner) (pchainAddress : string)
  : M (Z + error) :=
  pchainAccountInfo <- call (client runner) (PChainApi_GetAccount pchainAddress)
    orReturn (fun err => inr (Propagate err "Failed to get pchain account info.")) ;;
  match strconv_Atoi (Nonce pchainAccountInfo) with
  | Failed text => ret (inr (Propagate (Foreign text) ""))
  | Got currentPayerNonce => ret (inl currentPayerNonce)
  end.

Fixpoint checkValidatorInValidators (nodeId : string) (validators : list Validator) : bool :=
  match validators with
  | [] => false
  | validator :: rest =>
      if String.eqb (ValidatorId validator) nodeId then true
      else checkValidatorInValidators nodeId rest
  end.

(** The loop of [waitForXchainTransactionAcceptance]. *)
Fixpoint waitForXchainTransactionAcceptance_loop (fuel : nat)
    (runner : RpcWorkflowRunner) (txnId : string) (pollStartTime : Z) (status : string)
  : M (LoopEnd (option error) string) :=
  elapsed <- time_Since pollStartTime ;;
  if (elapsed <? networkAcceptanceTimeout runner)
       && negb (String.eqb status TRANSACTION_ACCEPTED_STATUS)
  then
    match fuel with
    | O => outOfFuel
    | S fuel' =>
        status <- call (client runner) (XChainApi_GetTxStatus txnId)
          orReturn (fun err => Returned (Some (Propagate err "Failed to get status."))) ;;
        time_Sleep (client runner) time_Second ;;
        waitForXchainTransactionAcceptance_loop fuel' runner txnId pollStartTime status
    end
  else ret (Finished status).

Definition waitForXchainTransactionAcceptance (fuel : nat)
    (runner : RpcWorkflowRunner) (txnId : string) : M (option error) :=
  status <- call (client runner) (XChainApi_GetTxStatus txnId)
    orReturn (fun err => Some (Propagate err "Failed to get status.")) ;;
  pollStartTime <- time_Now ;;
  ended <- waitForXchainTransactionAcceptance_loop fuel runner txnId pollStartTime status ;;
  match ended with
  | Returned r => ret r
  | Finished status =>
      if negb (String.eqb status TRANSACTION_ACCEPTED_STATUS) then
        ret (Some (NewError ("Timed out waiting for transaction " ++ txnId
                               ++ " to be accepted on the XChain.")))
      else ret None
  end.

(** The loop of [waitForValidatorAddition]. *)
Fixpoint waitForValidatorAddition_loop (fuel : nat)
    (runner : RpcWorkflowRunner) (nodeId : string) (subnetIdPtr : option string)
    (pollStartTime : Z) (validators : list Validator)
  : M (LoopEnd (option error) (list Validator)) :=
  elapsed <- time_Since pollStartTime ;;
  if (elapsed <? networkAcceptanceTimeout runner)
       && negb (checkValidatorInValidators nodeId validators)
  then
    match fuel with
    | O => outOfFuel
    | S fuel' =>
        time_Sleep (client runner) time_Second ;;
        validators <- call (client runner) (PChainApi_GetCurrentValidators subnetIdPtr)
          orReturn (fun err => Returned (Some (Propagate err "Could not get current validators"))) ;;
        waitForValidatorAddition_loop fuel' runner nodeId subnetIdPtr pollStartTime validators
    end
  else ret (Finished validators).

Definition waitForValidatorAddition (fuel : nat)
    (runner : RpcWorkflowRunner) (nodeId : string) (subnetIdPtr : option string)
  : M (option error) :=
  validators <- call (client runner) (PChainApi_GetCurrentValidators subnetIdPtr)
    orReturn (fun err => Some (Propagate err "Could not get current validators")) ;;
  pollStartTime <- time_Now ;;
  ended <- waitForValidatorAddition_loop fuel runner nodeId subnetIdPtr pollStartTime validators ;;
  match ended with
  | Returned r => ret r
  | Finished validators =>
      if negb (checkValidatorInValidators nodeId validators) then
        ret (Some (NewError ("Timed out waiting for validator " ++ nodeId
                               ++ " to be accepted as a validator by the network.")))
      else ret None
  end.

(** The loop of [waitForPchainNonZeroBalance]. *)
Fixpoint waitForPchainNonZeroBalance_loop (fuel : nat)
    (runner : RpcWorkflowRunner) (pchainAddress : string)
    (pollStartTime : Z) (balance : string)
  : M (LoopEnd (option error) string) :=
  elapsed <- time_Since pollStartTime ;;
  if (elapsed <? networkAcceptanceTimeout runner) && String.eqb balance "0"
  then
    match fuel with
    | O => outOfFuel
    | S fuel' =>
        pchainAccount <- call (client runner) (PChainApi_GetAccount pchainAddress)
          orReturn (fun err => Returned (Some (Propagate err "Failed to get account information."))) ;;
        let balance := Balance pchainAccount in
        time_Sleep (client runner) time_Second ;;
        waitForPchainNonZeroBalance_loop fuel' runner pchainAddress pollStartTime balance
    end
  else ret (Finished balance).

Definition waitForPchainNonZeroBalance (fuel : nat)
    (runner : RpcWorkflowRunner) (pchainAddress : string) : M (option error) :=
  pchainAccount <- call (client runner) (PChainApi_GetAccount pchainAddress)
    orReturn (fun err => Some (Propagate err "Could not get PChain account information")) ;;
  let balance := Balance pchainAccount in
  (* the second [if err != nil] tests the same nil [err] again *)
  pollStartTime <- time_Now ;;
  ended <- waitForPchainNonZeroBalance_loop fuel runner pchainAddress pollStartTime balance ;;
  match ended with
  | Returned r => ret r
  | Finished balance =>
      if String.eqb balance "0" then
        ret (Some (NewError ("Timed out waiting for PChain address " ++ pchainAddress
                               ++ " to receive funds.")))
      else ret None
  end.

(** The loop [for time.Now().Unix() < startTime { time.Sleep(time.Second) }]
    that ends [AddDelegatorOnSubnet] and precedes the wait of
    [AddValidatorOnSubnet]. *)
Fixpoint sleepUntilStartTime (fuel : nat) (runner : RpcWorkflowRunner) (startTime : Z)
  : M unit :=
  t <- time_Now ;;
  if Time_Unix t <? startTime then
    match fuel with
    | O => outOfFuel
    | S fuel' =>
        time_Sleep (client runner) time_Second ;;
        sleepUntilStartTime fuel' runner startTime
    end
  else ret tt.

Definition AddDelegatorOnSubnet (fuel : nat) (runner : RpcWorkflowRunner)
    (delegateeNodeId pchainAddress : string) (stakeAmount : Z) : M (option error) :=
  let client := client runner in
  currentPayerNonce <-- getCurrentPayerNonce runner pchainAddress
    orReturn (fun err => Some (Propagate err
                ("Failed to get payer nonce from address " ++ pchainAddress))) ;;
  t <- time_Now ;;
  let delegatorStartTime := Time_Unix (Time_Add t TIME_UNTIL_DELEGATING_BEGINS) in
  t' <- time_Now ;;
  addDelegatorUnsignedTxn <- call client (PChainApi_AddDefaultSubnetDelegator
      delegateeNodeId
      delegatorStartTime
      (Time_Unix (Time_Add t' TIME_UNTIL_DELEGATING_ENDS))
      stakeAmount
      (int_add currentPayerNonce 1)
      pchainAddress)
    orReturn (fun err => Some (Propagate err
                ("Failed to add default subnet delegator " ++ pchainAddress))) ;;
  addDelegatorSignedTxn <- call client (PChainApi_Sign
      addDelegatorUnsignedTxn
      pchainAddress
      (username (geckoUser runner))
      (password (geckoUser runner)))
    orReturn (fun err => Some (Propagate err "Failed to sign delegator transaction.")) ;;
  _ <- call client (PChainApi_IssueTx addDelegatorSignedTxn)
    orReturn (fun err => Some (Propagate err "Failed to issue staker transaction.")) ;;
  sleepUntilStartTime fuel runner delegatorStartTime ;;
  ret None.

Definition AddValidatorOnSubnet (fuel : nat) (runner : RpcWorkflowRunner)
    (nodeId pchainAddress : string) (stakeAmount : Z) : M (option error) :=
  let client := client runner in
  currentPayerNonce <-- getCurrentPayerNonce runner pchainAddress
    orReturn (fun err => Some (Propagate err
                ("Failed to get payer nonce from address " ++ pchainAddress))) ;;
  t <- time_Now ;;
  let stakingStartTime := Time_Unix (Time_Add t TIME_UNTIL_STAKING_BEGINS) in
  t' <- time_Now ;;
  addStakerUnsignedTxn <- call client (PChainApi_AddDefaultSubnetValidator
      nodeId
      stakingStartTime
      (Time_Unix (Time_Add t' TIME_UNTIL_STAKING_ENDS))
      stakeAmount
      (int_add currentPayerNonce 1)
      pchainAddress
      DELEGATION_FEE_RATE)
    orReturn (fun err => Some (Propagate err
                ("Failed to add default subnet staker " ++ nodeId))) ;;
  addStakerSignedTxn <- call client (PChainApi_Sign
      addStakerUnsignedTxn
      pchainAddress
      (username (geckoUser runner))
      (password (geckoUser runner)))
    orReturn (fun err => Some (Propagate err "Failed to sign staker transaction.")) ;;
  _ <- call client (PChainApi_IssueTx addStakerSignedTxn)
    orReturn (fun err => Some (Propagate err "Failed to issue staker transaction.")) ;;
  sleepUntilStartTime fuel runner stakingStartTime ;;
  (* [runner.waitForValidatorAddition(nodeId, nil)]: the result is dropped *)
  _ <- waitForValidatorAddition fuel runner nodeId None ;;
  ret None.

Section Genesis.

(** [ava_networks.DefaultLocalNetGenesisConfig.FundedAddresses.PrivateKey],
    a constant of a package that is not among the files at hand. *)
Variable DefaultLocalNetGenesisConfig_FundedAddresses_PrivateKey : string.

Definition CreateAndSeedXChainAccountFromGenesis (fuel : nat)
    (runner : RpcWorkflowRunner) (amount : Z) : M (string + error) :=
  let client := client runner in
  let username := username (geckoUser runner) in
  let password := password (geckoUser runner) in
  (* [if err != nil { stacktrace.Propagate(err, ...) }]: the wrapped error is
     built and dropped, twice *)
  _ <- call client (KeystoreApi_CreateUser username password) ;;
  _ <- call client (KeystoreApi_CreateUser GENESIS_USERNAME GENESIS_PASSWORD) ;;
  nodeId <- call client InfoApi_GetNodeId
    orReturn (fun err => inr (Propagate err "Could not get node id")) ;;
  genesisAccountAddress <- call client (XChainApi_ImportKey
      GENESIS_USERNAME
      GENESIS_PASSWORD
      DefaultLocalNetGenesisConfig_FundedAddresses_PrivateKey)
    orReturn (fun err => inr (Propagate err "Failed to take control of genesis account.")) ;;
  testAccountAddress <- call client (XChainApi_CreateAddress username password)
    orReturn (fun err => inr (Propagate err "Failed to create address on XChain.")) ;;
  txnId <- call client (XChainApi_Send amount AVA_ASSET_ID testAccountAddress
                          GENESIS_USERNAME GENESIS_PASSWORD)
    orReturn (fun err => inr (Propagate err
                ("Failed to send AVA to test account address " ++ testAccountAddress))) ;;
  waitForXchainTransactionAcceptance fuel runner txnId
    orReturn (fun err => inr (Propagate err "Failed to wait for transaction acceptance.")) ;;
  ret (inl testAccountAddress).

Definition TransferAvaXChainToPChain (fuel : nat)
    (runner : RpcWorkflowRunner) (amount : Z) : M (string + error) :=
  let client := client runner in
  let username := username (geckoUser runner) in
  let password := password (geckoUser runner) in
  pchainAddress <- call client (PChainApi_CreateAccount username password None)
    orReturn (fun err => inr (Propagate err "Failed to create new account on PChain")) ;;
  txnId <- call client (XChainApi_ExportAVA pchainAddress amount username password)
    orReturn (fun err => inr (Propagate err
                ("Failed to export AVA to pchainAddress " ++ pchainAddress))) ;;
  waitForXchainTransactionAcceptance fuel runner txnId
    orReturn (fun err => inr (Propagate err "")) ;;
  currentPayerNonce <-- getCurrentPayerNonce runner pchainAddress
    orReturn (fun err => inr (Propagate err
                ("Failed to get payer nonce from address " ++ pchainAddress))) ;;
  txnId <- call client (PChainApi_ImportAVA username password pchainAddress
                          (int_add currentPayerNonce 1))
    orReturn (fun err => inr (Propagate err
                ("Failed import AVA to pchainAddress " ++ pchainAddress))) ;;
  txnId <- call client (PChainApi_IssueTx txnId)
    orReturn (fun err => inr (Propagate err "Failed to issue importAVA transaction.")) ;;
  (* [runner.waitForPchainNonZeroBalance(pchainAddress)]: the result is dropped *)
  _ <- waitForPchainNonZeroBalance fuel runner pchainAddress ;;
  ret (inl pchainAddress).

(** The loop [for err != nil { ... }] of [TransferAvaPChainToXChain], entered
    with what the first [ImportAVA] gave. *)
Fixpoint TransferAvaPChainToXChain_loop (fuel : nat) (runner : RpcWorkflowRunner)
    (xchainAddress : string) (imported : reply string)
  : M (LoopEnd (string + error) string) :=
  match imported with
  | Got txnId => ret (Finished txnId)
  | Failed text =>
      if strings_Contains text NO_IMPORT_INPUTS_ERROR_STR then
        match fuel with
        | O => outOfFuel
        | S fuel' =>
            imported <- call (client runner) (XChainApi_ImportAVA xchainAddress
                                 (username (geckoUser runner))
                                 (password (geckoUser runner))) ;;
            time_Sleep (client runner) IMPORT_AVA_TO_XCHAIN_TIMEOUT ;;
            TransferAvaPChainToXChain_loop fuel' runner xchainAddress imported
        end
      else
        ret (Returned (inr (Propagate (Foreign text)
                              ("Failed import AVA to xchainAddress " ++ xchainAddress))))
  end.

Definition TransferAvaPChainToXChain (fuel : nat) (runner : RpcWorkflowRunner)
    (pchainAddress xchainAddress : string) (amount : Z) : M (string + error) :=
  let client := client runner in
  let username := username (geckoUser runner) in
  let password := password (geckoUser runner) in
  let xchainAddressWithoutPrefix :=
    strings_TrimPrefix xchainAddress XCHAIN_ADDRESS_PREFIX in
  currentPayerNonce <-- getCurrentPayerNonce runner pchainAddress
    orReturn (fun err => inr (Propagate err
                ("Failed to get current payer nonce from pchainAddress " ++ pchainAddress))) ;;
  unsignedTxnId <- call client (PChainApi_ExportAVA amount xchainAddressWithoutPrefix
                                  (int_add currentPayerNonce 1))
    orReturn (fun err => inr (Propagate err
                ("Failed to export AVA to xchainAddress " ++ xchainAddress))) ;;
  signedTxnId <- call client (PChainApi_Sign unsignedTxnId pchainAddress username password)
    orReturn (fun err => inr (Propagate err "Failed to sign export AVA transaction.")) ;;
  _ <- call client (PChainApi_IssueTx signedTxnId)
    orReturn (fun err => inr (Propagate err "Failed to issue importAVA transaction.")) ;;
  imported <- call client (XChainApi_ImportAVA xchainAddress username password) ;;
  ended <- TransferAvaPChainToXChain_loop fuel runner xchainAddress imported ;;
  match ended with
  | Returned r => ret r
  | Finished txnId =>
      waitForXchainTransactionAcceptance fuel runner txnId
        orReturn (fun err => inr (Propagate err
                    "Failed to wait for acceptance of transaction on XChain.")) ;;
      ret (inl xchainAddress)
  end.

Definition GetFundsAndStartValidating (fuel : nat) (runner : RpcWorkflowRunner)
    (seedAmount stakeAmount : Z) : M (option error) :=
  let client := client runner in
  stakerNodeId <- call client InfoApi_GetNodeId
    orReturn (fun err => Some (Propagate err "Could not get staker node ID.")) ;;
  _ <-- CreateAndSeedXChainAccountFromGenesis fuel runner seedAmount
    orReturn (fun err => Some (Propagate err "Could not seed XChain account from Genesis.")) ;;
  stakerPchainAddress <-- TransferAvaXChainToPChain fuel runner seedAmount
    orReturn (fun err => Some (Propagate err
                "Could not transfer AVA from XChain to PChain account information")) ;;
  _ <-- CreateAndSeedXChainAccountFromGenesis fuel runner seedAmount
    orReturn (fun err => Some (Propagate err "Could not seed XChain account from Genesis.")) ;;
  AddValidatorOnSubnet fuel runner stakerNodeId stakerPchainAddress stakeAmount
    orReturn (fun err => Some (Propagate err
                ("Could not add staker " ++ stakerNodeId ++ " to default subnet."))) ;;
  ret None.

End Genesis.

End rpc_workflow_runner.

(** * Properties of the requester *)

Module requester_properties.

Import gecko_client.

Section Outcomes.

Variable platform : Platform.
Variable requester : geckoJsonRpcRequester.
Variables endpoint method : string.
Variable params : object.

Definition request : JsonRpcRequest :=
  {| JsonRpc := JSON_RPC_VERSION; Method := method; Params := params; Id := 1 |}.

Definition url : string :=
  requestUrl platform requester (strings_TrimLeft endpoint "/").

(** The request could not be turned into JSON. *)
Definition serializationFails : Prop :=
  exists text, json_Marshal platform request = Failed text.

(** The POST of the serialized request gave no response, or the body of the
    response could not be read to its end. *)
Definition transportFails : Prop :=
  exists requestBodyBytes,
    json_Marshal platform request = Got requestBodyBytes /\
    ((exists text,
        http_Post platform url "application/json" requestBodyBytes = Failed text) \/
     (exists resp text,
        http_Post platform url "application/json" requestBodyBytes = Got resp /\
        Body resp = Failed text)).

(** A response came back whole: its status code and its body. *)
Definition received (statusCode : Z) (responseBodyBytes : string) : Prop :=
  exists requestBodyBytes resp,
    json_Marshal platform request = Got requestBodyBytes /\
    http_Post platform url "application/json" requestBodyBytes = Got resp /\
    StatusCode resp = statusCode /\
    Body resp = Got responseBodyBytes.

Definition statusIsNot200 : Prop :=
  exists statusCode body, received statusCode body /\ statusCode <> 200.

Definition envelopeFailsToDeserialize : Prop :=
  exists statusCode body text,
    received statusCode body /\ json_Unmarshal platform body = Failed text.

Definition envelopeCarriesErrorCode : Prop :=
  exists statusCode body response,
    received statusCode body /\
    json_Unmarshal platform body = Got response /\
    Code (Error response) <> 0.

End Outcomes.

(** A response envelope with the given error code. *)
Definition envelope (code : Z) : JsonRpcResponse :=
  {| JsonRpcVersion := "2.0";
     Error := {| Code := code; Message := ""; Data := Nil |};
     Result := [];
     ResponseId := 1 |}.

(** A platform to run the requester on: the node takes [latency] to answer,
    and a client with a timeout shorter than that gives up; the body
    [malformed] does not parse, the body [refused] parses to an envelope
    with error code 7, any other body to one with error code 0. *)
Definition nodeBehind (latency statusCode : Z) (body : string) : Platform :=
  {| json_Marshal := fun r => Got ("{" ++ Method r ++ "}");
     json_Unmarshal := fun b =>
       if String.eqb b "malformed" then Failed "unexpected end of JSON input"
       else if String.eqb b "refused" then Got (envelope 7)
       else Got (envelope 0);
     Client_Post := fun c _ _ _ =>
       if (0 <? Timeout c) && (Timeout c <? latency)
       then Failed "Client.Timeout exceeded while awaiting headers"
       else Got {| StatusCode := statusCode; Body := Got body |};
     Port_Int := fun _ => 9650;
     fmt_object := fun _ => "map[]";
     fmt_JsonRpcError := fun e => "{Code:" ++ fmt_int (Code e) ++ "}" |}.

Definition localNode (requestTimeout : Z) : geckoJsonRpcRequester :=
  newGeckoJsonRpcRequester "127.0.0.1" "9650/tcp" requestTimeout.

End requester_properties.

Import requester_properties.


(** * Properties of the workflow runner *)

Module runner_properties.

Import gecko_client rpc_workflow_runner.

Local Open Scope list_scope.
Local Open Scope go_scope.

(** ** Histories *)

Definition isSleep (e : Event) : Prop := exists d, e = Slept d.

(** [Quiet client h0 h]: [h] extends [h0] with sleeps and with calls that
    the node answered without error. *)
Inductive Quiet (client : GeckoClient) (h0 : list Event) : list Event -> Prop :=
| Quiet_here : Quiet client h0 h0
| Quiet_slept d h : Quiet client h0 h -> Quiet client h0 (Slept d :: h)
| Quiet_called c a h :
    Quiet client h0 h -> respond client h c = Got a ->
    Quiet client h0 (Called c :: h).

(** [Grown P h0 h]: [h] extends [h0] with events that all satisfy [P]. *)
Definition Grown (P : Event -> Prop) (h0 h : list Event) : Prop :=
  exists new, h = new ++ h0 /\ Forall P new.

(** The events of a run, the earliest first. *)
Definition eventsOf {A : Type} (m : M A) (w : World) : list Event :=
  rev (firstn (length (history (snd (m w))) - length (history w))
              (history (snd (m w)))).

(** ** The contract of a wait primitive

    [wait fuel] polls [query] until [holds] is true of what it returns, or
    the acceptance timeout of [runner] has passed, and then fails with
    [timeoutError]. *)
Section WaitContract.

Variable runner : RpcWorkflowRunner.
Variable query : Call.
Variable holds : Returns query -> bool.
Variable timeoutError : error.
Variable wait : nat -> M (option error).

(** One round of the loop takes a second at least, so this many rounds
    outlast the timeout. *)
Definition enoughFuel : nat :=
  S (Z.to_nat (networkAcceptanceTimeout runner / time_Second)).

Definition returnsAtOnce : Prop :=
  forall fuel w v,
    respond (client runner) (history w) query = Got v -> holds v = true ->
    wait fuel w = (Some None, after (client runner) (Called query) w).

Definition timesOut : Prop :=
  (forall h, exists v, respond (client runner) h query = Got v /\ holds v = false) ->
  networkAcceptanceTimeout runner <= maxInt64 ->
  forall fuel w, (enoughFuel <= fuel)%nat ->
    exists w',
      wait fuel w = (Some (Some timeoutError), w') /\
      networkAcceptanceTimeout runner <= now w' - now w.

Definition noStaleSuccess : Prop :=
  forall fuel w w',
    wait fuel w = (Some None, w') ->
    exists sleeps pre v,
      history w' = sleeps ++ Called query :: pre /\
      Forall isSleep sleeps /\
      (length (history w) <= length pre)%nat /\
      respond (client runner) pre query = Got v /\
      holds v = true.

Definition neverPollsForever : Prop :=
  networkAcceptanceTimeout runner <= maxInt64 ->
  forall fuel w, (enoughFuel <= fuel)%nat -> fst (wait fuel w) <> None.

Definition WaitContract : Prop :=
  returnsAtOnce /\ timesOut /\ noStaleSuccess /\ neverPollsForever.

(** A query of the run that the node answered with an error is the last
    event of the run, and the error is what the run returns. *)
Definition propagatesQueryErrors : Prop :=
  forall fuel w post pre text,
    history (snd (wait fuel w)) = post ++ Called query :: pre ->
    (length (history w) <= length pre)%nat ->
    respond (client runner) pre query = Failed text ->
    post = [] /\
    exists msg, fst (wait fuel w) = Some (Some (Propagate (Foreign text) msg)).

End WaitContract.

(** ** The three waits as one

    The loops of the three wait primitives differ in the query, in what they
    keep of its answer, in the test on it, in the messages, and in whether
    the sleep comes before or after the query.  [poll] is the loop with these
    as parameters; each primitive is shown equal to an instance of it. *)
Section Poll.

Variable cl : GeckoClient.
Variable timeout : Z.
Variable query : Call.
Variable State : Type.
Variable observe : Returns query -> State.
Variable done : State -> bool.
Variable sleepFirst : bool.
Variable firstMsg loopMsg : string.
Variable timeoutError : error.

Definition pollOnce (k : State -> M (LoopEnd (option error) State))
  : M (LoopEnd (option error) State) :=
  if sleepFirst then
    time_Sleep cl time_Second ;;
    v <- call cl query
      orReturn (fun err => Returned (Some (Propagate err loopMsg))) ;;
    k (observe v)
  else
    v <- call cl query
      orReturn (fun err => Returned (Some (Propagate err loopMsg))) ;;
    time_Sleep cl time_Second ;;
    k (observe v).

Fixpoint pollLoop (fuel : nat) (pollStartTime : Z) (s : State)
  : M (LoopEnd (option error) State) :=
  elapsed <- time_Since pollStartTime ;;
  if (elapsed <? timeout) && negb (done s) then
    match fuel with
    | O => outOfFuel
    | S fuel' => pollOnce (pollLoop fuel' pollStartTime)
    end
  else ret (Finished s).

Definition poll (fuel : nat) : M (option error) :=
  v <- call cl query orReturn (fun err => Some (Propagate err firstMsg)) ;;
  pollStartTime <- time_Now ;;
  ended <- pollLoop fuel pollStartTime (observe v) ;;
  match ended with
  | Returned r => ret r
  | Finished s => if negb (done s) then ret (Some timeoutError) else ret None
  end.

(** What is known when the loop is left, by the kind of exit. *)
Definition loopPost (fuel : nat) (ps : Z) (s : State) (w : World)
    (r : option (LoopEnd (option error) State)) (w' : World) : Prop :=
  now w <= now w' /\
  match r with
  | None =>
      Quiet cl (history w) (history w') /\
      Z.of_nat fuel * time_Second <= now w' - now w /\
      Time_Sub (now w') ps < timeout
  | Some (Returned x) =>
      exists pre text,
        history w' = Called query :: pre /\
        Quiet cl (history w) pre /\
        respond cl pre query = Failed text /\
        x = Some (Propagate (Foreign text) loopMsg)
  | Some (Finished s') =>
      Quiet cl (history w) (history w') /\
      (Time_Sub (now w') ps < timeout -> done s' = true) /\
      ((w' = w /\ s' = s) \/
       exists sleeps pre v,
         history w' = sleeps ++ Called query :: pre /\
         Forall isSleep sleeps /\
         (length (history w) <= length pre)%nat /\
         respond cl pre query = Got v /\
         s' = observe v)
  end.

(** What is known when the wait is left. *)
Definition pollPost (fuel : nat) (w : World) (r : option (option error)) (w' : World)
  : Prop :=
  let ps := now (after cl (Called query) w) in
  now w <= ps /\ ps <= now w' /\
  ((exists pre text msg,
      history w' = Called query :: pre /\
      Quiet cl (history w) pre /\
      respond cl pre query = Failed text /\
      r = Some (Some (Propagate (Foreign text) msg)))
   \/
   (Quiet cl (history w) (history w') /\
    match r with
    | None =>
        Z.of_nat fuel * time_Second <= now w' - ps /\
        Time_Sub (now w') ps < timeout
    | Some None =>
        exists sleeps pre v,
          history w' = sleeps ++ Called query :: pre /\
          Forall isSleep sleeps /\
          (length (history w) <= length pre)%nat /\
          respond cl pre query = Got v /\
          done (observe v) = true
    | Some (Some e) =>
        e = timeoutError /\
        timeout <= Time_Sub (now w') ps /\
        exists sleeps pre v,
          history w' = sleeps ++ Called query :: pre /\
          Forall isSleep sleeps /\
          (length (history w) <= length pre)%nat /\
          respond cl pre query = Got v /\
          done (observe v) = false
    end)).

End Poll.

(** ** The transfer from the P-chain to the X-chain *)

Definition addressesAsGiven (xchainAddress : string) (e : Event) : Prop :=
  match e with
  | Called (PChainApi_ExportAVA _ to _) =>
      to = strings_TrimPrefix xchainAddress XCHAIN_ADDRESS_PREFIX
  | Called (XChainApi_ImportAVA to _ _) => to = xchainAddress
  | _ => True
  end.

(** The world after the first import and [k] retries of it: a retry follows
    the failed import at once, and a sleep follows each retry. *)
Fixpoint afterImport (cl : GeckoClient) (import : Call) (k : nat) (w : World) : World :=
  match k with
  | O => after cl (Called import) w
  | S k' =>
      after cl (Slept IMPORT_AVA_TO_XCHAIN_TIMEOUT)
        (after cl (Called import) (afterImport cl import k' w))
  end.

(** What the node answers to the first import ([k = 0]) and to the [k]-th
    retry of it. *)
Definition importAnswer (cl : GeckoClient) (import : Call) (k : nat) (w : World)
  : reply (Returns import) :=
  match k with
  | O => respond cl (history w) import
  | S k' => respond cl (history (afterImport cl import k' w)) import
  end.

Definition noImportInputs (answer : reply string) : Prop :=
  exists text,
    answer = Failed text /\ strings_Contains text NO_IMPORT_INPUTS_ERROR_STR = true.

(** The steps of [TransferAvaPChainToXChain] before the import have all
    succeeded from [w], and led to [w4]. *)
Definition exportIssued (runner : RpcWorkflowRunner)
    (pchainAddress xchainAddress : string) (amount : Z) (w w4 : World) : Prop :=
  let cl := client runner in
  exists account nonce unsignedTxnId signedTxnId issued,
    let getAccount := PChainApi_GetAccount pchainAddress in
    let export := PChainApi_ExportAVA amount
                    (strings_TrimPrefix xchainAddress XCHAIN_ADDRESS_PREFIX)
                    (int_add nonce 1) in
    let sign := PChainApi_Sign unsignedTxnId pchainAddress
                  (username (geckoUser runner)) (password (geckoUser runner)) in
    let issue := PChainApi_IssueTx signedTxnId in
    let w1 := after cl (Called getAccount) w in
    let w2 := after cl (Called export) w1 in
    let w3 := after cl (Called sign) w2 in
    respond cl (history w) getAccount = Got account /\
    strconv_Atoi (Nonce account) = Got nonce /\
    respond cl (history w1) export = Got unsignedTxnId /\
    respond cl (history w2) sign = Got signedTxnId /\
    respond cl (history w3) issue = Got issued /\
    w4 = after cl (Called issue) w3.

(** C3 as it is worded: every import of the run but the first comes right
    after a sleep of [IMPORT_AVA_TO_XCHAIN_TIMEOUT]. *)
Definition retriesComeAfterASleep (h : list Event) : Prop :=
  forall post to u p pre,
    h = post ++ Called (XChainApi_ImportAVA to u p) :: pre ->
    (exists to' u' p', In (Called (XChainApi_ImportAVA to' u' p')) pre) ->
    exists pre', pre = Slept IMPORT_AVA_TO_XCHAIN_TIMEOUT :: pre'.


(** How the import loop of [TransferAvaPChainToXChain] is left on an answer
    that is not "no import inputs". *)
Definition importLoopExit (xchainAddress : string) (final : reply string)
  : LoopEnd (string + error) string :=
  match final with
  | Got txnId => Finished txnId
  | Failed text =>
      Returned (inr (Propagate (Foreign text)
                       ("Failed import AVA to xchainAddress " ++ xchainAddress)%string))
  end.

(** ** Payer nonces *)

(** The payer nonce a call carries, for the calls that carry one. *)
Definition payerNonce (c : Call) : option Z :=
  match c with
  | PChainApi_ImportAVA _ _ _ nonce => Some nonce
  | PChainApi_ExportAVA _ _ nonce => Some nonce
  | PChainApi_AddDefaultSubnetValidator _ _ _ _ nonce _ _ => Some nonce
  | PChainApi_AddDefaultSubnetDelegator _ _ _ _ nonce _ => Some nonce
  | _ => None
  end.

Definition eventNonce (e : Event) : option Z :=
  match e with
  | Called c => payerNonce c
  | Slept _ => None
  end.

(** Every call since [h0] that carries a payer nonce comes right after a
    [GetAccount] on [payer], itself made since [h0], and carries the nonce of
    the account that it returned, plus one. *)
Definition freshNonces (cl : GeckoClient) (payer : string) (h0 h : list Event)
  : Prop :=
  forall post c nonce pre,
    h = post ++ Called c :: pre ->
    (length h0 <= length pre)%nat ->
    payerNonce c = Some nonce ->
    exists account n rest,
      pre = Called (PChainApi_GetAccount payer) :: rest /\
      (length h0 <= length rest)%nat /\
      respond cl rest (PChainApi_GetAccount payer) = Got account /\
      strconv_Atoi (Nonce account) = Got n /\
      nonce = int_add n 1.

(** The same, built up event by event. *)
Inductive Fresh (cl : GeckoClient) (payer : string) (h0 : list Event)
  : list Event -> Prop :=
| Fresh_here : Fresh cl payer h0 h0
| Fresh_step e h :
    Fresh cl payer h0 h -> eventNonce e = None -> Fresh cl payer h0 (e :: h)
| Fresh_paid c n account h :
    Fresh cl payer h0 h ->
    respond cl h (PChainApi_GetAccount payer) = Got account ->
    strconv_Atoi (Nonce account) = Got n ->
    payerNonce c = Some (int_add n 1) ->
    Fresh cl payer h0 (Called c :: Called (PChainApi_GetAccount payer) :: h).

(** ** Seeding from genesis *)

(** A funding of an X-chain address from genesis with [amount]. *)
Definition isSeeding (amount : Z) (e : Event) : bool :=
  match e with
  | Called (XChainApi_Send sent assetId _ from pass) =>
      (sent =? amount) && String.eqb assetId AVA_ASSET_ID
        && String.eqb from GENESIS_USERNAME && String.eqb pass GENESIS_PASSWORD
  | _ => false
  end.

Definition seedings (amount : Z) (h : list Event) : nat :=
  length (filter (isSeeding amount) h).


(** ** Nodes to run the workflows against *)

Definition validatorOne : Validator :=
  {| StartTime := "20"; EndTime := "259200"; StakeAmount := "1000";
     ValidatorId := "NodeID-1" |}.

(** A node that answers every call favourably. *)
Definition healthy (h : list Event) (c : Call) : reply (Returns c) :=
  match c as c0 return reply (Returns c0) with
  | InfoApi_GetNodeId => Got "NodeID-1"
  | KeystoreApi_CreateUser _ _ => Got true
  | XChainApi_ImportKey _ _ _ => Got "X-genesis"
  | XChainApi_CreateAddress _ _ => Got "X-test"
  | XChainApi_Send _ _ _ _ _ => Got "tx-send"
  | XChainApi_ExportAVA _ _ _ _ => Got "tx-export"
  | XChainApi_ImportAVA _ _ _ => Got "tx-import"
  | XChainApi_GetTxStatus _ => Got "Accepted"
  | PChainApi_CreateAccount _ _ _ => Got "P-test"
  | PChainApi_ImportAVA _ _ _ _ => Got "unsigned-import"
  | PChainApi_ExportAVA _ _ _ => Got "unsigned-export"
  | PChainApi_IssueTx _ => Got "tx-issued"
  | PChainApi_Sign _ _ _ _ => Got "signed"
  | PChainApi_AddDefaultSubnetValidator _ _ _ _ _ _ _ => Got "unsigned-validator"
  | PChainApi_AddDefaultSubnetDelegator _ _ _ _ _ _ => Got "unsigned-delegator"
  | PChainApi_GetCurrentValidators _ => Got [validatorOne]
  | PChainApi_GetAccount a => Got {| Address := a; Nonce := "3"; Balance := "1000" |}
  end.

Definition node (answers : list Event -> forall c : Call, reply (Returns c))
  : GeckoClient :=
  {| respond := answers; overhead := fun _ _ => 0%N |}.

Definition runnerOn (client : GeckoClient) (timeoutSeconds : Z) : RpcWorkflowRunner :=
  NewRpcWorkflowRunner client "tester" "secret" (timeoutSeconds * time_Second).

Definition start : World := {| now := 0; history := [] |}.

(** The validator set cannot be read. *)
Definition validatorsUnreadable (h : list Event) (c : Call) : reply (Returns c) :=
  match c as c0 return reply (Returns c0) with
  | PChainApi_GetCurrentValidators _ => Failed "connection refused"
  | c0 => healthy h c0
  end.

(** The node never joins the validator set. *)
Definition neverValidator (h : list Event) (c : Call) : reply (Returns c) :=
  match c as c0 return reply (Returns c0) with
  | PChainApi_GetCurrentValidators _ => Got []
  | c0 => healthy h c0
  end.

(** The P-chain account never receives anything. *)
Definition neverFunded (h : list Event) (c : Call) : reply (Returns c) :=
  match c as c0 return reply (Returns c0) with
  | PChainApi_GetAccount a => Got {| Address := a; Nonce := "3"; Balance := "0" |}
  | c0 => healthy h c0
  end.

(** The account can be read until the import is issued, and not after. *)
Definition accountUnreadableAfterIssue (h : list Event) (c : Call)
  : reply (Returns c) :=
  match c as c0 return reply (Returns c0) with
  | PChainApi_GetAccount a =>
      match h with
      | Called (PChainApi_IssueTx _) :: _ => Failed "connection refused"
      | _ => healthy h (PChainApi_GetAccount a)
      end
  | c0 => healthy h c0
  end.

(** No transaction is ever accepted. *)
Definition neverAccepted (h : list Event) (c : Call) : reply (Returns c) :=
  match c as c0 return reply (Returns c0) with
  | XChainApi_GetTxStatus _ => Got "Processing"
  | c0 => healthy h c0
  end.

(** The status can be read until the runner has slept once, and not after. *)
Definition statusUnreadableOnceAsleep (h : list Event) (c : Call)
  : reply (Returns c) :=
  match c as c0 return reply (Returns c0) with
  | XChainApi_GetTxStatus _ =>
      match h with
      | Slept _ :: _ => Failed "connection reset by peer"
      | _ => Got "Processing"
      end
  | c0 => healthy h c0
  end.

Fixpoint importsSoFar (h : list Event) : nat :=
  match h with
  | [] => O
  | Called (XChainApi_ImportAVA _ _ _) :: rest => S (importsSoFar rest)
  | _ :: rest => importsSoFar rest
  end.

(** The X-chain finds no import inputs for the first [n] imports, and then
    answers the next one with [final]. *)
Definition importReadyAfter (n : nat) (final : reply string)
    (h : list Event) (c : Call) : reply (Returns c) :=
  match c as c0 return reply (Returns c0) with
  | XChainApi_ImportAVA _ _ _ =>
      if (importsSoFar h <? n)%nat
      then Failed "problem issuing transaction: no import inputs"
      else final
  | c0 => healthy h c0
  end.

(** The keystore already has both users. *)
Definition usersExist (h : list Event) (c : Call) : reply (Returns c) :=
  match c as c0 return reply (Returns c0) with
  | KeystoreApi_CreateUser name _ =>
      Failed ("user already exists: " ++ name)%string
  | c0 => healthy h c0
  end.


(** The world in which [AddValidatorOnSubnet], run from [start] for
    "NodeID-1" and "P-test" with a stake of 1000 against a node that answers
    as [healthy] up to there, begins to wait for the validator. *)
Definition beforeValidatorWait : World :=
  {| now := 20 * time_Second;
     history :=
       repeat (Slept time_Second) 20 ++
       [Called (PChainApi_IssueTx "signed");
        Called (PChainApi_Sign "unsigned-validator" "P-test" "tester" "secret");
        Called (PChainApi_AddDefaultSubnetValidator "NodeID-1" 20 259200 1000 4
                  "P-test" DELEGATION_FEE_RATE);
        Called (PChainApi_GetAccount "P-test")] |}.

(** The world in which [TransferAvaXChainToPChain], run from [start] with
    1000 against such a node, begins to wait for the balance. *)
Definition beforeBalanceWait : World :=
  {| now := 0;
     history :=
       [Called (PChainApi_IssueTx "unsigned-import");
        Called (PChainApi_ImportAVA "tester" "secret" "P-test" 4);
        Called (PChainApi_GetAccount "P-test");
        Called (XChainApi_GetTxStatus "tx-export");
        Called (XChainApi_ExportAVA "P-test" 1000 "tester" "secret");
        Called (PChainApi_CreateAccount "tester" "secret" None)] |}.

End runner_properties.

Import runner_properties.

(** * Further properties of the runner and of the requester *)

Module extra_properties.

Import gecko_client rpc_workflow_runner runner_properties.

Local Open Scope list_scope.

(** [n] slashes. *)
Fixpoint slashes (n : nat) : string :=
  match n with
  | O => EmptyString
  | S n' => String "/"%char (slashes n')
  end.

(** The error at the bottom of a chain of [Propagate]. *)
Fixpoint rootCause (e : error) : error :=
  match e with
  | Propagate cause _ => rootCause cause
  | _ => e
  end.

(** How a run from [h0] stands at [h]: with [None], every call since [h0]
    was answered without error; with [Some text], the last event is a call
    that the node answered with the error [text], and every call before it
    since [h0] was answered without error. *)
Definition Stopped (cl : GeckoClient) (h0 h : list Event) (failure : option string)
  : Prop :=
  match failure with
  | None => Quiet cl h0 h
  | Some text =>
      exists c pre,
        h = Called c :: pre /\ Quiet cl h0 pre /\ respond cl pre c = Failed text
  end.

(** The least number of seconds between the start and the end of a staking
    or delegating period as the runner asks for it, 72 hours less 20
    seconds: the end is taken from a reading of the clock that comes after
    the reading for the start. *)
Definition stakingSeconds : Z :=
  (TIME_UNTIL_STAKING_ENDS - TIME_UNTIL_STAKING_BEGINS) / time_Second.

(** What a registration of [nodeId], paid from [pchainAddress] with
    [stakeAmount] by the user [user], passes to the node. *)
Definition registersAs (nodeId pchainAddress : string) (stakeAmount : Z)
    (user : GeckoUser) (e : Event) : Prop :=
  match e with
  | Called (PChainApi_AddDefaultSubnetValidator id startTime endTime stake _
              destination feeRate) =>
      id = nodeId /\ startTime + stakingSeconds <= endTime /\
      stake = stakeAmount /\ destination = pchainAddress /\
      feeRate = DELEGATION_FEE_RATE
  | Called (PChainApi_AddDefaultSubnetDelegator id startTime endTime stake _
              destination) =>
      id = nodeId /\ startTime + stakingSeconds <= endTime /\
      stake = stakeAmount /\ destination = pchainAddress
  | Called (PChainApi_Sign _ signer name pass) =>
      signer = pchainAddress /\ name = username user /\ pass = password user
  | _ => True
  end.

(** In the run from [h0] to [h] the call [c] was made and the node answered
    it with [a]. *)
Definition Answered (cl : GeckoClient) (h0 h : list Event) (c : Call)
    (a : Returns c) : Prop :=
  exists post pre,
    h = post ++ Called c :: pre /\
    (length h0 <= length pre)%nat /\
    respond cl pre c = Got a.

(** The P-chain address named by a call that carries a payer nonce and an
    address is [payer]. *)
Definition paidBy (payer : string) (e : Event) : Prop :=
  match e with
  | Called (PChainApi_ImportAVA _ _ to _) => to = payer
  | Called (PChainApi_AddDefaultSubnetValidator _ _ _ _ _ destination _) =>
      destination = payer
  | Called (PChainApi_AddDefaultSubnetDelegator _ _ _ _ _ destination) =>
      destination = payer
  | _ => True
  end.

(** Since [h0] the payer nonces are fetched afresh for [payer], and [payer]
    is the address that the calls carrying one name. *)
Definition Paid (cl : GeckoClient) (payer : string) (h0 h : list Event) : Prop :=
  Fresh cl payer h0 h /\ Grown (paidBy payer) h0 h.

(** The node refuses to sign. *)
Definition signingRefused (h : list Event) (c : Call) : reply (Returns c) :=
  match c as c0 return reply (Returns c0) with
  | PChainApi_Sign _ _ _ _ => Failed "incorrect password"
  | c0 => healthy h c0
  end.

(** The event builds the import on the P-chain. *)
Definition isPChainImport (e : Event) : Prop :=
  exists username password to nonce,
    e = Called (PChainApi_ImportAVA username password to nonce).

(** The event tries the import on the X-chain. *)
Definition isXChainImport (e : Event) : Prop :=
  exists to username password,
    e = Called (XChainApi_ImportAVA to username password).

End extra_properties.
Import extra_properties.

(** * Proofs *)

Import gecko_client rpc_workflow_runner.

Local Open Scope list_scope.
Local Open Scope go_scope.

(** Runs the monadic code of a workflow up to the next answer of the node. *)
Ltac go :=
  cbv [bind call time_Now time_Sleep time_Since ret outOfFuel pollOnce].

(** * The library functions on samples *)

Example strings_TrimLeft_slashes :
  strings_TrimLeft "//ext/P" "/" = "ext/P"%string.
Proof. reflexivity. Qed.

Example strings_TrimPrefix_once :
  strings_TrimPrefix "X-X-abc" "X-" = "X-abc"%string /\
  strings_TrimPrefix "P-abc" "X-" = "P-abc"%string.
Proof. split; reflexivity. Qed.

Example strings_Contains_inside :
  strings_Contains "couldn't import: problem issuing transaction: no import inputs."
    NO_IMPORT_INPUTS_ERROR_STR = true /\
  strings_Contains "problem issuing transaction: insufficient funds"
    NO_IMPORT_INPUTS_ERROR_STR = false.
Proof. split; reflexivity. Qed.

Example strconv_Atoi_samples :
  strconv_Atoi "42" = Got 42 /\ strconv_Atoi "-7" = Got (-7) /\
  (exists t, strconv_Atoi "" = Failed t) /\
  (exists t, strconv_Atoi "4x" = Failed t) /\
  strconv_Atoi "9223372036854775807" = Got maxInt64 /\
  (exists t, strconv_Atoi "9223372036854775808" = Failed t).
Proof. repeat split; try reflexivity; eexists; reflexivity. Qed.

Example int_add_wraps :
  int_add 3 1 = 4 /\ int_add maxInt64 1 = minInt64.
Proof. split; reflexivity. Qed.

Example Time_Unix_floors :
  Time_Unix (Time_Add 1500000000 TIME_UNTIL_STAKING_BEGINS) = 21.
Proof. reflexivity. Qed.



(** C7.  [makeRpcRequest] returns an error if and only if the request does
    not serialize, or the HTTP transport fails (the POST, or the reading of
    the response body), or the status is not 200, or the response envelope
    does not deserialize, or the envelope carries a non-zero error code
    (whatever the status); and it returns a body, which is then the body of
    the response as received, exactly when none of these holds. *)
Theorem makeRpcRequest_error_iff :
  forall platform requester endpoint method params,
    ((exists e, makeRpcRequest platform requester endpoint method params = inr e) <->
     (serializationFails platform method params \/
      transportFails platform requester endpoint method params \/
      statusIsNot200 platform requester endpoint method params \/
      envelopeFailsToDeserialize platform requester endpoint method params \/
      envelopeCarriesErrorCode platform requester endpoint method params)) /\
    (forall body,
       makeRpcRequest platform requester endpoint method params = inl body <->
       (received platform requester endpoint method params 200 body /\
        exists response,
          json_Unmarshal platform body = Got response /\
          Code (Error response) = 0)).
Proof.
  intros platform requester endpoint method params.
  unfold serializationFails, transportFails, statusIsNot200,
    envelopeFailsToDeserialize, envelopeCarriesErrorCode, received, url, request.
  unfold makeRpcRequest.
  set (rq := {| JsonRpc := JSON_RPC_VERSION; Method := method;
                Params := params; Id := 1 |}).
  set (u := requestUrl platform requester (strings_TrimLeft endpoint "/")).
  destruct (json_Marshal platform rq) as [bytes | mtext] eqn:EM.
  2:{ split.
      - split; [intros _; left; eauto |]. intros _; eauto.
      - intros body; split; [discriminate |].
        intros [(q & r & Hq & _) _]. discriminate. }
  destruct (http_Post platform u "application/json" bytes) as [resp | ptext] eqn:EP.
  2:{ split.
      - split; [| intros _; eauto].
        intros _. right; left. exists bytes. split; [reflexivity |]. left; eauto.
      - intros body; split; [discriminate |].
        intros [(q & r & Hq & Hp & _) _]. injection Hq as <-. congruence. }
  destruct (Body resp) as [body0 | btext] eqn:EB.
  2:{ split.
      - split; [| intros _; eauto].
        intros _. right; left. exists bytes. split; [reflexivity |].
        right. exists resp, btext. auto.
      - intros body; split; [discriminate |].
        intros [(q & r & Hq & Hp & _ & Hb) _]. injection Hq as <-.
        rewrite EP in Hp. injection Hp as <-. congruence. }
  assert (R0 : exists q r, Got bytes = Got q /\
                 http_Post platform u "application/json" q = Got r /\
                 StatusCode r = StatusCode resp /\ Body r = Got body0)
    by (exists bytes, resp; auto).
  assert (Runique : forall s b,
             (exists q r, Got bytes = Got q /\
                 http_Post platform u "application/json" q = Got r /\
                 StatusCode r = s /\ Body r = Got b) ->
             s = StatusCode resp /\ b = body0).
  { intros s b (q & r & Hq & Hp & Hs & Hb). injection Hq as <-.
    rewrite EP in Hp. injection Hp as <-. split; congruence. }
  destruct (StatusCode resp =? 200) eqn:ES; cbn [negb].
  2:{ apply Z.eqb_neq in ES. split.
      - split; [| intros _; eauto].
        intros _. right; right; left. exists (StatusCode resp), body0. auto.
      - intros body; split; [discriminate |].
        intros [Hr _]. apply Runique in Hr. destruct Hr as [Hs _]. congruence. }
  apply Z.eqb_eq in ES.
  destruct (json_Unmarshal platform body0) as [response | utext] eqn:EU.
  2:{ split.
      - split; [| intros _; eauto].
        intros _. right; right; right; left.
        exists (StatusCode resp), body0, utext. auto.
      - intros body; split; [discriminate |].
        intros [Hr (response & Hu & _)]. apply Runique in Hr.
        destruct Hr as [_ ->]. congruence. }
  destruct (Code (Error response) =? 0) eqn:EC; cbn [negb].
  2:{ apply Z.eqb_neq in EC. split.
      - split; [| intros _; eauto].
        intros _. right; right; right; right.
        exists (StatusCode resp), body0, response. auto.
      - intros body; split; [discriminate |].
        intros [Hr (response' & Hu & Hc)]. apply Runique in Hr.
        destruct Hr as [_ ->]. rewrite EU in Hu. injection Hu as <-. congruence. }
  apply Z.eqb_eq in EC. split.
  - split; [intros [e He]; discriminate |].
    intros [(t & Ht) | [(q & Hq & Hp) | [(s & b & Hr & Hs) |
             [(s & b & t & Hr & Hu) | (s & b & r & Hr & Hu & Hc)]]]].
    + discriminate.
    + injection Hq as <-. destruct Hp as [(t & Ht) | (r & t & Hr & Hb)].
      * congruence.
      * rewrite EP in Hr. injection Hr as <-. congruence.
    + apply Runique in Hr. destruct Hr as [-> _]. congruence.
    + apply Runique in Hr. destruct Hr as [_ ->]. congruence.
    + apply Runique in Hr. destruct Hr as [_ ->].
      rewrite EU in Hu. injection Hu as <-. congruence.
  - intros body; split.
    + intros H. injection H as <-. split.
      * rewrite <- ES. exact R0.
      * exists response. auto.
    + intros [Hr _]. apply Runique in Hr. destruct Hr as [_ ->]. reflexivity.
Qed.

(** C2 (the code departs from it).  [makeRpcRequest] posts through
    [http.Post], that is through [http.DefaultClient], and never through the
    client that [newGeckoJsonRpcRequester] built with the request timeout:
    its result is the same whatever timeout was configured, and against a
    node that answers after ten seconds a requester configured with a
    five-second timeout gets the response, where a POST through its own
    client gives up. *)
Theorem makeRpcRequest_posts_through_DefaultClient :
  (forall platform ipAddr port requestTimeout endpoint method params,
     makeRpcRequest platform
       (newGeckoJsonRpcRequester ipAddr port requestTimeout) endpoint method params
     = makeRpcRequest platform
         (newGeckoJsonRpcRequester ipAddr port 0) endpoint method params) /\
  (let platform := nodeBehind (10 * time_Second) 200 "{}" in
   let requester := localNode (5 * time_Second) in
   Timeout (gecko_client.client requester) = 5 * time_Second /\
   makeRpcRequest platform requester "/ext/P" "platform.getAccount" [] = inl "{}" /\
   Client_Post platform (gecko_client.client requester)
     "http://127.0.0.1:9650/ext/P" "application/json" "{platform.getAccount}"
   = Failed "Client.Timeout exceeded while awaiting headers" /\
   Client_Post platform http_DefaultClient
     "http://127.0.0.1:9650/ext/P" "application/json" "{platform.getAccount}"
   = Got {| StatusCode := 200; Body := Got "{}" |}).
Proof.
  split.
  - intros. reflexivity.
  - vm_compute. repeat split.
Qed.

Example makeRpcRequest_url :
  requestUrl (nodeBehind 0 200 "{}") (localNode 0) (strings_TrimLeft "//ext/P" "/")
  = "http://127.0.0.1:9650/ext/P".
Proof. reflexivity. Qed.

Example makeRpcRequest_outcomes :
  makeRpcRequest (nodeBehind 0 200 "{}") (localNode 0) "ext/info" "info.getNodeID" []
    = inl "{}" /\
  makeRpcRequest (nodeBehind 0 200 "refused") (localNode 0) "ext/info" "info.getNodeID" []
    = inr (NewError "RPC call failed: {Code:7}") /\
  makeRpcRequest (nodeBehind 0 200 "malformed") (localNode 0) "ext/info" "info.getNodeID" []
    = inr (Propagate (Foreign "unexpected end of JSON input")
             "Error unmarshalling JSON response") /\
  makeRpcRequest (nodeBehind 0 503 "busy") (localNode 0) "ext/info" "info.getNodeID" []
    = inr (NewError "Received response with non-200 code '503' and response body 'busy'").
Proof. repeat split. Qed.



(** * The wait primitives *)


Lemma waitX_loop_poll runner txnId ps fuel : forall s w,
  waitForXchainTransactionAcceptance_loop fuel runner txnId ps s w
  = pollLoop (client runner) (networkAcceptanceTimeout runner)
      (XChainApi_GetTxStatus txnId) string (fun s => s)
      (fun s => String.eqb s TRANSACTION_ACCEPTED_STATUS) false
      "Failed to get status." fuel ps s w.
Proof.
  induction fuel as [|f IH]; intros s w; cbn [waitForXchainTransactionAcceptance_loop pollLoop]; go.
  - reflexivity.
  - destruct (_ && _); [|reflexivity].
    destruct (respond _ _ _); [|reflexivity]. apply IH.
Qed.

Lemma waitX_poll fuel runner txnId w :
  waitForXchainTransactionAcceptance fuel runner txnId w =
  poll (client runner) (networkAcceptanceTimeout runner) (XChainApi_GetTxStatus txnId)
    string (fun s => s) (fun s => String.eqb s TRANSACTION_ACCEPTED_STATUS) false
    "Failed to get status." "Failed to get status."
    (NewError ("Timed out waiting for transaction " ++ txnId
                               ++ " to be accepted on the XChain.")) fuel w.
Proof.
  unfold waitForXchainTransactionAcceptance, poll. go.
  destruct (respond _ _ _); [|reflexivity].
  rewrite waitX_loop_poll. reflexivity.
Qed.

Lemma waitV_loop_poll runner nodeId subnet ps fuel : forall s w,
  waitForValidatorAddition_loop fuel runner nodeId subnet ps s w
  = pollLoop (client runner) (networkAcceptanceTimeout runner)
      (PChainApi_GetCurrentValidators subnet) (list Validator) (fun s => s)
      (checkValidatorInValidators nodeId) true
      "Could not get current validators" fuel ps s w.
Proof.
  induction fuel as [|f IH]; intros s w; cbn [waitForValidatorAddition_loop pollLoop]; go.
  - reflexivity.
  - destruct (_ && _); [|reflexivity].
    destruct (respond _ _ _); [|reflexivity]. apply IH.
Qed.

Lemma waitV_poll fuel runner nodeId subnet w :
  waitForValidatorAddition fuel runner nodeId subnet w =
  poll (client runner) (networkAcceptanceTimeout runner)
    (PChainApi_GetCurrentValidators subnet) (list Validator) (fun s => s)
    (checkValidatorInValidators nodeId) true
    "Could not get current validators" "Could not get current validators"
    (NewError ("Timed out waiting for validator " ++ nodeId
                 ++ " to be accepted as a validator by the network.")) fuel w.
Proof.
  unfold waitForValidatorAddition, poll. go.
  destruct (respond _ _ _); [|reflexivity].
  rewrite waitV_loop_poll. reflexivity.
Qed.

Lemma waitP_loop_poll runner addr ps fuel : forall s w,
  waitForPchainNonZeroBalance_loop fuel runner addr ps s w
  = pollLoop (client runner) (networkAcceptanceTimeout runner)
      (PChainApi_GetAccount addr) string Balance
      (fun b => negb (String.eqb b "0")) false
      "Failed to get account information." fuel ps s w.
Proof.
  induction fuel as [|f IH]; intros s w; cbn [waitForPchainNonZeroBalance_loop pollLoop]; go;
    rewrite negb_involutive.
  - reflexivity.
  - destruct (_ && _); [|reflexivity].
    destruct (respond _ _ _); [|reflexivity]. apply IH.
Qed.

Lemma waitP_poll fuel runner addr w :
  waitForPchainNonZeroBalance fuel runner addr w =
  poll (client runner) (networkAcceptanceTimeout runner)
    (PChainApi_GetAccount addr) string Balance
    (fun b => negb (String.eqb b "0")) false
    "Could not get PChain account information" "Failed to get account information."
    (NewError ("Timed out waiting for PChain address " ++ addr
                 ++ " to receive funds.")) fuel w.
Proof.
  unfold waitForPchainNonZeroBalance, poll. go.
  destruct (respond _ _ _); [|reflexivity].
  rewrite waitP_loop_poll.
  destruct (pollLoop _ _ _ _ _ _ _ _ _ _ _ _) as [[[r|s]|] w']; try reflexivity.
  rewrite negb_involutive. reflexivity.
Qed.

Lemma Quiet_trans cl h0 h1 h2 : Quiet cl h0 h1 -> Quiet cl h1 h2 -> Quiet cl h0 h2.
Proof.
  intros H01 H12. induction H12; [assumption | |].
  - now apply Quiet_slept.
  - eapply Quiet_called; eauto.
Qed.

Lemma Quiet_answered cl h0 h :
  Quiet cl h0 h ->
  forall post c pre,
    h = post ++ Called c :: pre -> (length h0 <= length pre)%nat ->
    exists a, respond cl pre c = Got a.
Proof.
  induction 1 as [| d h Hq IH | c' a h Hq IH Ha]; intros post c pre E L.
  - exfalso. apply (f_equal (@length Event)) in E.
    rewrite length_app in E. cbn [length] in E. lia.
  - destruct post as [| e post]; cbn [app] in E; [discriminate |].
    injection E as _ E. eapply IH; eauto.
  - destruct post as [| e post]; cbn [app] in E.
    + injection E as -> ->. eauto.
    + injection E as _ E. eapply IH; eauto.
Qed.

Lemma after_now_le cl e w : now w + asksFor e <= now (after cl e w).
Proof. unfold after; cbn [now]. lia. Qed.

Lemma time_Second_pos : 0 < time_Second.
Proof. reflexivity. Qed.

Lemma after_sleep_now cl w :
  now w + time_Second <= now (after cl (Slept time_Second) w).
Proof.
  pose proof (after_now_le cl (Slept time_Second) w) as H.
  change (asksFor (Slept time_Second)) with time_Second in H. exact H.
Qed.

Lemma after_call_now cl c w : now w <= now (after cl (Called c) w).
Proof.
  pose proof (after_now_le cl (Called c) w) as H. cbn [asksFor] in H. lia.
Qed.

Section PollFacts.

Variable cl : GeckoClient.
Variable timeout : Z.
Variable query : Call.
Variable State : Type.
Variable observe : Returns query -> State.
Variable done : State -> bool.
Variable sleepFirst : bool.
Variable firstMsg loopMsg : string.
Variable timeoutError : error.

Let loop := pollLoop cl timeout query State observe done sleepFirst loopMsg.
Let loopPost := loopPost cl timeout query State observe done loopMsg.
Let wait :=
  poll cl timeout query State observe done sleepFirst firstMsg loopMsg timeoutError.
Let pollPost := pollPost cl timeout query State observe done timeoutError.

Lemma pollLoop_spec fuel ps : forall s w,
  loopPost fuel ps s w (fst (loop fuel ps s w)) (snd (loop fuel ps s w)).
Proof.
  subst loop. pose proof time_Second_pos as Hsec.
  induction fuel as [| f IH]; intros s w; cbn [pollLoop]; go.
  - destruct (Time_Sub (now w) ps <? timeout) eqn:ET; cbn [andb].
    + destruct (done s) eqn:ED; cbn [negb fst snd]; unfold loopPost, runner_properties.loopPost.
      * split; [lia |]. split; [constructor |]. split; [auto |]. left; auto.
      * split; [lia |]. split; [constructor |].
        apply Z.ltb_lt in ET. split; [lia | assumption].
    + cbn [fst snd]; unfold loopPost, runner_properties.loopPost. split; [lia |]. split; [constructor |].
      apply Z.ltb_ge in ET. split; [lia |]. left; auto.
  - destruct (Time_Sub (now w) ps <? timeout) eqn:ET; cbn [andb].
    2:{ cbn [fst snd]; unfold loopPost, runner_properties.loopPost. split; [lia |]. split; [constructor |].
        apply Z.ltb_ge in ET. split; [lia |]. left; auto. }
    destruct (done s) eqn:ED; cbn [negb].
    { cbn [fst snd]; unfold loopPost, runner_properties.loopPost. split; [lia |]. split; [constructor |].
      split; [auto |]. left; auto. }
    destruct sleepFirst.
    + (* sleep, then query *)
      set (w1 := after cl (Slept time_Second) w).
      pose proof (after_sleep_now cl w) as T1. fold w1 in T1.
      destruct (respond cl (history w1) query) as [v | text] eqn:ER.
      * specialize (IH (observe v) (after cl (Called query) w1)).
        pose proof (after_call_now cl query w1) as T2.
        destruct (pollLoop _ _ _ _ _ _ _ _ f ps (observe v) _) as [r w'].
        cbn [fst snd] in *. unfold loopPost, runner_properties.loopPost in *.
        destruct IH as [Hn IH]. split; [lia |].
        assert (Q1 : Quiet cl (history w) (history (after cl (Called query) w1))).
        { cbn [after history]. eapply Quiet_called; [| exact ER].
          subst w1; cbn [after history]. apply Quiet_slept. constructor. }
        destruct r as [[x | s'] |].
        -- destruct IH as (pre & t & Hh & Hq & Hr & Hx).
           exists pre, t. repeat split; auto. eapply Quiet_trans; eauto.
        -- destruct IH as (Hq & Ht & Hv). split; [eapply Quiet_trans; eauto |].
           split; [assumption |]. right.
           destruct Hv as [[-> ->] | (sl & pre & v' & Hh & Hs & Hl & Hr & Hv)].
           ++ exists [], (history w1), v. cbn [app after history].
              repeat split; auto. subst w1; cbn; lia.
           ++ exists sl, pre, v'. repeat split; auto.
              cbn [after history] in Hl. subst w1; cbn [after history] in Hl.
              cbn [length] in Hl. lia.
        -- destruct IH as (Hq & Hf & Ht). split; [eapply Quiet_trans; eauto |].
           split; [| assumption]. lia.
      * cbn [fst snd]. unfold loopPost, runner_properties.loopPost.
        pose proof (after_call_now cl query w1) as T2.
        split; [lia |]. exists (history w1), text. repeat split; auto.
        subst w1; cbn [after history]. apply Quiet_slept. constructor.
    + (* query, then sleep *)
      destruct (respond cl (history w) query) as [v | text] eqn:ER.
      * set (w1 := after cl (Called query) w).
        pose proof (after_call_now cl query w) as T1. fold w1 in T1.
        specialize (IH (observe v) (after cl (Slept time_Second) w1)).
        pose proof (after_sleep_now cl w1) as T2.
        destruct (pollLoop _ _ _ _ _ _ _ _ f ps (observe v) _) as [r w'].
        cbn [fst snd] in *. unfold loopPost, runner_properties.loopPost in *.
        destruct IH as [Hn IH]. split; [lia |].
        assert (Q1 : Quiet cl (history w) (history (after cl (Slept time_Second) w1))).
        { cbn [after history]. apply Quiet_slept.
          subst w1; cbn [after history]. eapply Quiet_called; [constructor | exact ER]. }
        destruct r as [[x | s'] |].
        -- destruct IH as (pre & t & Hh & Hq & Hr & Hx).
           exists pre, t. repeat split; auto. eapply Quiet_trans; eauto.
        -- destruct IH as (Hq & Ht & Hv). split; [eapply Quiet_trans; eauto |].
           split; [assumption |]. right.
           destruct Hv as [[-> ->] | (sl & pre & v' & Hh & Hs & Hl & Hr & Hv)].
           ++ exists [Slept time_Second], (history w), v. cbn [app after history].
              repeat split; auto. constructor; [eexists; reflexivity | constructor].
           ++ exists sl, pre, v'. repeat split; auto.
              cbn [after history] in Hl. subst w1; cbn [after history] in Hl.
              cbn [length] in Hl. lia.
        -- destruct IH as (Hq & Hf & Ht). split; [eapply Quiet_trans; eauto |].
           split; [| assumption]. lia.
      * cbn [fst snd]. unfold loopPost, runner_properties.loopPost.
        pose proof (after_call_now cl query w) as T2.
        split; [lia |]. exists (history w), text. repeat split; auto. constructor.
Qed.


Lemma poll_spec fuel w :
  pollPost fuel w (fst (wait fuel w)) (snd (wait fuel w)).
Proof.
  subst wait. unfold poll, pollPost, runner_properties.pollPost. go.
  pose proof (after_call_now cl query w) as T0.
  destruct (respond cl (history w) query) as [v | text] eqn:ER.
  2:{ cbn [fst snd]. split; [lia |]. split; [lia |]. left.
      exists (history w), text, firstMsg. repeat split; auto. constructor. }
  set (w1 := after cl (Called query) w) in *.
  pose proof (pollLoop_spec fuel (now w1) (observe v) w1) as L.
  fold loop.
  destruct (loop fuel (now w1) (observe v) w1) as [r w'].
  cbn [fst snd] in L. unfold loopPost, runner_properties.loopPost in L. destruct L as [Hn L].
  split; [lia |].
  assert (Q1 : Quiet cl (history w) (history w1))
    by (subst w1; cbn [after history]; eapply Quiet_called; [constructor | exact ER]).
  destruct r as [[x | s'] |].
  - destruct L as (pre & t & Hh & Hq & Hr & ->). cbn [fst snd].
    split; [lia |]. left. exists pre, t, loopMsg. repeat split; auto.
    eapply Quiet_trans; eauto.
  - destruct L as (Hq & Ht & Hv).
    assert (Hlast : exists sleeps pre v',
               history w' = sleeps ++ Called query :: pre /\
               Forall isSleep sleeps /\
               (length (history w) <= length pre)%nat /\
               respond cl pre query = Got v' /\ s' = observe v').
    { destruct Hv as [[-> ->] | (sl & pre & v' & Hh & Hs & Hl & Hr & Hv)].
      - exists [], (history w), v. subst w1. cbn [app after history]. auto.
      - exists sl, pre, v'. repeat split; auto.
        subst w1; cbn [after history length] in Hl. lia. }
    destruct Hlast as (sl & pre & v' & Hh & Hs & Hl & Hr & ->).
    destruct (done (observe v')) eqn:ED; cbn [negb fst snd].
    + split; [lia |]. right. split; [eapply Quiet_trans; eauto |].
      exists sl, pre, v'. auto.
    + split; [lia |]. right. split; [eapply Quiet_trans; eauto |].
      split; [reflexivity |]. split.
      * destruct (Z.lt_ge_cases (Time_Sub (now w') (now w1)) timeout) as [Hlt | Hge];
          [apply Ht in Hlt; congruence | assumption].
      * exists sl, pre, v'. auto.
  - destruct L as (Hq & Hf & Ht). cbn [fst snd]. split; [lia |].
    right. split; [eapply Quiet_trans; eauto |]. split; assumption.
Qed.

Lemma poll_returnsAtOnce fuel w v :
  respond cl (history w) query = Got v -> done (observe v) = true ->
  wait fuel w = (Some None, after cl (Called query) w).
Proof.
  intros ER ED. subst wait. unfold poll. go. rewrite ER.
  destruct fuel; cbn [pollLoop]; go; rewrite ED, andb_false_r;
    cbn beta iota; rewrite ?ED; reflexivity.
Qed.

Lemma poll_terminates fuel w :
  timeout <= maxInt64 ->
  (S (Z.to_nat (timeout / time_Second)) <= fuel)%nat ->
  fst (wait fuel w) <> None.
Proof.
  intros Hmax Hfuel Hnone.
  pose proof (poll_spec fuel w) as P. unfold pollPost, runner_properties.pollPost in P.
  destruct P as (H0 & H1 & [(pre & t & m & _ & _ & _ & Hr) | (_ & P)]);
    rewrite Hnone in *; [discriminate |].
  destruct P as [Hf Ht].
  set (x := now (snd (wait fuel w)) - now (after cl (Called query) w)) in *.
  assert (Hx : 0 <= x) by (subst x; lia).
  unfold Time_Sub in Ht. fold x in Ht.
  assert (Hmin : minInt64 < 0) by reflexivity.
  assert (Hxt : x < timeout) by lia.
  pose proof time_Second_pos as Hsec.
  assert (Hpos : 0 < timeout) by lia.
  pose proof (Z.div_pos timeout time_Second ltac:(lia) Hsec) as Hq.
  pose proof (Z.mul_succ_div_gt timeout time_Second Hsec) as Hd.
  assert (Hfz : timeout / time_Second + 1 <= Z.of_nat fuel) by lia.
  nia.
Qed.

Lemma poll_timesOut fuel w :
  (forall h, exists v, respond cl h query = Got v /\ done (observe v) = false) ->
  timeout <= maxInt64 ->
  (S (Z.to_nat (timeout / time_Second)) <= fuel)%nat ->
  exists w', wait fuel w = (Some (Some timeoutError), w') /\
             timeout <= now w' - now w.
Proof.
  intros Hnever Hmax Hfuel.
  pose proof (poll_terminates fuel w Hmax Hfuel) as Hterm.
  pose proof (poll_spec fuel w) as P. unfold pollPost, runner_properties.pollPost in P.
  destruct (wait fuel w) as [r w'] eqn:E. cbn [fst snd] in *.
  exists w'.
  destruct P as (H0 & H1 & [(pre & t & m & _ & _ & Hr & _) | (_ & P)]).
  { destruct (Hnever pre) as (v & Hv & _). congruence. }
  destruct r as [[e |] |]; [| | congruence].
  - destruct P as (-> & Ht & _). split; [reflexivity |].
    unfold Time_Sub in Ht.
    assert (Hmin : minInt64 < 0) by reflexivity. lia.
  - destruct P as (sl & pre & v & _ & _ & _ & Hr & Hd).
    destruct (Hnever pre) as (v' & Hv' & Hd'). congruence.
Qed.

Lemma poll_noStaleSuccess fuel w w' :
  wait fuel w = (Some None, w') ->
  exists sleeps pre v,
    history w' = sleeps ++ Called query :: pre /\
    Forall isSleep sleeps /\
    (length (history w) <= length pre)%nat /\
    respond cl pre query = Got v /\
    done (observe v) = true.
Proof.
  intros E. pose proof (poll_spec fuel w) as P. unfold pollPost, runner_properties.pollPost in P.
  rewrite E in P. cbn [fst snd] in P.
  destruct P as (_ & _ & [(pre & t & m & _ & _ & _ & Hr) | (_ & P)]);
    [discriminate | exact P].
Qed.

Lemma poll_propagatesQueryErrors fuel w post pre text :
  history (snd (wait fuel w)) = post ++ Called query :: pre ->
  (length (history w) <= length pre)%nat ->
  respond cl pre query = Failed text ->
  post = [] /\
  exists msg, fst (wait fuel w) = Some (Some (Propagate (Foreign text) msg)).
Proof.
  intros Hh Hl Hr. pose proof (poll_spec fuel w) as P. unfold pollPost, runner_properties.pollPost in P.
  destruct P as (_ & _ & [(pre' & t & m & Hh' & Hq & Hr' & Hres) | (Hq & _)]).
  - rewrite Hh in Hh'. destruct post as [| e post]; cbn [app] in Hh'.
    + injection Hh' as ->. split; [reflexivity |]. exists m.
      rewrite Hres. congruence.
    + injection Hh' as _ Hp.
      destruct (Quiet_answered cl _ _ Hq post query pre (eq_sym Hp) Hl) as [a Ha].
      congruence.
  - destruct (Quiet_answered cl _ _ Hq post query pre Hh Hl) as [a Ha]. congruence.
Qed.

End PollFacts.

(** C5.  Each of the three wait primitives keeps the contract of a wait:
    when what its first query returns already satisfies the predicate, it
    returns success after that one query, without a sleep; when every query
    is answered without error and never satisfies the predicate, it returns
    the timeout error naming the transaction, the node or the address waited
    on, and by then the acceptance timeout has passed; it returns success
    only when the last query it made satisfied the predicate; and with the
    fuel of one round per second of the timeout it always returns. *)
Theorem wait_primitives_keep_the_contract :
  forall runner : RpcWorkflowRunner,
    (forall txnId,
       WaitContract runner (XChainApi_GetTxStatus txnId)
         (fun status => String.eqb status TRANSACTION_ACCEPTED_STATUS)
         (NewError ("Timed out waiting for transaction " ++ txnId
                      ++ " to be accepted on the XChain.")%string)
         (fun fuel => waitForXchainTransactionAcceptance fuel runner txnId)) /\
    (forall nodeId subnetIdPtr,
       WaitContract runner (PChainApi_GetCurrentValidators subnetIdPtr)
         (checkValidatorInValidators nodeId)
         (NewError ("Timed out waiting for validator " ++ nodeId
                      ++ " to be accepted as a validator by the network.")%string)
         (fun fuel => waitForValidatorAddition fuel runner nodeId subnetIdPtr)) /\
    (forall pchainAddress,
       WaitContract runner (PChainApi_GetAccount pchainAddress)
         (fun account => negb (String.eqb (Balance account) "0"))
         (NewError ("Timed out waiting for PChain address " ++ pchainAddress
                      ++ " to receive funds.")%string)
         (fun fuel => waitForPchainNonZeroBalance fuel runner pchainAddress)).
Proof.
  intros runner. unfold WaitContract, returnsAtOnce, timesOut, noStaleSuccess,
    neverPollsForever, enoughFuel.
  split; [| split].
  - intros txnId. repeat split.
    + intros fuel w v ER ED. rewrite waitX_poll.
      now apply poll_returnsAtOnce with (v := v).
    + intros Hnever Hmax fuel w Hfuel.
      destruct (poll_timesOut (client runner) (networkAcceptanceTimeout runner)
                  (XChainApi_GetTxStatus txnId) string (fun s => s)
                  (fun s => String.eqb s TRANSACTION_ACCEPTED_STATUS) false
                  "Failed to get status." "Failed to get status."
                  (NewError ("Timed out waiting for transaction " ++ txnId
                               ++ " to be accepted on the XChain.")%string)
                  fuel w Hnever Hmax Hfuel) as (w' & E & T).
      exists w'. rewrite waitX_poll. auto.
    + intros fuel w w' E. rewrite waitX_poll in E.
      exact (poll_noStaleSuccess _ _ _ _ _ _ _ _ _ _ _ _ _ E).
    + intros Hmax fuel w Hfuel. rewrite waitX_poll.
      now apply poll_terminates.
  - intros nodeId subnetIdPtr. repeat split.
    + intros fuel w v ER ED. rewrite waitV_poll.
      now apply poll_returnsAtOnce with (v := v).
    + intros Hnever Hmax fuel w Hfuel.
      destruct (poll_timesOut (client runner) (networkAcceptanceTimeout runner)
                  (PChainApi_GetCurrentValidators subnetIdPtr) (list Validator)
                  (fun s => s) (checkValidatorInValidators nodeId) true
                  "Could not get current validators" "Could not get current validators"
                  (NewError ("Timed out waiting for validator " ++ nodeId
                     ++ " to be accepted as a validator by the network.")%string)
                  fuel w Hnever Hmax Hfuel) as (w' & E & T).
      exists w'. rewrite waitV_poll. auto.
    + intros fuel w w' E. rewrite waitV_poll in E.
      exact (poll_noStaleSuccess _ _ _ _ _ _ _ _ _ _ _ _ _ E).
    + intros Hmax fuel w Hfuel. rewrite waitV_poll.
      now apply poll_terminates.
  - intros pchainAddress. repeat split.
    + intros fuel w v ER ED. rewrite waitP_poll.
      now apply poll_returnsAtOnce with (v := v).
    + intros Hnever Hmax fuel w Hfuel.
      destruct (poll_timesOut (client runner) (networkAcceptanceTimeout runner)
                  (PChainApi_GetAccount pchainAddress) string Balance
                  (fun b => negb (String.eqb b "0")) false
                  "Could not get PChain account information"
                  "Failed to get account information."
                  (NewError ("Timed out waiting for PChain address " ++ pchainAddress
                               ++ " to receive funds.")%string)
                  fuel w Hnever Hmax Hfuel) as (w' & E & T).
      exists w'. rewrite waitP_poll. auto.
    + intros fuel w w' E. rewrite waitP_poll in E.
      exact (poll_noStaleSuccess _ _ _ _ _ _ _ _ _ _ _ _ _ E).
    + intros Hmax fuel w Hfuel. rewrite waitP_poll.
      now apply poll_terminates.
Qed.

(** C6.  In each of the three wait primitives a query that the node answers
    with an error is the last event of the run, and the run returns that
    error, wrapped. *)
Theorem wait_primitives_propagate_query_errors :
  forall runner : RpcWorkflowRunner,
    (forall txnId,
       propagatesQueryErrors runner (XChainApi_GetTxStatus txnId)
         (fun fuel => waitForXchainTransactionAcceptance fuel runner txnId)) /\
    (forall nodeId subnetIdPtr,
       propagatesQueryErrors runner (PChainApi_GetCurrentValidators subnetIdPtr)
         (fun fuel => waitForValidatorAddition fuel runner nodeId subnetIdPtr)) /\
    (forall pchainAddress,
       propagatesQueryErrors runner (PChainApi_GetAccount pchainAddress)
         (fun fuel => waitForPchainNonZeroBalance fuel runner pchainAddress)).
Proof.
  intros runner. unfold propagatesQueryErrors. split; [| split].
  - intros txnId fuel w post pre text. rewrite waitX_poll.
    apply poll_propagatesQueryErrors.
  - intros nodeId subnetIdPtr fuel w post pre text. rewrite waitV_poll.
    apply poll_propagatesQueryErrors.
  - intros pchainAddress fuel w post pre text. rewrite waitP_poll.
    apply poll_propagatesQueryErrors.
Qed.

(** The contract at work: three waits that time out after three seconds, and
    one that returns at once. *)
Lemma wait_primitives_keep_the_contract_witness :
  (exists w',
     waitForXchainTransactionAcceptance 4 (runnerOn (node neverAccepted) 3) "tx-send" start
     = (Some (Some (NewError
          "Timed out waiting for transaction tx-send to be accepted on the XChain.")), w') /\
     3 * time_Second <= now w' - now start) /\
  (exists w',
     waitForValidatorAddition 4 (runnerOn (node neverValidator) 3) "NodeID-1" None start
     = (Some (Some (NewError
          "Timed out waiting for validator NodeID-1 to be accepted as a validator by the network.")), w') /\
     3 * time_Second <= now w' - now start) /\
  (exists w',
     waitForPchainNonZeroBalance 4 (runnerOn (node neverFunded) 3) "P-test" start
     = (Some (Some (NewError
          "Timed out waiting for PChain address P-test to receive funds.")), w') /\
     3 * time_Second <= now w' - now start) /\
  waitForXchainTransactionAcceptance 0 (runnerOn (node healthy) 3) "tx-send" start
  = (Some None,
     after (node healthy) (Called (XChainApi_GetTxStatus "tx-send")) start).
Proof.
  split; [| split; [| split]].
  - destruct (wait_primitives_keep_the_contract (runnerOn (node neverAccepted) 3))
      as [HX _].
    destruct (HX "tx-send") as (_ & Htimes & _ & _).
    apply Htimes.
    + intros h. exists "Processing". split; reflexivity.
    + vm_compute. discriminate.
    + vm_compute. apply le_n.
  - destruct (wait_primitives_keep_the_contract (runnerOn (node neverValidator) 3))
      as (_ & HV & _).
    destruct (HV "NodeID-1" None) as (_ & Htimes & _ & _).
    apply Htimes.
    + intros h. exists []. split; reflexivity.
    + vm_compute. discriminate.
    + vm_compute. apply le_n.
  - destruct (wait_primitives_keep_the_contract (runnerOn (node neverFunded) 3))
      as (_ & _ & HP).
    destruct (HP "P-test") as (_ & Htimes & _ & _).
    apply Htimes.
    + intros h. eexists. split; reflexivity.
    + vm_compute. discriminate.
    + vm_compute. apply le_n.
  - destruct (wait_primitives_keep_the_contract (runnerOn (node healthy) 3))
      as [HX _].
    destruct (HX "tx-send") as (Honce & _).
    apply Honce with (v := "Accepted"); reflexivity.
Defined.

(** A status query that fails on the second poll ends the wait there. *)
Lemma wait_primitives_propagate_query_errors_witness :
  let runner := runnerOn (node statusUnreadableOnceAsleep) 3 in
  let q := Called (XChainApi_GetTxStatus "tx-send") in
  history (snd (waitForXchainTransactionAcceptance 5 runner "tx-send" start))
  = [q; Slept time_Second; q; q] /\
  fst (waitForXchainTransactionAcceptance 5 runner "tx-send" start)
  = Some (Some (Propagate (Foreign "connection reset by peer") "Failed to get status.")).
Proof.
  intros runner q.
  destruct (wait_primitives_propagate_query_errors runner) as [HX _].
  destruct (HX "tx-send" 5%nat start [] [Slept time_Second; q; q]
              "connection reset by peer") as [_ [msg Hmsg]].
  - reflexivity.
  - cbn. lia.
  - reflexivity.
  - split; [reflexivity |]. reflexivity.
Defined.

(** * The workflows *)

Lemma Grown_here P h : Grown P h h.
Proof. exists []. split; [reflexivity | constructor]. Qed.

Lemma Grown_cons (P : Event -> Prop) e h0 h :
  P e -> Grown P h0 h -> Grown P h0 (e :: h).
Proof.
  intros He (new & -> & Hn). exists (e :: new). split; [reflexivity |].
  now constructor.
Qed.

Lemma Grown_trans P h0 h1 h2 : Grown P h0 h1 -> Grown P h1 h2 -> Grown P h0 h2.
Proof.
  intros (n1 & -> & H1) (n2 & -> & H2). exists (n2 ++ n1).
  split; [now rewrite app_assoc | now apply Forall_app].
Qed.

Ltac grown :=
  cbn [history after];
  repeat (apply Grown_cons; [first [exact I | reflexivity | eexists; reflexivity | cbn; now auto] |]);
  first [apply Grown_here | eassumption
        | eapply Grown_trans; [| eassumption]; grown ].

Section PollGrown.

Variable cl : GeckoClient.
Variable timeout : Z.
Variable query : Call.
Variable State : Type.
Variable observe : Returns query -> State.
Variable done : State -> bool.
Variable sleepFirst : bool.
Variable firstMsg loopMsg : string.
Variable timeoutError : error.
Variable P : Event -> Prop.
Hypothesis Pquery : P (Called query).
Hypothesis Psleep : P (Slept time_Second).

Lemma pollLoop_grown fuel ps : forall s w,
  Grown P (history w)
    (history (snd (pollLoop cl timeout query State observe done sleepFirst loopMsg
                     fuel ps s w))).
Proof.
  induction fuel as [| f IH]; intros s w; cbn [pollLoop]; go.
  - destruct (_ && _); cbn [snd]; apply Grown_here.
  - destruct (_ && _); cbn [snd]; [| apply Grown_here].
    destruct sleepFirst.
    + destruct (respond cl _ query) as [v | text].
      * eapply Grown_trans; [| apply IH]. grown.
      * cbn [snd]. grown.
    + destruct (respond cl _ query) as [v | text].
      * eapply Grown_trans; [| apply IH]. grown.
      * cbn [snd]. grown.
Qed.

Lemma poll_grown fuel w :
  Grown P (history w)
    (history (snd (poll cl timeout query State observe done sleepFirst
                     firstMsg loopMsg timeoutError fuel w))).
Proof.
  unfold poll. go.
  destruct (respond cl _ query) as [v | text]; [| cbn [snd]; grown].
  pose proof (pollLoop_grown fuel (now (after cl (Called query) w)) (observe v)
                (after cl (Called query) w)) as L.
  destruct (pollLoop _ _ _ _ _ _ _ _ _ _ _ _) as [[[r | s] |] w']; cbn [snd] in *.
  - grown.
  - destruct (negb (done s)); cbn [snd]; grown.
  - grown.
Qed.

End PollGrown.



Lemma waitX_grown P fuel runner txnId w :
  P (Called (XChainApi_GetTxStatus txnId)) -> P (Slept time_Second) ->
  Grown P (history w)
    (history (snd (waitForXchainTransactionAcceptance fuel runner txnId w))).
Proof. intros. rewrite waitX_poll. now apply poll_grown. Qed.

Lemma waitV_grown P fuel runner nodeId subnet w :
  P (Called (PChainApi_GetCurrentValidators subnet)) -> P (Slept time_Second) ->
  Grown P (history w)
    (history (snd (waitForValidatorAddition fuel runner nodeId subnet w))).
Proof. intros. rewrite waitV_poll. now apply poll_grown. Qed.

Lemma waitP_grown P fuel runner addr w :
  P (Called (PChainApi_GetAccount addr)) -> P (Slept time_Second) ->
  Grown P (history w)
    (history (snd (waitForPchainNonZeroBalance fuel runner addr w))).
Proof. intros. rewrite waitP_poll. now apply poll_grown. Qed.

Lemma sleepUntilStartTime_grown P fuel runner startTime :
  P (Slept time_Second) ->
  forall w, Grown P (history w)
              (history (snd (sleepUntilStartTime fuel runner startTime w))).
Proof.
  intros HP. induction fuel as [| f IH]; intros w; cbn [sleepUntilStartTime]; go.
  - destruct (_ <? _); cbn [snd]; apply Grown_here.
  - destruct (_ <? _); cbn [snd]; [| apply Grown_here].
    eapply Grown_trans; [| apply IH]. grown.
Qed.

Lemma importLoop_grown P fuel runner xchainAddress :
  P (Called (XChainApi_ImportAVA xchainAddress (username (geckoUser runner))
               (password (geckoUser runner)))) ->
  P (Slept IMPORT_AVA_TO_XCHAIN_TIMEOUT) ->
  forall imported w,
    Grown P (history w)
      (history (snd (TransferAvaPChainToXChain_loop fuel runner xchainAddress
                       imported w))).
Proof.
  intros HI HS. induction fuel as [| f IH]; intros imported w;
    cbn [TransferAvaPChainToXChain_loop]; go.
  - destruct imported as [txnId | text]; [apply Grown_here |].
    destruct (strings_Contains _ _); apply Grown_here.
  - destruct imported as [txnId | text]; [apply Grown_here |].
    destruct (strings_Contains _ _); [| apply Grown_here].
    eapply Grown_trans; [| apply IH]. grown.
Qed.


Section ImportLoop.

Variable runner : RpcWorkflowRunner.
Variable xchainAddress : string.
Variable w4 : World.

Let cl := client runner.
Let import :=
  XChainApi_ImportAVA xchainAddress (username (geckoUser runner))
    (password (geckoUser runner)).
Let loopExit := importLoopExit xchainAddress.

Lemma importLoop_settles m : forall k fuel final,
  (forall j, (k <= j < k + m)%nat -> noImportInputs (importAnswer cl import j w4)) ->
  importAnswer cl import (k + m) w4 = final ->
  (forall text, final = Failed text ->
                strings_Contains text NO_IMPORT_INPUTS_ERROR_STR = false) ->
  (m <= fuel)%nat ->
  TransferAvaPChainToXChain_loop fuel runner xchainAddress
    (importAnswer cl import k w4) (afterImport cl import k w4)
  = (Some (loopExit final), afterImport cl import (k + m) w4).
Proof.
  induction m as [| m IH]; intros k fuel final Hretry Hfinal Hfatal Hfuel.
  - rewrite Nat.add_0_r in *. rewrite Hfinal. subst loopExit.
    unfold importLoopExit.
    destruct final as [txnId | text].
    + destruct fuel; reflexivity.
    + destruct fuel; cbn [TransferAvaPChainToXChain_loop];
        rewrite (Hfatal text eq_refl); reflexivity.
  - destruct fuel as [| fuel]; [lia |].
    destruct (Hretry k ltac:(lia)) as (text & Hk & Hc).
    rewrite Hk. cbn [TransferAvaPChainToXChain_loop]. rewrite Hc. go.
    fold cl import.
    change (respond cl (history (afterImport cl import k w4)) import)
      with (importAnswer cl import (S k) w4).
    change (after cl (Slept IMPORT_AVA_TO_XCHAIN_TIMEOUT)
              (after cl (Called import) (afterImport cl import k w4)))
      with (afterImport cl import (S k) w4).
    replace (k + S m)%nat with (S k + m)%nat in * by lia.
    apply IH; auto.
    + intros j Hj. apply Hretry. lia.
    + lia.
Qed.

Lemma importLoop_goes_on fuel : forall k,
  (forall j, noImportInputs (importAnswer cl import j w4)) ->
  TransferAvaPChainToXChain_loop fuel runner xchainAddress
    (importAnswer cl import k w4) (afterImport cl import k w4)
  = (None, afterImport cl import (k + fuel) w4).
Proof.
  induction fuel as [| fuel IH]; intros k Hretry;
    destruct (Hretry k) as (text & Hk & Hc); rewrite Hk;
    cbn [TransferAvaPChainToXChain_loop]; rewrite Hc; go.
  - rewrite Nat.add_0_r. reflexivity.
  - fold cl import.
    change (respond cl (history (afterImport cl import k w4)) import)
      with (importAnswer cl import (S k) w4).
    change (after cl (Slept IMPORT_AVA_TO_XCHAIN_TIMEOUT)
              (after cl (Called import) (afterImport cl import k w4)))
      with (afterImport cl import (S k) w4).
    replace (k + S fuel)%nat with (S k + fuel)%nat by lia.
    now apply IH.
Qed.

End ImportLoop.

Lemma importLoop_returned fuel runner xchainAddress : forall imported w res,
  fst (TransferAvaPChainToXChain_loop fuel runner xchainAddress imported w)
  = Some (Returned res) ->
  exists e, res = inr e.
Proof.
  induction fuel as [| fuel IH]; intros imported w res;
    cbn [TransferAvaPChainToXChain_loop]; go.
  - destruct imported as [txnId | text]; [discriminate |].
    destruct (strings_Contains _ _); cbn [fst]; [discriminate |].
    intros H. injection H as <-. eauto.
  - destruct imported as [txnId | text]; [discriminate |].
    destruct (strings_Contains _ _); cbn [fst].
    + apply IH.
    + intros H. injection H as <-. eauto.
Qed.


(** C10.  In every run of [TransferAvaPChainToXChain] the P-chain export is
    addressed to [xchainAddress] without its leading "X-" (the rest of the
    address when it starts with "X-", the address itself when it does not),
    every X-chain import, the first and the retries, is addressed to
    [xchainAddress] as given, and a run that succeeds returns
    [xchainAddress]. *)
Theorem TransferAvaPChainToXChain_addresses :
  forall fuel runner pchainAddress xchainAddress amount w,
    let outcome :=
      TransferAvaPChainToXChain fuel runner pchainAddress xchainAddress amount w in
    Grown (addressesAsGiven xchainAddress) (history w) (history (snd outcome)) /\
    (forall a, fst outcome = Some (inl a) -> a = xchainAddress) /\
    (forall rest,
       xchainAddress = (XCHAIN_ADDRESS_PREFIX ++ rest)%string ->
       strings_TrimPrefix xchainAddress XCHAIN_ADDRESS_PREFIX = rest) /\
    (strings_HasPrefix xchainAddress XCHAIN_ADDRESS_PREFIX = false ->
     strings_TrimPrefix xchainAddress XCHAIN_ADDRESS_PREFIX = xchainAddress).
Proof.
  intros fuel runner pchainAddress xchainAddress amount w outcome.
  assert (Hrun :
    Grown (addressesAsGiven xchainAddress) (history w) (history (snd outcome)) /\
    (forall a, fst outcome = Some (inl a) -> a = xchainAddress)).
  { subst outcome.
    unfold TransferAvaPChainToXChain, getCurrentPayerNonce. go.
    destruct (respond _ _ (PChainApi_GetAccount _)) as [account | text];
      [| cbn [fst snd]; split; [grown | discriminate]].
    destruct (strconv_Atoi _) as [nonce | text];
      [| cbn [fst snd]; split; [grown | discriminate]].
    destruct (respond _ _ (PChainApi_ExportAVA _ _ _)) as [unsignedTxnId | text];
      [| cbn [fst snd]; split; [grown | discriminate]].
    destruct (respond _ _ (PChainApi_Sign _ _ _ _)) as [signedTxnId | text];
      [| cbn [fst snd]; split; [grown | discriminate]].
    destruct (respond _ _ (PChainApi_IssueTx _)) as [issued | text];
      [| cbn [fst snd]; split; [grown | discriminate]].
    match goal with
    | |- context [TransferAvaPChainToXChain_loop ?f ?r ?x ?i ?w0] =>
        pose proof (importLoop_grown (addressesAsGiven xchainAddress) f r x
                      eq_refl I i w0) as L;
        pose proof (importLoop_returned f r x i w0) as R;
        destruct (TransferAvaPChainToXChain_loop f r x i w0)
          as [[[res | txnId] |] w1]
    end; cbn [fst snd] in *.
    - split; [grown |]. destruct (R res eq_refl) as [e ->]. discriminate.
    - match goal with
      | |- context [waitForXchainTransactionAcceptance ?f ?r ?t ?w0] =>
          pose proof (waitX_grown (addressesAsGiven xchainAddress) f r t w0 I I)
            as Wt;
          destruct (waitForXchainTransactionAcceptance f r t w0)
            as [[[e |] |] w2]
      end; cbn [fst snd] in *.
      + split; [grown | discriminate].
      + split; [grown |]. intros a H. now injection H.
      + split; [grown | discriminate].
    - split; [grown | discriminate]. }
  destruct Hrun as [Hgrown Hreturned].
  split; [exact Hgrown |]. split; [exact Hreturned |]. split.
  - intros rest ->. unfold strings_TrimPrefix, XCHAIN_ADDRESS_PREFIX. cbn.
    reflexivity.
  - unfold strings_TrimPrefix, strings_HasPrefix.
    destruct (cutPrefix _ _); [discriminate | reflexivity].
Qed.

(** A transfer to "X-test": the export goes to "test", the import to
    "X-test", and "X-test" is returned. *)
Lemma TransferAvaPChainToXChain_addresses_witness :
  let runner := runnerOn (node healthy) 3 in
  fst (TransferAvaPChainToXChain 5 runner "P-test" "X-test" 7 start)
  = Some (inl "X-test") /\
  eventsOf (TransferAvaPChainToXChain 5 runner "P-test" "X-test" 7) start
  = [Called (PChainApi_GetAccount "P-test");
     Called (PChainApi_ExportAVA 7 "test" 4);
     Called (PChainApi_Sign "unsigned-export" "P-test" "tester" "secret");
     Called (PChainApi_IssueTx "signed");
     Called (XChainApi_ImportAVA "X-test" "tester" "secret");
     Called (XChainApi_GetTxStatus "tx-import")] /\
  strings_TrimPrefix "X-test" XCHAIN_ADDRESS_PREFIX = "test".
Proof.
  intros runner.
  destruct (TransferAvaPChainToXChain_addresses 5 runner "P-test" "X-test" 7 start)
    as (_ & Hreturned & Hcut & _).
  split; [| split].
  - pose proof (Hreturned "X-test" eq_refl) as Hsame. reflexivity.
  - reflexivity.
  - apply Hcut. reflexivity.
Defined.

(** C3, as amended.  Once the export is issued, [TransferAvaPChainToXChain]
    imports on the X-chain; while the answer is an error that contains
    "problem issuing transaction: no import inputs" it makes the same import
    again, at once, and sleeps one second after each such retry.  There is no
    ceiling: after any number [n] of such answers the next import is still
    made, and if they never stop the function never returns.  The first
    answer of another kind ends the loop: an error ends the transfer with
    that error, a transaction id leads to the acceptance wait. *)
Theorem import_is_retried_at_once_and_without_ceiling :
  forall runner pchainAddress xchainAddress amount w w4,
    exportIssued runner pchainAddress xchainAddress amount w w4 ->
    let cl := client runner in
    let import :=
      XChainApi_ImportAVA xchainAddress (username (geckoUser runner))
        (password (geckoUser runner)) in
    (forall n final fuel,
       (forall k, (k < n)%nat -> noImportInputs (importAnswer cl import k w4)) ->
       importAnswer cl import n w4 = final ->
       (forall text, final = Failed text ->
                     strings_Contains text NO_IMPORT_INPUTS_ERROR_STR = false) ->
       (n <= fuel)%nat ->
       TransferAvaPChainToXChain fuel runner pchainAddress xchainAddress amount w
       = match final with
         | Failed text =>
             (Some (inr (Propagate (Foreign text)
                           ("Failed import AVA to xchainAddress "
                              ++ xchainAddress)%string)),
              afterImport cl import n w4)
         | Got txnId =>
             let waited :=
               waitForXchainTransactionAcceptance fuel runner txnId
                 (afterImport cl import n w4) in
             (match fst waited with
              | None => None
              | Some None => Some (inl xchainAddress)
              | Some (Some err) =>
                  Some (inr (Propagate err
                    "Failed to wait for acceptance of transaction on XChain."))
              end, snd waited)
         end) /\
    ((forall k, noImportInputs (importAnswer cl import k w4)) ->
     forall fuel,
       TransferAvaPChainToXChain fuel runner pchainAddress xchainAddress amount w
       = (None, afterImport cl import fuel w4)).
Proof.
  intros runner pchainAddress xchainAddress amount w w4
    (account & nonce & unsignedTxnId & signedTxnId & issued &
     Haccount & Hnonce & Hexport & Hsign & Hissue & Hw4) cl import.
  assert (Hprefix : forall fuel,
    TransferAvaPChainToXChain fuel runner pchainAddress xchainAddress amount w
    = match TransferAvaPChainToXChain_loop fuel runner xchainAddress
              (importAnswer cl import 0 w4) (afterImport cl import 0 w4) with
      | (Some (Returned r), w') => (Some r, w')
      | (Some (Finished txnId), w') =>
          match waitForXchainTransactionAcceptance fuel runner txnId w' with
          | (Some None, w'') => (Some (inl xchainAddress), w'')
          | (Some (Some err), w'') =>
              (Some (inr (Propagate err
                 "Failed to wait for acceptance of transaction on XChain.")), w'')
          | (None, w'') => (None, w'')
          end
      | (None, w') => (None, w')
      end).
  { intros fuel. subst cl import.
    unfold TransferAvaPChainToXChain, getCurrentPayerNonce. go.
    rewrite Haccount, Hnonce.
    cbn [after history] in Hexport, Hsign, Hissue.
    cbn [after history]. rewrite Hexport.
    cbn [after history]. rewrite Hsign.
    cbn [after history]. rewrite Hissue.
    unfold importAnswer, afterImport. rewrite Hw4. cbn [after history].
    destruct (TransferAvaPChainToXChain_loop _ _ _ _ _) as [[[r | txnId] |] w'];
      try reflexivity.
    destruct (waitForXchainTransactionAcceptance _ _ _ _) as [[[err |] |] w''];
      reflexivity. }
  subst cl import. split.
  - intros n final fuel Hretry Hfinal Hfatal Hfuel. rewrite Hprefix.
    rewrite (importLoop_settles runner xchainAddress w4 n 0 fuel final);
      auto.
    + cbn [Nat.add]. destruct final as [txnId | text]; cbn [importLoopExit].
      * destruct (waitForXchainTransactionAcceptance fuel runner txnId _)
          as [[[err |] |] w'']; reflexivity.
      * reflexivity.
    + intros j Hj. apply Hretry. lia.
  - intros Hretry fuel. rewrite Hprefix.
    rewrite (importLoop_goes_on runner xchainAddress w4 fuel 0 Hretry).
    reflexivity.
Qed.

(** Two answers "no import inputs", then a transaction id: the import is
    made three times, the first retry with no sleep before it, and the
    transfer goes on to the acceptance wait. *)
Lemma import_is_retried_at_once_and_without_ceiling_witness :
  let runner := runnerOn (node (importReadyAfter 2 (Got "tx-import"))) 3 in
  let import := Called (XChainApi_ImportAVA "X-test" "tester" "secret") in
  fst (TransferAvaPChainToXChain 5 runner "P-test" "X-test" 7 start)
  = Some (inl "X-test") /\
  eventsOf (TransferAvaPChainToXChain 5 runner "P-test" "X-test" 7) start
  = [Called (PChainApi_GetAccount "P-test");
     Called (PChainApi_ExportAVA 7 "test" 4);
     Called (PChainApi_Sign "unsigned-export" "P-test" "tester" "secret");
     Called (PChainApi_IssueTx "signed");
     import; import; Slept time_Second; import; Slept time_Second;
     Called (XChainApi_GetTxStatus "tx-import")].
Proof.
  intros runner import.
  pose (w4 :=
    after (client runner) (Called (PChainApi_IssueTx "signed"))
      (after (client runner)
         (Called (PChainApi_Sign "unsigned-export" "P-test" "tester" "secret"))
         (after (client runner) (Called (PChainApi_ExportAVA 7 "test" 4))
            (after (client runner) (Called (PChainApi_GetAccount "P-test"))
               start)))).
  assert (Hexport : exportIssued runner "P-test" "X-test" 7 start w4).
  { exists {| Address := "P-test"; Nonce := "3"; Balance := "1000" |}, 3,
      "unsigned-export", "signed", "tx-issued".
    repeat split. }
  destruct (import_is_retried_at_once_and_without_ceiling
              runner "P-test" "X-test" 7 start w4 Hexport) as [Hsettles _].
  assert (E := Hsettles 2%nat (Got "tx-import") 5%nat).
  unfold eventsOf. rewrite E.
  - split; reflexivity.
  - intros k Hk. destruct k as [| [| k]].
    + exists "problem issuing transaction: no import inputs". split; reflexivity.
    + exists "problem issuing transaction: no import inputs". split; reflexivity.
    + exfalso. apply Nat.succ_lt_mono in Hk. apply Nat.succ_lt_mono in Hk.
      exact (Nat.nlt_0_r k Hk).
  - reflexivity.
  - intros text Htext. discriminate Htext.
  - apply Nat.leb_le. reflexivity.
Defined.

(** C3 as it is worded does not hold: the retry of a failed import comes
    before the sleep, not after it.  Against a node that finds no import
    inputs once, the second import follows the first with nothing in
    between. *)
Lemma import_retry_comes_before_the_sleep :
  let runner := runnerOn (node (importReadyAfter 1 (Got "tx-import"))) 3 in
  let import := Called (XChainApi_ImportAVA "X-test" "tester" "secret") in
  eventsOf (TransferAvaPChainToXChain 5 runner "P-test" "X-test" 7) start
  = [Called (PChainApi_GetAccount "P-test");
     Called (PChainApi_ExportAVA 7 "test" 4);
     Called (PChainApi_Sign "unsigned-export" "P-test" "tester" "secret");
     Called (PChainApi_IssueTx "signed");
     import; import; Slept time_Second;
     Called (XChainApi_GetTxStatus "tx-import")] /\
  ~ retriesComeAfterASleep
      (history (snd (TransferAvaPChainToXChain 5 runner "P-test" "X-test" 7 start))).
Proof.
  intros runner import. split; [reflexivity |].
  intros Hclaim.
  destruct (Hclaim
              [Called (XChainApi_GetTxStatus "tx-import"); Slept time_Second]
              "X-test" "tester" "secret"
              [import;
               Called (PChainApi_IssueTx "signed");
               Called (PChainApi_Sign "unsigned-export" "P-test" "tester" "secret");
               Called (PChainApi_ExportAVA 7 "test" 4);
               Called (PChainApi_GetAccount "P-test")]) as [pre' Hpre].
  - reflexivity.
  - exists "X-test", "tester", "secret". left. reflexivity.
  - discriminate Hpre.
Qed.

(** * Payer nonces *)

Lemma Fresh_length cl payer h0 h : Fresh cl payer h0 h -> (length h0 <= length h)%nat.
Proof. induction 1; cbn [length] in *; lia. Qed.

Lemma Fresh_freshNonces cl payer h0 h :
  Fresh cl payer h0 h -> freshNonces cl payer h0 h.
Proof.
  unfold freshNonces.
  induction 1 as [| e h HF IH He | c n account h HF IH Ha Hn Hc];
    intros post c' nonce pre E L N.
  - exfalso. apply (f_equal (@length Event)) in E.
    rewrite length_app in E. cbn [length] in E. lia.
  - destruct post as [| x post]; cbn [app] in E.
    + injection E as -> _. cbn [eventNonce] in He. congruence.
    + injection E as _ E. eapply IH; eauto.
  - destruct post as [| x [| y post]]; cbn [app] in E.
    + injection E as -> <-. exists account, n, h.
      pose proof (Fresh_length _ _ _ _ HF). repeat split; auto. congruence.
    + injection E as _ E _. subst c'. discriminate N.
    + injection E as _ _ E. eapply IH; eauto.
Qed.

Lemma Fresh_grown cl payer h0 h h' :
  Grown (fun e => eventNonce e = None) h h' ->
  Fresh cl payer h0 h -> Fresh cl payer h0 h'.
Proof.
  intros (new & -> & Hn) HF. induction Hn as [| x new Hx Hn IH]; cbn [app].
  - exact HF.
  - now apply Fresh_step.
Qed.

Ltac freshly :=
  cbn [history after];
  repeat first
    [ apply Fresh_here
    | apply Fresh_step; [| reflexivity]
    | eapply Fresh_paid; [| eassumption | eassumption | reflexivity]
    | eapply Fresh_grown; [eassumption |] ].

Lemma AddValidatorOnSubnet_Fresh fuel runner nodeId pchainAddress stakeAmount w :
  Fresh (client runner) pchainAddress (history w)
    (history (snd (AddValidatorOnSubnet fuel runner nodeId pchainAddress stakeAmount w))).
Proof.
  unfold AddValidatorOnSubnet, getCurrentPayerNonce. go.
  destruct (respond _ _ (PChainApi_GetAccount _)) as [account | text] eqn:Ha;
    [| cbn [snd]; freshly].
  destruct (strconv_Atoi _) as [nonce | text] eqn:Hn; [| cbn [snd]; freshly].
  destruct (respond _ _ (PChainApi_AddDefaultSubnetValidator _ _ _ _ _ _ _))
    as [unsignedTxn | text]; [| cbn [snd]; freshly].
  destruct (respond _ _ (PChainApi_Sign _ _ _ _)) as [signedTxn | text];
    [| cbn [snd]; freshly].
  destruct (respond _ _ (PChainApi_IssueTx _)) as [issued | text];
    [| cbn [snd]; freshly].
  match goal with
  | |- context [sleepUntilStartTime ?f ?r ?t ?w0] =>
      pose proof (sleepUntilStartTime_grown (fun e => eventNonce e = None)
                    f r t eq_refl w0) as Hs;
      destruct (sleepUntilStartTime f r t w0) as [[[] |] w1]
  end; cbn [snd] in *; [| freshly].
  match goal with
  | |- context [waitForValidatorAddition ?f ?r ?n ?s ?w0] =>
      pose proof (waitV_grown (fun e => eventNonce e = None)
                    f r n s w0 eq_refl eq_refl) as Hw;
      destruct (waitForValidatorAddition f r n s w0) as [[res |] w2]
  end; cbn [snd] in *; freshly.
Qed.

Lemma AddDelegatorOnSubnet_Fresh fuel runner nodeId pchainAddress stakeAmount w :
  Fresh (client runner) pchainAddress (history w)
    (history (snd (AddDelegatorOnSubnet fuel runner nodeId pchainAddress stakeAmount w))).
Proof.
  unfold AddDelegatorOnSubnet, getCurrentPayerNonce. go.
  destruct (respond _ _ (PChainApi_GetAccount _)) as [account | text] eqn:Ha;
    [| cbn [snd]; freshly].
  destruct (strconv_Atoi _) as [nonce | text] eqn:Hn; [| cbn [snd]; freshly].
  destruct (respond _ _ (PChainApi_AddDefaultSubnetDelegator _ _ _ _ _ _))
    as [unsignedTxn | text]; [| cbn [snd]; freshly].
  destruct (respond _ _ (PChainApi_Sign _ _ _ _)) as [signedTxn | text];
    [| cbn [snd]; freshly].
  destruct (respond _ _ (PChainApi_IssueTx _)) as [issued | text];
    [| cbn [snd]; freshly].
  match goal with
  | |- context [sleepUntilStartTime ?f ?r ?t ?w0] =>
      pose proof (sleepUntilStartTime_grown (fun e => eventNonce e = None)
                    f r t eq_refl w0) as Hs;
      destruct (sleepUntilStartTime f r t w0) as [[[] |] w1]
  end; cbn [snd] in *; freshly.
Qed.

Lemma TransferAvaXChainToPChain_Fresh fuel runner amount w payer :
  (forall a,
     respond (client runner) (history w)
       (PChainApi_CreateAccount (username (geckoUser runner))
          (password (geckoUser runner)) None) = Got a -> a = payer) ->
  Fresh (client runner) payer (history w)
    (history (snd (TransferAvaXChainToPChain fuel runner amount w))).
Proof.
  intros Hpayer. unfold TransferAvaXChainToPChain, getCurrentPayerNonce. go.
  destruct (respond _ _ (PChainApi_CreateAccount _ _ _)) as [pchainAddress | text];
    [| cbn [snd]; freshly].
  specialize (Hpayer pchainAddress eq_refl). subst pchainAddress.
  destruct (respond _ _ (XChainApi_ExportAVA _ _ _ _)) as [txnId | text];
    [| cbn [snd]; freshly].
  match goal with
  | |- context [waitForXchainTransactionAcceptance ?f ?r ?t ?w0] =>
      pose proof (waitX_grown (fun e => eventNonce e = None)
                    f r t w0 eq_refl eq_refl) as Hx;
      destruct (waitForXchainTransactionAcceptance f r t w0) as [[[err |] |] w1]
  end; cbn [snd] in *; [freshly | | freshly].
  destruct (respond _ _ (PChainApi_GetAccount _)) as [account | text] eqn:Ha;
    [| cbn [snd]; freshly].
  destruct (strconv_Atoi _) as [nonce | text] eqn:Hn; [| cbn [snd]; freshly].
  destruct (respond _ _ (PChainApi_ImportAVA _ _ _ _)) as [unsignedTxn | text];
    [| cbn [snd]; freshly].
  destruct (respond _ _ (PChainApi_IssueTx _)) as [issued | text];
    [| cbn [snd]; freshly].
  match goal with
  | |- context [waitForPchainNonZeroBalance ?f ?r ?a ?w0] =>
      pose proof (waitP_grown (fun e => eventNonce e = None)
                    f r a w0 eq_refl eq_refl) as Hp;
      destruct (waitForPchainNonZeroBalance f r a w0) as [[res |] w2]
  end; cbn [snd] in *; freshly.
Qed.

Lemma TransferAvaPChainToXChain_Fresh fuel runner pchainAddress xchainAddress amount w :
  Fresh (client runner) pchainAddress (history w)
    (history (snd (TransferAvaPChainToXChain fuel runner pchainAddress
                     xchainAddress amount w))).
Proof.
  unfold TransferAvaPChainToXChain, getCurrentPayerNonce. go.
  destruct (respond _ _ (PChainApi_GetAccount _)) as [account | text] eqn:Ha;
    [| cbn [snd]; freshly].
  destruct (strconv_Atoi _) as [nonce | text] eqn:Hn; [| cbn [snd]; freshly].
  destruct (respond _ _ (PChainApi_ExportAVA _ _ _)) as [unsignedTxnId | text];
    [| cbn [snd]; freshly].
  destruct (respond _ _ (PChainApi_Sign _ _ _ _)) as [signedTxnId | text];
    [| cbn [snd]; freshly].
  destruct (respond _ _ (PChainApi_IssueTx _)) as [issued | text];
    [| cbn [snd]; freshly].
  match goal with
  | |- context [TransferAvaPChainToXChain_loop ?f ?r ?x ?i ?w0] =>
      pose proof (importLoop_grown (fun e => eventNonce e = None) f r x
                    eq_refl eq_refl i w0) as L;
      destruct (TransferAvaPChainToXChain_loop f r x i w0) as [[[res | txnId] |] w1]
  end; cbn [snd] in *; [freshly | | freshly].
  match goal with
  | |- context [waitForXchainTransactionAcceptance ?f ?r ?t ?w0] =>
      pose proof (waitX_grown (fun e => eventNonce e = None)
                    f r t w0 eq_refl eq_refl) as Hx;
      destruct (waitForXchainTransactionAcceptance f r t w0) as [[[err |] |] w2]
  end; cbn [snd] in *; freshly.
Qed.

Lemma int_add_1 n : minInt64 <= n < maxInt64 -> int_add n 1 = n + 1.
Proof.
  unfold int_add, minInt64, maxInt64. intros H.
  rewrite Z.mod_small; lia.
Qed.

(** C4.  In each of the four workflows that issue a state-mutating P-chain
    call ([AddDefaultSubnetDelegator] in [AddDelegatorOnSubnet],
    [AddDefaultSubnetValidator] in [AddValidatorOnSubnet], [ImportAVA] in
    [TransferAvaXChainToPChain], [ExportAVA] in [TransferAvaPChainToXChain])
    the call comes right after a [GetAccount] on the payer's address made in
    the same run, and its payer nonce is the nonce of the account that this
    [GetAccount] returned, plus one in the arithmetic of Go's [int] (which
    is the integer plus one below the largest [int]). *)
Theorem payer_nonce_is_fetched_afresh :
  forall fuel runner,
    let cl := client runner in
    (forall delegateeNodeId pchainAddress stakeAmount w,
       freshNonces cl pchainAddress (history w)
         (history (snd (AddDelegatorOnSubnet fuel runner delegateeNodeId
                          pchainAddress stakeAmount w)))) /\
    (forall nodeId pchainAddress stakeAmount w,
       freshNonces cl pchainAddress (history w)
         (history (snd (AddValidatorOnSubnet fuel runner nodeId
                          pchainAddress stakeAmount w)))) /\
    (forall amount w pchainAddress,
       (forall a,
          respond cl (history w)
            (PChainApi_CreateAccount (username (geckoUser runner))
               (password (geckoUser runner)) None) = Got a ->
          a = pchainAddress) ->
       freshNonces cl pchainAddress (history w)
         (history (snd (TransferAvaXChainToPChain fuel runner amount w)))) /\
    (forall pchainAddress xchainAddress amount w,
       freshNonces cl pchainAddress (history w)
         (history (snd (TransferAvaPChainToXChain fuel runner pchainAddress
                          xchainAddress amount w)))) /\
    (forall n, minInt64 <= n < maxInt64 -> int_add n 1 = n + 1).
Proof.
  intros fuel runner cl. subst cl. repeat split.
  - intros. apply Fresh_freshNonces, AddDelegatorOnSubnet_Fresh.
  - intros. apply Fresh_freshNonces, AddValidatorOnSubnet_Fresh.
  - intros. now apply Fresh_freshNonces, TransferAvaXChainToPChain_Fresh.
  - intros. apply Fresh_freshNonces, TransferAvaPChainToXChain_Fresh.
  - intros n Hn. now apply int_add_1.
Qed.

(** A transfer from an account with nonce 3: the export carries nonce 4 and
    follows the [GetAccount] that read the 3. *)
Lemma payer_nonce_is_fetched_afresh_witness :
  let runner := runnerOn (node healthy) 3 in
  eventsOf (TransferAvaPChainToXChain 5 runner "P-test" "X-test" 7) start
  = [Called (PChainApi_GetAccount "P-test");
     Called (PChainApi_ExportAVA 7 "test" 4);
     Called (PChainApi_Sign "unsigned-export" "P-test" "tester" "secret");
     Called (PChainApi_IssueTx "signed");
     Called (XChainApi_ImportAVA "X-test" "tester" "secret");
     Called (XChainApi_GetTxStatus "tx-import")] /\
  exists account n rest,
    [Called (PChainApi_GetAccount "P-test")]
    = Called (PChainApi_GetAccount "P-test") :: rest /\
    (length (history start) <= length rest)%nat /\
    respond (client runner) rest (PChainApi_GetAccount "P-test") = Got account /\
    strconv_Atoi (Nonce account) = Got n /\
    4 = int_add n 1.
Proof.
  intros runner. split; [reflexivity |].
  destruct (payer_nonce_is_fetched_afresh 5 runner) as (_ & _ & _ & Hexport & _).
  apply (Hexport "P-test" "X-test" 7 start
           [Called (XChainApi_GetTxStatus "tx-import");
            Called (XChainApi_ImportAVA "X-test" "tester" "secret");
            Called (PChainApi_IssueTx "signed");
            Called (PChainApi_Sign "unsigned-export" "P-test" "tester" "secret")]
           (PChainApi_ExportAVA 7 "test" 4) 4
           [Called (PChainApi_GetAccount "P-test")]).
  - reflexivity.
  - apply Nat.le_0_l.
  - reflexivity.
Defined.

(** * Seeding from genesis, and the whole workflow *)

Lemma waitX_accepted fuel runner txnId w w' :
  waitForXchainTransactionAcceptance fuel runner txnId w = (Some None, w') ->
  exists sleeps pre,
    history w' = sleeps ++ Called (XChainApi_GetTxStatus txnId) :: pre /\
    Forall isSleep sleeps /\
    (length (history w) <= length pre)%nat /\
    respond (client runner) pre (XChainApi_GetTxStatus txnId)
    = Got TRANSACTION_ACCEPTED_STATUS.
Proof.
  intros E. rewrite waitX_poll in E.
  destruct (poll_noStaleSuccess _ _ _ _ _ _ _ _ _ _ _ _ _ E)
    as (sleeps & pre & v & Hh & Hs & Hl & Hr & Hv).
  exists sleeps, pre. repeat split; auto.
  apply String.eqb_eq in Hv. now rewrite Hr, Hv.
Qed.

(** C9.  [CreateAndSeedXChainAccountFromGenesis] makes the two [CreateUser]
    calls and goes on to [GetNodeId] whatever they answer; from there on the
    first step that fails ([GetNodeId], [ImportKey], [CreateAddress], [Send],
    the acceptance wait) ends the run with its error, wrapped, and nothing
    is called after it; and the run returns the address that
    [CreateAddress] gave only when the wait has succeeded, which it does only
    after a [GetTxStatus] of the funding transaction answered "Accepted". *)
Theorem CreateAndSeedXChainAccountFromGenesis_steps :
  forall fuel privateKey runner amount w,
    let cl := client runner in
    let username := username (geckoUser runner) in
    let password := password (geckoUser runner) in
    let outcome :=
      CreateAndSeedXChainAccountFromGenesis privateKey fuel runner amount w in
    let w1 := after cl (Called (KeystoreApi_CreateUser username password)) w in
    let w2 :=
      after cl (Called (KeystoreApi_CreateUser GENESIS_USERNAME GENESIS_PASSWORD))
        w1 in
    let w3 := after cl (Called InfoApi_GetNodeId) w2 in
    match respond cl (history w2) InfoApi_GetNodeId with
    | Failed text =>
        outcome
        = (Some (inr (Propagate (Foreign text) "Could not get node id")), w3)
    | Got nodeId =>
    let importKey :=
      XChainApi_ImportKey GENESIS_USERNAME GENESIS_PASSWORD privateKey in
    let w4 := after cl (Called importKey) w3 in
    match respond cl (history w3) importKey with
    | Failed text =>
        outcome
        = (Some (inr (Propagate (Foreign text)
                        "Failed to take control of genesis account.")), w4)
    | Got genesisAccountAddress =>
    let createAddress := XChainApi_CreateAddress username password in
    let w5 := after cl (Called createAddress) w4 in
    match respond cl (history w4) createAddress with
    | Failed text =>
        outcome
        = (Some (inr (Propagate (Foreign text)
                        "Failed to create address on XChain.")), w5)
    | Got testAccountAddress =>
    let send :=
      XChainApi_Send amount AVA_ASSET_ID testAccountAddress
        GENESIS_USERNAME GENESIS_PASSWORD in
    let w6 := after cl (Called send) w5 in
    match respond cl (history w5) send with
    | Failed text =>
        outcome
        = (Some (inr (Propagate (Foreign text)
                        ("Failed to send AVA to test account address "
                           ++ testAccountAddress)%string)), w6)
    | Got txnId =>
    let waited := waitForXchainTransactionAcceptance fuel runner txnId w6 in
    match fst waited with
    | None => outcome = (None, snd waited)
    | Some (Some err) =>
        outcome
        = (Some (inr (Propagate err "Failed to wait for transaction acceptance.")),
           snd waited)
    | Some None =>
        outcome = (Some (inl testAccountAddress), snd waited) /\
        exists sleeps pre,
          history (snd waited)
          = sleeps ++ Called (XChainApi_GetTxStatus txnId) :: pre /\
          Forall isSleep sleeps /\
          (length (history w6) <= length pre)%nat /\
          respond cl pre (XChainApi_GetTxStatus txnId)
          = Got TRANSACTION_ACCEPTED_STATUS
    end end end end end.
Proof.
  intros fuel privateKey runner amount w cl username password outcome w1 w2 w3.
  subst cl username password outcome w1 w2 w3.
  unfold CreateAndSeedXChainAccountFromGenesis. go.
  destruct (respond _ _ InfoApi_GetNodeId) as [nodeId | text]; [| reflexivity].
  destruct (respond _ _ (XChainApi_ImportKey _ _ _))
    as [genesisAccountAddress | text]; [| reflexivity].
  destruct (respond _ _ (XChainApi_CreateAddress _ _))
    as [testAccountAddress | text]; [| reflexivity].
  destruct (respond _ _ (XChainApi_Send _ _ _ _ _)) as [txnId | text];
    [| reflexivity].
  destruct (waitForXchainTransactionAcceptance fuel runner txnId _)
    as [[[err |] |] w7] eqn:E; cbn [fst snd]; try reflexivity.
  split; [reflexivity |]. exact (waitX_accepted _ _ _ _ _ E).
Qed.

Example CreateAndSeedXChainAccountFromGenesis_users_exist :
  let runner := runnerOn (node usersExist) 3 in
  fst (CreateAndSeedXChainAccountFromGenesis "PrivateKey-1" 5 runner 1000 start)
  = Some (inl "X-test") /\
  eventsOf (CreateAndSeedXChainAccountFromGenesis "PrivateKey-1" 5 runner 1000) start
  = [Called (KeystoreApi_CreateUser "tester" "secret");
     Called (KeystoreApi_CreateUser "genesis" "genesis34!23");
     Called InfoApi_GetNodeId;
     Called (XChainApi_ImportKey "genesis" "genesis34!23" "PrivateKey-1");
     Called (XChainApi_CreateAddress "tester" "secret");
     Called (XChainApi_Send 1000 "AVA" "X-test" "genesis" "genesis34!23");
     Called (XChainApi_GetTxStatus "tx-send")].
Proof. split; reflexivity. Qed.


Lemma Grown_seedings amount h h' :
  Grown (fun e => isSeeding amount e = false) h h' ->
  seedings amount h' = seedings amount h.
Proof.
  intros (new & -> & Hn). unfold seedings.
  induction Hn as [| x new Hx Hn IH]; cbn [app filter]; [reflexivity |].
  rewrite Hx. exact IH.
Qed.

Lemma CreateAndSeedXChainAccountFromGenesis_seedings
    privateKey fuel runner amount w a :
  fst (CreateAndSeedXChainAccountFromGenesis privateKey fuel runner amount w)
  = Some (inl a) ->
  seedings amount
    (history (snd (CreateAndSeedXChainAccountFromGenesis privateKey fuel runner
                     amount w)))
  = S (seedings amount (history w)).
Proof.
  unfold CreateAndSeedXChainAccountFromGenesis. go.
  destruct (respond _ _ InfoApi_GetNodeId) as [nodeId | text];
    [| discriminate].
  destruct (respond _ _ (XChainApi_ImportKey _ _ _))
    as [genesisAccountAddress | text]; [| discriminate].
  destruct (respond _ _ (XChainApi_CreateAddress _ _))
    as [testAccountAddress | text]; [| discriminate].
  destruct (respond _ _ (XChainApi_Send _ _ _ _ _)) as [txnId | text];
    [| discriminate].
  match goal with
  | |- context [waitForXchainTransactionAcceptance ?f ?r ?t ?w0] =>
      pose proof (waitX_grown (fun e => isSeeding amount e = false)
                    f r t w0 eq_refl eq_refl) as Hx;
      destruct (waitForXchainTransactionAcceptance f r t w0) as [[[err |] |] w1]
  end; cbn [fst snd] in *; try discriminate.
  intros _. rewrite (Grown_seedings _ _ _ Hx).
  cbn [after history]. unfold seedings. cbn [filter isSeeding].
  rewrite Z.eqb_refl. cbn. reflexivity.
Qed.

Lemma TransferAvaXChainToPChain_seeds_nothing amount fuel runner sent w :
  Grown (fun e => isSeeding amount e = false) (history w)
    (history (snd (TransferAvaXChainToPChain fuel runner sent w))).
Proof.
  unfold TransferAvaXChainToPChain, getCurrentPayerNonce. go.
  destruct (respond _ _ (PChainApi_CreateAccount _ _ _)) as [pchainAddress | text];
    [| cbn [snd]; grown].
  destruct (respond _ _ (XChainApi_ExportAVA _ _ _ _)) as [txnId | text];
    [| cbn [snd]; grown].
  match goal with
  | |- context [waitForXchainTransactionAcceptance ?f ?r ?t ?w0] =>
      pose proof (waitX_grown (fun e => isSeeding amount e = false)
                    f r t w0 eq_refl eq_refl) as Hx;
      destruct (waitForXchainTransactionAcceptance f r t w0) as [[[err |] |] w1]
  end; cbn [snd] in *; [grown | | grown].
  destruct (respond _ _ (PChainApi_GetAccount _)) as [account | text];
    [| cbn [snd]; grown].
  destruct (strconv_Atoi _) as [nonce | text]; [| cbn [snd]; grown].
  destruct (respond _ _ (PChainApi_ImportAVA _ _ _ _)) as [unsignedTxn | text];
    [| cbn [snd]; grown].
  destruct (respond _ _ (PChainApi_IssueTx _)) as [issued | text];
    [| cbn [snd]; grown].
  match goal with
  | |- context [waitForPchainNonZeroBalance ?f ?r ?a ?w0] =>
      pose proof (waitP_grown (fun e => isSeeding amount e = false)
                    f r a w0 eq_refl eq_refl) as Hp;
      destruct (waitForPchainNonZeroBalance f r a w0) as [[res |] w2]
  end; cbn [snd] in *; grown.
Qed.

Lemma AddValidatorOnSubnet_seeds_nothing amount fuel runner nodeId
    pchainAddress stakeAmount w :
  Grown (fun e => isSeeding amount e = false) (history w)
    (history (snd (AddValidatorOnSubnet fuel runner nodeId pchainAddress
                     stakeAmount w))).
Proof.
  unfold AddValidatorOnSubnet, getCurrentPayerNonce. go.
  destruct (respond _ _ (PChainApi_GetAccount _)) as [account | text];
    [| cbn [snd]; grown].
  destruct (strconv_Atoi _) as [nonce | text]; [| cbn [snd]; grown].
  destruct (respond _ _ (PChainApi_AddDefaultSubnetValidator _ _ _ _ _ _ _))
    as [unsignedTxn | text]; [| cbn [snd]; grown].
  destruct (respond _ _ (PChainApi_Sign _ _ _ _)) as [signedTxn | text];
    [| cbn [snd]; grown].
  destruct (respond _ _ (PChainApi_IssueTx _)) as [issued | text];
    [| cbn [snd]; grown].
  match goal with
  | |- context [sleepUntilStartTime ?f ?r ?t ?w0] =>
      pose proof (sleepUntilStartTime_grown (fun e => isSeeding amount e = false)
                    f r t eq_refl w0) as Hs;
      destruct (sleepUntilStartTime f r t w0) as [[[] |] w1]
  end; cbn [snd] in *; [| grown].
  match goal with
  | |- context [waitForValidatorAddition ?f ?r ?n ?s ?w0] =>
      pose proof (waitV_grown (fun e => isSeeding amount e = false)
                    f r n s w0 eq_refl eq_refl) as Hw;
      destruct (waitForValidatorAddition f r n s w0) as [[res |] w2]
  end; cbn [snd] in *; grown.
Qed.

(** C8.  [GetFundsAndStartValidating] runs, in this order and each from the
    world the one before left: [GetNodeId]; the seeding of an X-chain account
    from genesis with [seedAmount]; the transfer of [seedAmount] to a new
    P-chain address; the seeding again, with [seedAmount]; and
    [AddValidatorOnSubnet] for the node id of the first step and the P-chain
    address of the third, with [stakeAmount].  The first step that does not
    succeed ends the run with its error, wrapped, in the world that step
    left.  A run that succeeds has funded from genesis exactly twice. *)
Theorem GetFundsAndStartValidating_steps :
  forall fuel privateKey runner seedAmount stakeAmount w,
    let cl := client runner in
    let outcome :=
      GetFundsAndStartValidating privateKey fuel runner seedAmount stakeAmount w in
    let w1 := after cl (Called InfoApi_GetNodeId) w in
    match respond cl (history w) InfoApi_GetNodeId with
    | Failed text =>
        outcome
        = (Some (Some (Propagate (Foreign text) "Could not get staker node ID.")),
           w1)
    | Got stakerNodeId =>
    let seeded :=
      CreateAndSeedXChainAccountFromGenesis privateKey fuel runner seedAmount w1 in
    match fst seeded with
    | None => outcome = (None, snd seeded)
    | Some (inr err) =>
        outcome
        = (Some (Some (Propagate err "Could not seed XChain account from Genesis.")),
           snd seeded)
    | Some (inl _) =>
    let transferred :=
      TransferAvaXChainToPChain fuel runner seedAmount (snd seeded) in
    match fst transferred with
    | None => outcome = (None, snd transferred)
    | Some (inr err) =>
        outcome
        = (Some (Some (Propagate err
             "Could not transfer AVA from XChain to PChain account information")),
           snd transferred)
    | Some (inl stakerPchainAddress) =>
    let seededAgain :=
      CreateAndSeedXChainAccountFromGenesis privateKey fuel runner seedAmount
        (snd transferred) in
    match fst seededAgain with
    | None => outcome = (None, snd seededAgain)
    | Some (inr err) =>
        outcome
        = (Some (Some (Propagate err "Could not seed XChain account from Genesis.")),
           snd seededAgain)
    | Some (inl _) =>
    let added :=
      AddValidatorOnSubnet fuel runner stakerNodeId stakerPchainAddress
        stakeAmount (snd seededAgain) in
    match fst added with
    | None => outcome = (None, snd added)
    | Some (Some err) =>
        outcome
        = (Some (Some (Propagate err
             ("Could not add staker " ++ stakerNodeId
                ++ " to default subnet.")%string)),
           snd added)
    | Some None =>
        outcome = (Some None, snd added) /\
        seedings seedAmount (history (snd added))
        = S (S (seedings seedAmount (history w)))
    end end end end end.
Proof.
  intros fuel privateKey runner seedAmount stakeAmount w cl outcome w1.
  subst cl outcome w1. unfold GetFundsAndStartValidating. go.
  destruct (respond _ _ InfoApi_GetNodeId) as [stakerNodeId | text];
    [| reflexivity].
  match goal with
  | |- context [CreateAndSeedXChainAccountFromGenesis ?k ?f ?r ?a ?w0] =>
      pose proof (CreateAndSeedXChainAccountFromGenesis_seedings k f r a w0) as S1;
      destruct (CreateAndSeedXChainAccountFromGenesis k f r a w0)
        as [[[a1 | err] |] w2]
  end; cbn [fst snd] in *; try reflexivity.
  specialize (S1 a1 eq_refl).
  match goal with
  | |- context [TransferAvaXChainToPChain ?f ?r ?a ?w0] =>
      pose proof (TransferAvaXChainToPChain_seeds_nothing seedAmount f r a w0) as S2;
      destruct (TransferAvaXChainToPChain f r a w0)
        as [[[stakerPchainAddress | err] |] w3]
  end; cbn [fst snd] in *; try reflexivity.
  match goal with
  | |- context [CreateAndSeedXChainAccountFromGenesis ?k ?f ?r ?a ?w0] =>
      pose proof (CreateAndSeedXChainAccountFromGenesis_seedings k f r a w0) as S3;
      destruct (CreateAndSeedXChainAccountFromGenesis k f r a w0)
        as [[[a2 | err] |] w4]
  end; cbn [fst snd] in *; try reflexivity.
  specialize (S3 a2 eq_refl).
  match goal with
  | |- context [AddValidatorOnSubnet ?f ?r ?n ?p ?s ?w0] =>
      pose proof (AddValidatorOnSubnet_seeds_nothing seedAmount f r n p s w0) as S4;
      destruct (AddValidatorOnSubnet f r n p s w0) as [[[err |] |] w5]
  end; cbn [fst snd] in *; try reflexivity.
  split; [reflexivity |].
  rewrite (Grown_seedings _ _ _ S4), S3, (Grown_seedings _ _ _ S2), S1.
  cbn [after history]. unfold seedings. cbn [filter isSeeding]. reflexivity.
Qed.

Example GetFundsAndStartValidating_on_a_healthy_node :
  let runner := runnerOn (node healthy) 3 in
  let outcome := GetFundsAndStartValidating "PrivateKey-1" 30 runner 1000 500 start in
  fst outcome = Some None /\
  seedings 1000 (history (snd outcome)) = 2%nat /\
  In (Called (PChainApi_AddDefaultSubnetValidator "NodeID-1" 20 259200 500 4
                "P-test" DELEGATION_FEE_RATE))
     (history (snd outcome)).
Proof. vm_compute. repeat split. auto 50. Qed.

(** * Wait failures that are dropped *)

(** C1 (the code departs from it).  [AddValidatorOnSubnet] returns success
    when its wait for the validator has failed, be it on a query error or on
    the timeout, and [TransferAvaXChainToPChain] returns the P-chain address
    as a success when its wait for a non-zero balance has failed: both call
    the wait and drop what it returns. *)
Theorem wait_failures_are_dropped :
  (let runner := runnerOn (node validatorsUnreadable) 3 in
   let outcome := AddValidatorOnSubnet 30 runner "NodeID-1" "P-test" 1000 start in
   waitForValidatorAddition 30 runner "NodeID-1" None beforeValidatorWait
   = (Some (Some (Propagate (Foreign "connection refused")
                    "Could not get current validators")), snd outcome) /\
   fst outcome = Some None) /\
  (let runner := runnerOn (node neverValidator) 3 in
   let outcome := AddValidatorOnSubnet 30 runner "NodeID-1" "P-test" 1000 start in
   waitForValidatorAddition 30 runner "NodeID-1" None beforeValidatorWait
   = (Some (Some (NewError
        "Timed out waiting for validator NodeID-1 to be accepted as a validator by the network.")),
      snd outcome) /\
   fst outcome = Some None) /\
  (let runner := runnerOn (node accountUnreadableAfterIssue) 3 in
   let outcome := TransferAvaXChainToPChain 30 runner 1000 start in
   waitForPchainNonZeroBalance 30 runner "P-test" beforeBalanceWait
   = (Some (Some (Propagate (Foreign "connection refused")
                    "Could not get PChain account information")), snd outcome) /\
   fst outcome = Some (inl "P-test")) /\
  (let runner := runnerOn (node neverFunded) 3 in
   let outcome := TransferAvaXChainToPChain 30 runner 1000 start in
   waitForPchainNonZeroBalance 30 runner "P-test" beforeBalanceWait
   = (Some (Some (NewError
        "Timed out waiting for PChain address P-test to receive funds.")),
      snd outcome) /\
   fst outcome = Some (inl "P-test")).
Proof. vm_compute. repeat split. Qed.

(** * Further properties *)


(** X1.  [checkValidatorInValidators] answers true exactly when some
    validator of the list has the node id looked for; on the empty list it
    answers false. *)
Theorem checkValidatorInValidators_iff :
  forall nodeId validators,
    checkValidatorInValidators nodeId validators = true <->
    exists validator, In validator validators /\ ValidatorId validator = nodeId.
Proof.
  intros nodeId validators. induction validators as [| v rest IH];
    cbn [checkValidatorInValidators In].
  - split; [discriminate | intros (v & [] & _)].
  - destruct (String.eqb (ValidatorId v) nodeId) eqn:E.
    + apply String.eqb_eq in E. split; [| reflexivity].
      intros _. exists v. auto.
    + apply String.eqb_neq in E. rewrite IH. split.
      * intros (v' & Hin & Hid). exists v'. auto.
      * intros (v' & [<- | Hin] & Hid); [contradiction |]. exists v'. auto.
Qed.

Lemma strings_TrimLeft_slashes_app n endpoint :
  strings_TrimLeft (slashes n ++ endpoint)%string "/" = strings_TrimLeft endpoint "/".
Proof. induction n as [| n IH]; [reflexivity | exact IH]. Qed.

Lemma strings_TrimLeft_no_slash endpoint :
  strings_HasPrefix (strings_TrimLeft endpoint "/") "/" = false.
Proof.
  induction endpoint as [| c rest IH]; [reflexivity |].
  cbn [strings_TrimLeft inCutset].
  destruct (Ascii.eqb c "/") eqn:E; cbn [orb]; [exact IH |].
  unfold strings_HasPrefix. cbn [cutPrefix].
  rewrite Ascii.eqb_sym, E. reflexivity.
Qed.

(** X2.  Leading slashes of the endpoint do not matter to
    [makeRpcRequest]: with any number of them in front it gives the same
    result, and the path it puts after "http://host:port/" never starts with
    a slash. *)
Theorem makeRpcRequest_ignores_leading_slashes :
  forall platform requester endpoint method params n,
    makeRpcRequest platform requester (slashes n ++ endpoint)%string method params
    = makeRpcRequest platform requester endpoint method params /\
    exists path,
      requestUrl platform requester (strings_TrimLeft endpoint "/")
      = ("http://" ++ ipAddr requester ++ ":"
           ++ fmt_int (Port_Int platform (port requester)) ++ "/" ++ path)%string /\
      strings_HasPrefix path "/" = false.
Proof.
  intros platform requester endpoint method params n. split.
  - unfold makeRpcRequest. rewrite strings_TrimLeft_slashes_app. reflexivity.
  - exists (strings_TrimLeft endpoint "/"). split; [reflexivity |].
    apply strings_TrimLeft_no_slash.
Qed.

(** ** Helper lemmas *)

Lemma Time_Unix_mono t u : t <= u -> Time_Unix t <= Time_Unix u.
Proof. intros H. unfold Time_Unix. apply Z.div_le_mono; [reflexivity | exact H]. Qed.

Lemma Time_Unix_seconds t n :
  Time_Unix (Time_Add t (n * time_Second)) = Time_Unix t + n.
Proof. unfold Time_Unix, Time_Add. apply Z.div_add. discriminate. Qed.

Lemma sleepUntilStartTime_spec fuel runner startTime : forall w,
  let outcome := sleepUntilStartTime fuel runner startTime w in
  now w <= now (snd outcome) /\
  (fst outcome = Some tt -> startTime <= Time_Unix (now (snd outcome))) /\
  (startTime - Time_Unix (now w) <= Z.of_nat fuel -> fst outcome = Some tt) /\
  (startTime <= Time_Unix (now w) -> outcome = (Some tt, w)).
Proof.
  induction fuel as [| fuel IH]; intros w; cbn [sleepUntilStartTime]; go.
  - destruct (Time_Unix (now w) <? startTime) eqn:E; cbn [fst snd].
    + apply Z.ltb_lt in E. repeat split; try lia; discriminate.
    + apply Z.ltb_ge in E. repeat split; auto; lia.
  - destruct (Time_Unix (now w) <? startTime) eqn:E; cbn [fst snd].
    2:{ apply Z.ltb_ge in E. repeat split; auto; lia. }
    apply Z.ltb_lt in E.
    set (w1 := after (client runner) (Slept time_Second) w).
    pose proof (after_sleep_now (client runner) w) as T. fold w1 in T.
    destruct (IH w1) as (Hn & Hgate & Hret & _).
    pose proof time_Second_pos.
    repeat split.
    + lia.
    + exact Hgate.
    + intros Hfuel. apply Hret.
      pose proof (Time_Unix_mono _ _ T) as Hm.
      replace (now w + time_Second) with (Time_Add (now w) (1 * time_Second)) in Hm
        by (unfold Time_Add; lia).
      rewrite Time_Unix_seconds in Hm. lia.
    + lia.
Qed.

Lemma waitX_now fuel runner txnId w :
  now w <= now (snd (waitForXchainTransactionAcceptance fuel runner txnId w)).
Proof.
  rewrite waitX_poll.
  match goal with |- context [poll ?a ?b ?c ?d ?e ?f ?g ?h ?i ?j ?k ?w] =>
    pose proof (poll_spec a b c d e f g h i j k w) as P end.
  unfold runner_properties.pollPost in P. cbv zeta in P. lia.
Qed.

Lemma waitV_now fuel runner nodeId subnet w :
  now w <= now (snd (waitForValidatorAddition fuel runner nodeId subnet w)).
Proof.
  rewrite waitV_poll.
  match goal with |- context [poll ?a ?b ?c ?d ?e ?f ?g ?h ?i ?j ?k ?w] =>
    pose proof (poll_spec a b c d e f g h i j k w) as P end.
  unfold runner_properties.pollPost in P. cbv zeta in P. lia.
Qed.

Lemma waitP_now fuel runner addr w :
  now w <= now (snd (waitForPchainNonZeroBalance fuel runner addr w)).
Proof.
  rewrite waitP_poll.
  match goal with |- context [poll ?a ?b ?c ?d ?e ?f ?g ?h ?i ?j ?k ?w] =>
    pose proof (poll_spec a b c d e f g h i j k w) as P end.
  unfold runner_properties.pollPost in P. cbv zeta in P. lia.
Qed.

Lemma waitX_terminates fuel runner txnId w :
  networkAcceptanceTimeout runner <= maxInt64 ->
  (enoughFuel runner <= fuel)%nat ->
  fst (waitForXchainTransactionAcceptance fuel runner txnId w) <> None.
Proof. intros. rewrite waitX_poll. now apply poll_terminates. Qed.

Lemma waitV_terminates fuel runner nodeId subnet w :
  networkAcceptanceTimeout runner <= maxInt64 ->
  (enoughFuel runner <= fuel)%nat ->
  fst (waitForValidatorAddition fuel runner nodeId subnet w) <> None.
Proof. intros. rewrite waitV_poll. now apply poll_terminates. Qed.

Lemma waitP_terminates fuel runner addr w :
  networkAcceptanceTimeout runner <= maxInt64 ->
  (enoughFuel runner <= fuel)%nat ->
  fst (waitForPchainNonZeroBalance fuel runner addr w) <> None.
Proof. intros. rewrite waitP_poll. now apply poll_terminates. Qed.

Lemma staking_start_is_near cl c1 c2 c3 w :
  Time_Unix (Time_Add (now w) (20 * time_Second))
  - Time_Unix (now (after cl (Called c3) (after cl (Called c2)
                      (after cl (Called c1) w)))) <= 20.
Proof.
  rewrite Time_Unix_seconds.
  pose proof (after_call_now cl c1 w).
  pose proof (after_call_now cl c2 (after cl (Called c1) w)).
  pose proof (after_call_now cl c3 (after cl (Called c2) (after cl (Called c1) w))).
  pose proof (Time_Unix_mono (now w)
    (now (after cl (Called c3) (after cl (Called c2) (after cl (Called c1) w))))).
  lia.
Qed.

Lemma AddDelegatorOnSubnet_returns fuel runner nodeId pchainAddress stakeAmount w :
  (20 <= fuel)%nat ->
  fst (AddDelegatorOnSubnet fuel runner nodeId pchainAddress stakeAmount w) <> None.
Proof.
  intros Hfuel. unfold AddDelegatorOnSubnet, getCurrentPayerNonce. go.
  destruct (respond _ _ (PChainApi_GetAccount _)) as [account | text];
    [| discriminate].
  destruct (strconv_Atoi _) as [nonce | text]; [| discriminate].
  destruct (respond _ _ (PChainApi_AddDefaultSubnetDelegator _ _ _ _ _ _))
    as [unsignedTxn | text]; [| discriminate].
  destruct (respond _ _ (PChainApi_Sign _ _ _ _)) as [signedTxn | text];
    [| discriminate].
  destruct (respond _ _ (PChainApi_IssueTx _)) as [issued | text];
    [| discriminate].
  match goal with
  | |- context [sleepUntilStartTime ?f ?r ?t ?w0] =>
      destruct (sleepUntilStartTime_spec f r t w0) as (_ & _ & Hret & _);
      destruct (sleepUntilStartTime f r t w0) as [[[] |] w1]
  end; cbn [fst snd] in *; [discriminate |].
  exfalso. assert (H : @None unit = Some tt); [| discriminate H].
  apply Hret. unfold TIME_UNTIL_DELEGATING_BEGINS.
  match goal with |- ?a - ?b <= _ =>
    assert (a - b <= 20) by apply staking_start_is_near end.
  lia.
Qed.

Lemma AddValidatorOnSubnet_returns fuel runner nodeId pchainAddress stakeAmount w :
  networkAcceptanceTimeout runner <= maxInt64 ->
  (20 <= fuel)%nat -> (enoughFuel runner <= fuel)%nat ->
  fst (AddValidatorOnSubnet fuel runner nodeId pchainAddress stakeAmount w) <> None.
Proof.
  intros Hmax Hfuel Hwait. unfold AddValidatorOnSubnet, getCurrentPayerNonce. go.
  destruct (respond _ _ (PChainApi_GetAccount _)) as [account | text];
    [| discriminate].
  destruct (strconv_Atoi _) as [nonce | text]; [| discriminate].
  destruct (respond _ _ (PChainApi_AddDefaultSubnetValidator _ _ _ _ _ _ _))
    as [unsignedTxn | text]; [| discriminate].
  destruct (respond _ _ (PChainApi_Sign _ _ _ _)) as [signedTxn | text];
    [| discriminate].
  destruct (respond _ _ (PChainApi_IssueTx _)) as [issued | text];
    [| discriminate].
  match goal with
  | |- context [sleepUntilStartTime ?f ?r ?t ?w0] =>
      destruct (sleepUntilStartTime_spec f r t w0) as (_ & _ & Hret & _);
      destruct (sleepUntilStartTime f r t w0) as [[[] |] w1]
  end; cbn [fst snd] in *.
  - match goal with
    | |- context [waitForValidatorAddition ?f ?r ?n ?s ?w0] =>
        pose proof (waitV_terminates f r n s w0 Hmax Hwait) as Hw;
        destruct (waitForValidatorAddition f r n s w0) as [[res |] w2]
    end; cbn [fst snd] in *; [discriminate | contradiction].
  - exfalso. assert (H : @None unit = Some tt); [| discriminate H].
    apply Hret. unfold TIME_UNTIL_STAKING_BEGINS.
    match goal with |- ?a - ?b <= _ =>
      assert (a - b <= 20) by apply staking_start_is_near end.
    lia.
Qed.

Lemma CreateAndSeedXChainAccountFromGenesis_returns privateKey fuel runner amount w :
  networkAcceptanceTimeout runner <= maxInt64 ->
  (enoughFuel runner <= fuel)%nat ->
  fst (CreateAndSeedXChainAccountFromGenesis privateKey fuel runner amount w)
  <> None.
Proof.
  intros Hmax Hwait. unfold CreateAndSeedXChainAccountFromGenesis. go.
  destruct (respond _ _ InfoApi_GetNodeId) as [nodeId | text]; [| discriminate].
  destruct (respond _ _ (XChainApi_ImportKey _ _ _)) as [genesis | text];
    [| discriminate].
  destruct (respond _ _ (XChainApi_CreateAddress _ _)) as [address | text];
    [| discriminate].
  destruct (respond _ _ (XChainApi_Send _ _ _ _ _)) as [txnId | text];
    [| discriminate].
  match goal with
  | |- context [waitForXchainTransactionAcceptance ?f ?r ?t ?w0] =>
      pose proof (waitX_terminates f r t w0 Hmax Hwait) as Hw;
      destruct (waitForXchainTransactionAcceptance f r t w0) as [[[err |] |] w1]
  end; cbn [fst snd] in *; [discriminate | discriminate | contradiction].
Qed.

Lemma TransferAvaXChainToPChain_returns fuel runner amount w :
  networkAcceptanceTimeout runner <= maxInt64 ->
  (enoughFuel runner <= fuel)%nat ->
  fst (TransferAvaXChainToPChain fuel runner amount w) <> None.
Proof.
  intros Hmax Hwait. unfold TransferAvaXChainToPChain, getCurrentPayerNonce. go.
  destruct (respond _ _ (PChainApi_CreateAccount _ _ _)) as [pchainAddress | text];
    [| discriminate].
  destruct (respond _ _ (XChainApi_ExportAVA _ _ _ _)) as [txnId | text];
    [| discriminate].
  match goal with
  | |- context [waitForXchainTransactionAcceptance ?f ?r ?t ?w0] =>
      pose proof (waitX_terminates f r t w0 Hmax Hwait) as Hw;
      destruct (waitForXchainTransactionAcceptance f r t w0) as [[[err |] |] w1]
  end; cbn [fst snd] in *; [discriminate | | contradiction].
  destruct (respond _ _ (PChainApi_GetAccount _)) as [account | text];
    [| discriminate].
  destruct (strconv_Atoi _) as [nonce | text]; [| discriminate].
  destruct (respond _ _ (PChainApi_ImportAVA _ _ _ _)) as [unsignedTxn | text];
    [| discriminate].
  destruct (respond _ _ (PChainApi_IssueTx _)) as [issued | text];
    [| discriminate].
  match goal with
  | |- context [waitForPchainNonZeroBalance ?f ?r ?a ?w0] =>
      pose proof (waitP_terminates f r a w0 Hmax Hwait) as Hp;
      destruct (waitForPchainNonZeroBalance f r a w0) as [[res |] w2]
  end; cbn [fst snd] in *; [discriminate | contradiction].
Qed.

Lemma GetFundsAndStartValidating_returns privateKey fuel runner seed stake w :
  networkAcceptanceTimeout runner <= maxInt64 ->
  (20 <= fuel)%nat -> (enoughFuel runner <= fuel)%nat ->
  fst (GetFundsAndStartValidating privateKey fuel runner seed stake w) <> None.
Proof.
  intros Hmax Hfuel Hwait. unfold GetFundsAndStartValidating. go.
  destruct (respond _ _ InfoApi_GetNodeId) as [nodeId | text]; [| discriminate].
  match goal with
  | |- context [CreateAndSeedXChainAccountFromGenesis ?k ?f ?r ?a ?w0] =>
      pose proof (CreateAndSeedXChainAccountFromGenesis_returns k f r a w0 Hmax Hwait) as H1;
      destruct (CreateAndSeedXChainAccountFromGenesis k f r a w0)
        as [[[a1 | err] |] w2]
  end; cbn [fst snd] in *; [| discriminate | contradiction].
  match goal with
  | |- context [TransferAvaXChainToPChain ?f ?r ?a ?w0] =>
      pose proof (TransferAvaXChainToPChain_returns f r a w0 Hmax Hwait) as H2;
      destruct (TransferAvaXChainToPChain f r a w0) as [[[p | err] |] w3]
  end; cbn [fst snd] in *; [| discriminate | contradiction].
  match goal with
  | |- context [CreateAndSeedXChainAccountFromGenesis ?k ?f ?r ?a ?w0] =>
      pose proof (CreateAndSeedXChainAccountFromGenesis_returns k f r a w0 Hmax Hwait) as H3;
      destruct (CreateAndSeedXChainAccountFromGenesis k f r a w0)
        as [[[a2 | err] |] w4]
  end; cbn [fst snd] in *; [| discriminate | contradiction].
  match goal with
  | |- context [AddValidatorOnSubnet ?f ?r ?n ?p ?s ?w0] =>
      pose proof (AddValidatorOnSubnet_returns f r n p s w0 Hmax Hfuel Hwait) as H4;
      destruct (AddValidatorOnSubnet f r n p s w0) as [[[err |] |] w5]
  end; cbn [fst snd] in *; [discriminate | discriminate | contradiction].
Qed.

(** ** Fail fast *)

Lemma Stopped_after cl h0 h1 h2 failure :
  Quiet cl h0 h1 -> Stopped cl h1 h2 failure -> Stopped cl h0 h2 failure.
Proof.
  intros Q. destruct failure as [text |]; cbn [Stopped].
  - intros (c & pre & -> & Q' & R). exists c, pre. repeat split; auto.
    eapply Quiet_trans; eauto.
  - intros Q'. eapply Quiet_trans; eauto.
Qed.

Lemma Stopped_last cl h0 h failure post c pre text :
  Stopped cl h0 h failure ->
  h = post ++ Called c :: pre -> (length h0 <= length pre)%nat ->
  respond cl pre c = Failed text ->
  post = [] /\ failure = Some text.
Proof.
  intros S E L R. destruct failure as [text' |]; cbn [Stopped] in S.
  - destruct S as (c' & pre' & -> & Q & R').
    destruct post as [| e post]; cbn [app] in E.
    + injection E as -> ->. split; [reflexivity | congruence].
    + injection E as _ E.
      destruct (Quiet_answered cl _ _ Q post c pre E L) as [a Ha]. congruence.
  - destruct (Quiet_answered cl _ _ S post c pre E L) as [a Ha]. congruence.
Qed.

Lemma Grown_sleeps_Quiet cl h0 h : Grown isSleep h0 h -> Quiet cl h0 h.
Proof.
  intros (new & -> & Hn). induction Hn as [| x new [d ->] Hn IH]; cbn [app].
  - constructor.
  - now apply Quiet_slept.
Qed.

Section PollStopped.

Variable cl : GeckoClient.
Variable timeout : Z.
Variable query : Call.
Variable State : Type.
Variable observe : Returns query -> State.
Variable done : State -> bool.
Variable sleepFirst : bool.
Variable firstMsg loopMsg : string.
Variable timeoutError : error.

Lemma poll_stopped fuel w :
  let outcome :=
    poll cl timeout query State observe done sleepFirst firstMsg loopMsg
      timeoutError fuel w in
  exists failure,
    Stopped cl (history w) (history (snd outcome)) failure /\
    (forall text, failure = Some text ->
       exists msg, fst outcome = Some (Some (Propagate (Foreign text) msg))).
Proof.
  intros outcome. subst outcome.
  pose proof (poll_spec cl timeout query State observe done sleepFirst firstMsg
                loopMsg timeoutError fuel w) as P.
  unfold runner_properties.pollPost in P.
  destruct P as (_ & _ & [(pre & text & msg & Hh & Hq & Hr & Hres) | (Hq & _)]).
  - exists (Some text). split.
    + exists query, pre. auto.
    + intros t Ht. injection Ht as <-. eauto.
  - exists None. split; [exact Hq | discriminate].
Qed.

End PollStopped.

Lemma waitX_stopped fuel runner txnId w :
  let outcome := waitForXchainTransactionAcceptance fuel runner txnId w in
  exists failure,
    Stopped (client runner) (history w) (history (snd outcome)) failure /\
    (forall text, failure = Some text ->
       exists msg, fst outcome = Some (Some (Propagate (Foreign text) msg))).
Proof. cbv zeta. rewrite waitX_poll. apply poll_stopped. Qed.

Lemma waitV_stopped fuel runner nodeId subnet w :
  let outcome := waitForValidatorAddition fuel runner nodeId subnet w in
  exists failure,
    Stopped (client runner) (history w) (history (snd outcome)) failure /\
    (forall text, failure = Some text ->
       exists msg, fst outcome = Some (Some (Propagate (Foreign text) msg))).
Proof. cbv zeta. rewrite waitV_poll. apply poll_stopped. Qed.

Lemma waitP_stopped fuel runner addr w :
  let outcome := waitForPchainNonZeroBalance fuel runner addr w in
  exists failure,
    Stopped (client runner) (history w) (history (snd outcome)) failure /\
    (forall text, failure = Some text ->
       exists msg, fst outcome = Some (Some (Propagate (Foreign text) msg))).
Proof. cbv zeta. rewrite waitP_poll. apply poll_stopped. Qed.

Ltac quiet :=
  cbn [history after];
  repeat first
    [ apply Quiet_here
    | apply Quiet_slept
    | eapply Quiet_called; [| eassumption]
    | apply Grown_sleeps_Quiet; eassumption
    | eapply Quiet_trans; [| eassumption]
    | eapply Quiet_trans; [| apply Grown_sleeps_Quiet; eassumption] ].

(** The run ended on the failed call [c]. *)
Ltac failed_here text :=
  exists (Some text); split;
  [ cbn [Stopped history after snd]; eexists; eexists;
    split; [reflexivity | split; [quiet | eassumption]]
  | let t := fresh in let H := fresh in
    intros t H; injection H as <-; eexists; split; [reflexivity | reflexivity] ].

Ltac went_well :=
  exists None; split;
  [ cbn [Stopped snd]; quiet | discriminate ].

Lemma AddDelegatorOnSubnet_stopped fuel runner nodeId pchainAddress stakeAmount w :
  let outcome :=
    AddDelegatorOnSubnet fuel runner nodeId pchainAddress stakeAmount w in
  exists failure,
    Stopped (client runner) (history w) (history (snd outcome)) failure /\
    (forall text, failure = Some text ->
       exists e, fst outcome = Some (Some e) /\ rootCause e = Foreign text).
Proof.
  cbv zeta. unfold AddDelegatorOnSubnet, getCurrentPayerNonce. go.
  destruct (respond _ _ (PChainApi_GetAccount _)) as [account | text] eqn:E1;
    [| failed_here text].
  destruct (strconv_Atoi _) as [nonce | text]; [| went_well].
  destruct (respond _ _ (PChainApi_AddDefaultSubnetDelegator _ _ _ _ _ _))
    as [unsignedTxn | text] eqn:E2; [| failed_here text].
  destruct (respond _ _ (PChainApi_Sign _ _ _ _)) as [signedTxn | text] eqn:E3;
    [| failed_here text].
  destruct (respond _ _ (PChainApi_IssueTx _)) as [issued | text] eqn:E4;
    [| failed_here text].
  match goal with
  | |- context [sleepUntilStartTime ?f ?r ?t ?w0] =>
      pose proof (sleepUntilStartTime_grown isSleep f r t
                    (ex_intro _ time_Second eq_refl) w0) as Hs;
      destruct (sleepUntilStartTime f r t w0) as [[[] |] w1]
  end; cbn [fst snd] in *; went_well.
Qed.

Lemma AddValidatorOnSubnet_stopped fuel runner nodeId pchainAddress stakeAmount w :
  exists failure,
    Stopped (client runner) (history w)
      (history (snd (AddValidatorOnSubnet fuel runner nodeId pchainAddress
                       stakeAmount w))) failure.
Proof.
  unfold AddValidatorOnSubnet, getCurrentPayerNonce. go.
  destruct (respond _ _ (PChainApi_GetAccount _)) as [account | text] eqn:E1;
    [| exists (Some text); cbn [Stopped history after snd]; eauto using Quiet_here].
  destruct (strconv_Atoi _) as [nonce | text];
    [| exists None; cbn [Stopped snd]; quiet].
  destruct (respond _ _ (PChainApi_AddDefaultSubnetValidator _ _ _ _ _ _ _))
    as [unsignedTxn | text] eqn:E2;
    [| exists (Some text); cbn [Stopped history after snd];
       eexists; eexists; split; [reflexivity | split; [quiet | eassumption]]].
  destruct (respond _ _ (PChainApi_Sign _ _ _ _)) as [signedTxn | text] eqn:E3;
    [| exists (Some text); cbn [Stopped history after snd];
       eexists; eexists; split; [reflexivity | split; [quiet | eassumption]]].
  destruct (respond _ _ (PChainApi_IssueTx _)) as [issued | text] eqn:E4;
    [| exists (Some text); cbn [Stopped history after snd];
       eexists; eexists; split; [reflexivity | split; [quiet | eassumption]]].
  match goal with
  | |- context [sleepUntilStartTime ?f ?r ?t ?w0] =>
      pose proof (sleepUntilStartTime_grown isSleep f r t
                    (ex_intro _ time_Second eq_refl) w0) as Hs;
      destruct (sleepUntilStartTime f r t w0) as [[[] |] w1]
  end; cbn [fst snd] in *; [| exists None; cbn [Stopped]; quiet].
  match goal with
  | |- context [waitForValidatorAddition ?f ?r ?n ?s ?w0] =>
      destruct (waitV_stopped f r n s w0) as (failure & Hw & _);
      destruct (waitForValidatorAddition f r n s w0) as [[res |] w2]
  end; cbn [fst snd] in *; exists failure;
    (eapply Stopped_after; [| exact Hw]); quiet.
Qed.

Lemma TransferAvaXChainToPChain_stopped fuel runner amount w :
  exists failure,
    Stopped (client runner) (history w)
      (history (snd (TransferAvaXChainToPChain fuel runner amount w))) failure.
Proof.
  unfold TransferAvaXChainToPChain, getCurrentPayerNonce. go.
  destruct (respond _ _ (PChainApi_CreateAccount _ _ _)) as [pchainAddress | text]
    eqn:E1;
    [| exists (Some text); cbn [Stopped history after snd]; eauto using Quiet_here].
  destruct (respond _ _ (XChainApi_ExportAVA _ _ _ _)) as [txnId | text] eqn:E2;
    [| exists (Some text); cbn [Stopped history after snd];
       eexists; eexists; split; [reflexivity | split; [quiet | eassumption]]].
  match goal with
  | |- context [waitForXchainTransactionAcceptance ?f ?r ?t ?w0] =>
      destruct (waitX_stopped f r t w0) as (failure & Hx & Rx);
      destruct (waitForXchainTransactionAcceptance f r t w0) as [[[err |] |] w1]
  end; cbn [fst snd] in *.
  1, 3: exists failure; (eapply Stopped_after; [| exact Hx]); quiet.
  assert (Qx : Quiet (client runner) (history w) (history w1)).
  { destruct failure as [text |].
    - destruct (Rx text eq_refl) as [msg Hmsg]. discriminate Hmsg.
    - cbn [Stopped] in Hx. quiet. }
  clear Hx Rx.
  destruct (respond _ _ (PChainApi_GetAccount _)) as [account | text] eqn:E3;
    [| exists (Some text); cbn [Stopped history after snd];
       eexists; eexists; split; [reflexivity | split; [quiet | eassumption]]].
  destruct (strconv_Atoi _) as [nonce | text];
    [| exists None; cbn [Stopped snd]; quiet].
  destruct (respond _ _ (PChainApi_ImportAVA _ _ _ _)) as [unsignedTxn | text]
    eqn:E4;
    [| exists (Some text); cbn [Stopped history after snd];
       eexists; eexists; split; [reflexivity | split; [quiet | eassumption]]].
  destruct (respond _ _ (PChainApi_IssueTx _)) as [issued | text] eqn:E5;
    [| exists (Some text); cbn [Stopped history after snd];
       eexists; eexists; split; [reflexivity | split; [quiet | eassumption]]].
  match goal with
  | |- context [waitForPchainNonZeroBalance ?f ?r ?a ?w0] =>
      destruct (waitP_stopped f r a w0) as (failure' & Hp & _);
      destruct (waitForPchainNonZeroBalance f r a w0) as [[res |] w2]
  end; cbn [fst snd] in *; exists failure';
    (eapply Stopped_after; [| exact Hp]); quiet.
Qed.

Lemma CreateAndSeedXChainAccountFromGenesis_stopped
    privateKey fuel runner amount w :
  let cl := client runner in
  let outcome :=
    CreateAndSeedXChainAccountFromGenesis privateKey fuel runner amount w in
  let w2 :=
    after cl (Called (KeystoreApi_CreateUser GENESIS_USERNAME GENESIS_PASSWORD))
      (after cl (Called (KeystoreApi_CreateUser (username (geckoUser runner))
                           (password (geckoUser runner)))) w) in
  exists failure,
    Stopped cl (history w2) (history (snd outcome)) failure /\
    (forall text, failure = Some text ->
       exists e, fst outcome = Some (inr e) /\ rootCause e = Foreign text).
Proof.
  cbv zeta. unfold CreateAndSeedXChainAccountFromGenesis. go.
  destruct (respond _ _ InfoApi_GetNodeId) as [nodeId | text] eqn:E1;
    [| failed_here text].
  destruct (respond _ _ (XChainApi_ImportKey _ _ _)) as [genesis | text] eqn:E2;
    [| failed_here text].
  destruct (respond _ _ (XChainApi_CreateAddress _ _)) as [address | text] eqn:E3;
    [| failed_here text].
  destruct (respond _ _ (XChainApi_Send _ _ _ _ _)) as [txnId | text] eqn:E4;
    [| failed_here text].
  match goal with
  | |- context [waitForXchainTransactionAcceptance ?f ?r ?t ?w0] =>
      destruct (waitX_stopped f r t w0) as (failure & Hx & Rx);
      destruct (waitForXchainTransactionAcceptance f r t w0) as [[[err |] |] w1]
  end; cbn [fst snd] in *; exists failure;
    (split; [(eapply Stopped_after; [| exact Hx]); quiet |]);
    intros text ->; destruct (Rx text eq_refl) as [msg Hmsg];
    try discriminate Hmsg.
  injection Hmsg as ->. eexists. split; reflexivity.
Qed.

(** ** Registration *)

Lemma staking_period t :
  Time_Unix (Time_Add t TIME_UNTIL_STAKING_ENDS)
  = Time_Unix (Time_Add t TIME_UNTIL_STAKING_BEGINS) + stakingSeconds.
Proof.
  change TIME_UNTIL_STAKING_ENDS with (259200 * time_Second).
  change TIME_UNTIL_STAKING_BEGINS with (20 * time_Second).
  rewrite !Time_Unix_seconds. change stakingSeconds with 259180. lia.
Qed.

Lemma delegating_period t :
  Time_Unix (Time_Add t TIME_UNTIL_DELEGATING_ENDS)
  = Time_Unix (Time_Add t TIME_UNTIL_DELEGATING_BEGINS) + stakingSeconds.
Proof. exact (staking_period t). Qed.

Ltac registers :=
  cbn [history after];
  repeat (apply Grown_cons;
          [first [exact I
                 | cbn [registersAs]; split; [reflexivity |]; split;
                   [apply Z.eq_le_incl; symmetry; apply staking_period |];
                   now repeat split
                 | cbn [registersAs]; now repeat split] |]);
  first [apply Grown_here
        | eapply Grown_trans; [| eassumption]; registers ].

Lemma AddValidatorOnSubnet_registers fuel runner nodeId pchainAddress stakeAmount w :
  Grown (registersAs nodeId pchainAddress stakeAmount (geckoUser runner))
    (history w)
    (history (snd (AddValidatorOnSubnet fuel runner nodeId pchainAddress
                     stakeAmount w))).
Proof.
  unfold AddValidatorOnSubnet, getCurrentPayerNonce. go.
  destruct (respond _ _ (PChainApi_GetAccount _)) as [account | text];
    [| cbn [snd]; registers].
  destruct (strconv_Atoi _) as [nonce | text]; [| cbn [snd]; registers].
  destruct (respond _ _ (PChainApi_AddDefaultSubnetValidator _ _ _ _ _ _ _))
    as [unsignedTxn | text]; [| cbn [snd]; registers].
  destruct (respond _ _ (PChainApi_Sign _ _ _ _)) as [signedTxn | text];
    [| cbn [snd]; registers].
  destruct (respond _ _ (PChainApi_IssueTx _)) as [issued | text];
    [| cbn [snd]; registers].
  match goal with
  | |- context [sleepUntilStartTime ?f ?r ?t ?w0] =>
      pose proof (sleepUntilStartTime_grown
                    (registersAs nodeId pchainAddress stakeAmount (geckoUser runner))
                    f r t I w0) as Hs;
      destruct (sleepUntilStartTime f r t w0) as [[[] |] w1]
  end; cbn [snd] in *; [| registers].
  match goal with
  | |- context [waitForValidatorAddition ?f ?r ?n ?s ?w0] =>
      pose proof (waitV_grown
                    (registersAs nodeId pchainAddress stakeAmount (geckoUser runner))
                    f r n s w0 I I) as Hw;
      destruct (waitForValidatorAddition f r n s w0) as [[res |] w2]
  end; cbn [snd] in *; registers.
Qed.

Lemma AddDelegatorOnSubnet_registers fuel runner nodeId pchainAddress stakeAmount w :
  Grown (registersAs nodeId pchainAddress stakeAmount (geckoUser runner))
    (history w)
    (history (snd (AddDelegatorOnSubnet fuel runner nodeId pchainAddress
                     stakeAmount w))).
Proof.
  unfold AddDelegatorOnSubnet, getCurrentPayerNonce. go.
  destruct (respond _ _ (PChainApi_GetAccount _)) as [account | text];
    [| cbn [snd]; registers].
  destruct (strconv_Atoi _) as [nonce | text]; [| cbn [snd]; registers].
  destruct (respond _ _ (PChainApi_AddDefaultSubnetDelegator _ _ _ _ _ _))
    as [unsignedTxn | text]; [| cbn [snd]; registers].
  destruct (respond _ _ (PChainApi_Sign _ _ _ _)) as [signedTxn | text];
    [| cbn [snd]; registers].
  destruct (respond _ _ (PChainApi_IssueTx _)) as [issued | text];
    [| cbn [snd]; registers].
  match goal with
  | |- context [sleepUntilStartTime ?f ?r ?t ?w0] =>
      pose proof (sleepUntilStartTime_grown
                    (registersAs nodeId pchainAddress stakeAmount (geckoUser runner))
                    f r t I w0) as Hs;
      destruct (sleepUntilStartTime f r t w0) as [[[] |] w1]
  end; cbn [snd] in *; registers.
Qed.

(** ** What success means *)

Lemma Answered_here cl h0 h c a :
  respond cl h c = Got a -> (length h0 <= length h)%nat ->
  Answered cl h0 (Called c :: h) c a.
Proof. intros R L. exists [], h. auto. Qed.

Lemma Answered_cons cl h0 h e c a :
  Answered cl h0 h c a -> Answered cl h0 (e :: h) c a.
Proof. intros (post & pre & -> & L & R). exists (e :: post), pre. auto. Qed.

Lemma Answered_grown cl P h0 h h' c a :
  Grown P h h' -> Answered cl h0 h c a -> Answered cl h0 h' c a.
Proof.
  intros (new & -> & _) (post & pre & -> & L & R).
  exists (new ++ post), pre. rewrite app_assoc. auto.
Qed.

Lemma Answered_from cl h0 h1 h c a :
  (length h0 <= length h1)%nat -> Answered cl h1 h c a -> Answered cl h0 h c a.
Proof. intros L (post & pre & -> & L' & R). exists post, pre. repeat split; auto. lia. Qed.

Lemma Grown_length P h0 h : Grown P h0 h -> (length h0 <= length h)%nat.
Proof. intros (new & -> & _). rewrite length_app. lia. Qed.

Ltac longer :=
  cbn [history after length];
  repeat match goal with
         | H : Grown _ ?a ?b |- _ =>
             lazymatch goal with
             | _ : (length a <= length b)%nat |- _ => fail
             | _ => pose proof (Grown_length _ _ _ H)
             end
         end;
  cbn [history after length] in *; lia.

Ltac answered :=
  cbn [history after];
  first
    [ apply Answered_here; [eassumption | longer]
    | apply Answered_cons; answered
    | eapply Answered_grown; [eassumption |]; answered ].

(** X9.  When [AddDelegatorOnSubnet] returns success, the node has built the
    delegation asked for, has signed what it built for the payer's address
    and the runner's user, and has been given the signed transaction to
    issue; the start time it was given is at least 20 seconds after the
    second in which the run began, the clock has reached it, and the end time
    is at least 72 hours less 20 seconds after the start time. *)
Theorem AddDelegatorOnSubnet_success fuel runner nodeId pchainAddress stakeAmount w w' :
  AddDelegatorOnSubnet fuel runner nodeId pchainAddress stakeAmount w
  = (Some None, w') ->
  let cl := client runner in
  exists startTime endTime nonce unsignedTxn signedTxn issued,
    Answered cl (history w) (history w')
      (PChainApi_AddDefaultSubnetDelegator nodeId startTime endTime stakeAmount
         nonce pchainAddress)
      unsignedTxn /\
    Answered cl (history w) (history w')
      (PChainApi_Sign unsignedTxn pchainAddress (username (geckoUser runner))
         (password (geckoUser runner)))
      signedTxn /\
    Answered cl (history w) (history w') (PChainApi_IssueTx signedTxn) issued /\
    Time_Unix (now w) + 20 <= startTime /\
    startTime <= Time_Unix (now w') /\
    startTime + stakingSeconds <= endTime.
Proof.
  unfold AddDelegatorOnSubnet, getCurrentPayerNonce. go.
  destruct (respond _ _ (PChainApi_GetAccount _)) as [account | text];
    [| discriminate].
  destruct (strconv_Atoi _) as [nonce | text]; [| discriminate].
  destruct (respond _ _ (PChainApi_AddDefaultSubnetDelegator _ _ _ _ _ _))
    as [unsignedTxn | text] eqn:E2; [| discriminate].
  destruct (respond _ _ (PChainApi_Sign _ _ _ _)) as [signedTxn | text] eqn:E3;
    [| discriminate].
  destruct (respond _ _ (PChainApi_IssueTx _)) as [issued | text] eqn:E4;
    [| discriminate].
  match goal with
  | |- context [sleepUntilStartTime ?f ?r ?t ?w0] =>
      pose proof (sleepUntilStartTime_grown (fun _ => True) f r t I w0) as Hs;
      destruct (sleepUntilStartTime_spec f r t w0) as (_ & Hgate & _);
      destruct (sleepUntilStartTime f r t w0) as [[[] |] w1]
  end; cbn [fst snd] in *; [| discriminate].
  intros H. injection H as <-.
  eexists. eexists. exists (int_add nonce 1), unsignedTxn, signedTxn, issued.
  split; [answered |]. split; [answered |]. split; [answered |].
  split; [| split].
  - unfold TIME_UNTIL_DELEGATING_BEGINS. rewrite Time_Unix_seconds.
    pose proof (Time_Unix_mono _ _
      (after_call_now (client runner) (PChainApi_GetAccount pchainAddress) w)).
    lia.
  - exact (Hgate eq_refl).
  - apply Z.eq_le_incl. symmetry. apply delegating_period.
Qed.

(** X10.  When [AddValidatorOnSubnet] returns success, the node has built
    the registration asked for, with the delegation fee rate, has signed
    what it built for the payer's address and the runner's user, and has
    been given the signed transaction to issue; the start time it was given
    is at least 20 seconds after the second in which the run began, the
    clock has reached it, and the end time is at least 72 hours less 20
    seconds after the start time. *)
Theorem AddValidatorOnSubnet_success fuel runner nodeId pchainAddress stakeAmount w w' :
  AddValidatorOnSubnet fuel runner nodeId pchainAddress stakeAmount w
  = (Some None, w') ->
  let cl := client runner in
  exists startTime endTime nonce unsignedTxn signedTxn issued,
    Answered cl (history w) (history w')
      (PChainApi_AddDefaultSubnetValidator nodeId startTime endTime stakeAmount
         nonce pchainAddress DELEGATION_FEE_RATE)
      unsignedTxn /\
    Answered cl (history w) (history w')
      (PChainApi_Sign unsignedTxn pchainAddress (username (geckoUser runner))
         (password (geckoUser runner)))
      signedTxn /\
    Answered cl (history w) (history w') (PChainApi_IssueTx signedTxn) issued /\
    Time_Unix (now w) + 20 <= startTime /\
    startTime <= Time_Unix (now w') /\
    startTime + stakingSeconds <= endTime.
Proof.
  unfold AddValidatorOnSubnet, getCurrentPayerNonce. go.
  destruct (respond _ _ (PChainApi_GetAccount _)) as [account | text];
    [| discriminate].
  destruct (strconv_Atoi _) as [nonce | text]; [| discriminate].
  destruct (respond _ _ (PChainApi_AddDefaultSubnetValidator _ _ _ _ _ _ _))
    as [unsignedTxn | text] eqn:E2; [| discriminate].
  destruct (respond _ _ (PChainApi_Sign _ _ _ _)) as [signedTxn | text] eqn:E3;
    [| discriminate].
  destruct (respond _ _ (PChainApi_IssueTx _)) as [issued | text] eqn:E4;
    [| discriminate].
  match goal with
  | |- context [sleepUntilStartTime ?f ?r ?t ?w0] =>
      pose proof (sleepUntilStartTime_grown (fun _ => True) f r t I w0) as Hs;
      destruct (sleepUntilStartTime_spec f r t w0) as (_ & Hgate & _);
      destruct (sleepUntilStartTime f r t w0) as [[[] |] w1]
  end; cbn [fst snd] in *; [| discriminate].
  match goal with
  | |- context [waitForValidatorAddition ?f ?r ?n ?s ?w0] =>
      pose proof (waitV_grown (fun _ => True) f r n s w0 I I) as Hw;
      pose proof (waitV_now f r n s w0) as Hn;
      destruct (waitForValidatorAddition f r n s w0) as [[res |] w2]
  end; cbn [fst snd] in *; [| discriminate].
  intros H. injection H as <-.
  eexists. eexists. exists (int_add nonce 1), unsignedTxn, signedTxn, issued.
  split; [answered |]. split; [answered |]. split; [answered |].
  split; [| split].
  - unfold TIME_UNTIL_STAKING_BEGINS. rewrite Time_Unix_seconds.
    pose proof (Time_Unix_mono _ _
      (after_call_now (client runner) (PChainApi_GetAccount pchainAddress) w)).
    lia.
  - pose proof (Hgate eq_refl). pose proof (Time_Unix_mono _ _ Hn). lia.
  - apply Z.eq_le_incl. symmetry. apply staking_period.
Qed.

Lemma waitX_answered_accepted fuel runner txnId w w' h0 :
  waitForXchainTransactionAcceptance fuel runner txnId w = (Some None, w') ->
  (length h0 <= length (history w))%nat ->
  Answered (client runner) h0 (history w') (XChainApi_GetTxStatus txnId)
    TRANSACTION_ACCEPTED_STATUS.
Proof.
  intros E L. destruct (waitX_accepted _ _ _ _ _ E) as (sl & pre & Hh & _ & Hl & Hr).
  exists sl, pre. repeat split; auto. lia.
Qed.

(** X11.  When [TransferAvaXChainToPChain] returns an address, that address
    is the account the P-chain created for the runner's user; the amount was
    exported to it on the X-chain, the export was seen accepted, the import
    to it was built on the P-chain, and what the import built was given to
    the node to issue. *)
Theorem TransferAvaXChainToPChain_success fuel runner amount w w' pchainAddress :
  TransferAvaXChainToPChain fuel runner amount w = (Some (inl pchainAddress), w') ->
  let cl := client runner in
  let username := username (geckoUser runner) in
  let password := password (geckoUser runner) in
  exists txnId nonce unsignedTxn issued,
    Answered cl (history w) (history w')
      (PChainApi_CreateAccount username password None) pchainAddress /\
    Answered cl (history w) (history w')
      (XChainApi_ExportAVA pchainAddress amount username password) txnId /\
    Answered cl (history w) (history w') (XChainApi_GetTxStatus txnId)
      TRANSACTION_ACCEPTED_STATUS /\
    Answered cl (history w) (history w')
      (PChainApi_ImportAVA username password pchainAddress nonce) unsignedTxn /\
    Answered cl (history w) (history w') (PChainApi_IssueTx unsignedTxn) issued.
Proof.
  unfold TransferAvaXChainToPChain, getCurrentPayerNonce. go.
  destruct (respond _ _ (PChainApi_CreateAccount _ _ _)) as [created | text] eqn:E1;
    [| discriminate].
  destruct (respond _ _ (XChainApi_ExportAVA _ _ _ _)) as [txnId | text] eqn:E2;
    [| discriminate].
  match goal with
  | |- context [waitForXchainTransactionAcceptance ?f ?r ?t ?w0] =>
      pose proof (waitX_grown (fun _ => True) f r t w0 I I) as Hx;
      destruct (waitForXchainTransactionAcceptance f r t w0)
        as [[[err |] |] w1] eqn:EW
  end; cbn [fst snd] in *; [discriminate | | discriminate].
  pose proof (waitX_answered_accepted _ _ _ _ _ (history w) EW ltac:(longer))
    as Ha.
  destruct (respond _ _ (PChainApi_GetAccount _)) as [account | text] eqn:E3;
    [| discriminate].
  destruct (strconv_Atoi _) as [nonce | text]; [| discriminate].
  destruct (respond _ _ (PChainApi_ImportAVA _ _ _ _)) as [unsignedTxn | text]
    eqn:E4; [| discriminate].
  destruct (respond _ _ (PChainApi_IssueTx _)) as [issued | text] eqn:E5;
    [| discriminate].
  match goal with
  | |- context [waitForPchainNonZeroBalance ?f ?r ?a ?w0] =>
      pose proof (waitP_grown (fun _ => True) f r a w0 I I) as Hp;
      destruct (waitForPchainNonZeroBalance f r a w0) as [[res |] w2]
  end; cbn [fst snd] in *; [| discriminate].
  intros H. injection H as <- <-.
  exists txnId, (int_add nonce 1), unsignedTxn, issued.
  split; [answered |]. split; [answered |].
  split; [eapply Answered_grown; [exact Hp |]; cbn [history after];
          repeat apply Answered_cons; exact Ha |].
  split; answered.
Qed.

Lemma importLoop_finished fuel runner xchainAddress : forall imported w txnId w',
  TransferAvaPChainToXChain_loop fuel runner xchainAddress imported w
  = (Some (Finished txnId), w') ->
  imported = Got txnId \/
  Answered (client runner) (history w) (history w')
    (XChainApi_ImportAVA xchainAddress (username (geckoUser runner))
       (password (geckoUser runner))) txnId.
Proof.
  induction fuel as [| fuel IH]; intros imported w txnId w';
    cbn [TransferAvaPChainToXChain_loop]; go.
  - destruct imported as [t | text]; [intros H; injection H as -> _; now left |].
    destruct (strings_Contains _ _); discriminate.
  - destruct imported as [t | text]; [intros H; injection H as -> _; now left |].
    destruct (strings_Contains _ _); [| discriminate].
    intros H. right.
    pose proof (importLoop_grown (fun _ => True) fuel runner xchainAddress I I
                  (respond (client runner) (history w)
                     (XChainApi_ImportAVA xchainAddress
                        (username (geckoUser runner))
                        (password (geckoUser runner))))
                  (after (client runner) (Slept IMPORT_AVA_TO_XCHAIN_TIMEOUT)
                     (after (client runner)
                        (Called (XChainApi_ImportAVA xchainAddress
                                   (username (geckoUser runner))
                                   (password (geckoUser runner)))) w))) as G.
    rewrite H in G. cbn [snd] in G.
    destruct (IH _ _ _ _ H) as [E | A].
    + eapply Answered_grown; [exact G |]. cbn [history after].
      apply Answered_cons. apply Answered_here; [exact E | lia].
    + eapply Answered_from; [| exact A]. cbn [history after length]. lia.
Qed.

(** X12.  When [TransferAvaPChainToXChain] returns an address, the export
    of the amount was built on the P-chain, signed for the payer's address
    and the runner's user, and issued; an import to the X-chain address was
    answered with a transaction id, and that transaction was seen
    accepted. *)
Theorem TransferAvaPChainToXChain_success
    fuel runner pchainAddress xchainAddress amount w w' returned :
  TransferAvaPChainToXChain fuel runner pchainAddress xchainAddress amount w
  = (Some (inl returned), w') ->
  let cl := client runner in
  let username := username (geckoUser runner) in
  let password := password (geckoUser runner) in
  exists nonce unsignedTxnId signedTxnId issued txnId,
    Answered cl (history w) (history w')
      (PChainApi_ExportAVA amount
         (strings_TrimPrefix xchainAddress XCHAIN_ADDRESS_PREFIX) nonce)
      unsignedTxnId /\
    Answered cl (history w) (history w')
      (PChainApi_Sign unsignedTxnId pchainAddress username password)
      signedTxnId /\
    Answered cl (history w) (history w') (PChainApi_IssueTx signedTxnId) issued /\
    Answered cl (history w) (history w')
      (XChainApi_ImportAVA xchainAddress username password) txnId /\
    Answered cl (history w) (history w') (XChainApi_GetTxStatus txnId)
      TRANSACTION_ACCEPTED_STATUS.
Proof.
  unfold TransferAvaPChainToXChain, getCurrentPayerNonce. go.
  destruct (respond _ _ (PChainApi_GetAccount _)) as [account | text];
    [| discriminate].
  destruct (strconv_Atoi _) as [nonce | text]; [| discriminate].
  destruct (respond _ _ (PChainApi_ExportAVA _ _ _)) as [unsignedTxnId | text]
    eqn:E2; [| discriminate].
  destruct (respond _ _ (PChainApi_Sign _ _ _ _)) as [signedTxnId | text] eqn:E3;
    [| discriminate].
  destruct (respond _ _ (PChainApi_IssueTx _)) as [issued | text] eqn:E4;
    [| discriminate].
  match goal with
  | |- context [TransferAvaPChainToXChain_loop ?f ?r ?x ?i ?w0] =>
      pose proof (importLoop_grown (fun _ => True) f r x I I i w0) as L;
      pose proof (importLoop_returned f r x i w0) as R;
      destruct (TransferAvaPChainToXChain_loop f r x i w0)
        as [[[res | txnId] |] w1] eqn:EL
  end; cbn [fst snd] in *; [| | discriminate].
  { destruct (R res eq_refl) as [e ->]. discriminate. }
  clear R.
  match goal with
  | |- context [waitForXchainTransactionAcceptance ?f ?r ?t ?w0] =>
      pose proof (waitX_grown (fun _ => True) f r t w0 I I) as Hx;
      destruct (waitForXchainTransactionAcceptance f r t w0)
        as [[[err |] |] w2] eqn:EW
  end; cbn [fst snd] in *; [discriminate | | discriminate].
  pose proof (waitX_answered_accepted _ _ _ _ _ (history w) EW ltac:(longer))
    as Ha.
  intros H. injection H as _ <-.
  exists (int_add nonce 1), unsignedTxnId, signedTxnId, issued, txnId.
  split; [answered |]. split; [answered |]. split; [answered |].
  split; [| exact Ha].
  eapply Answered_grown; [exact Hx |].
  destruct (importLoop_finished _ _ _ _ _ _ _ EL) as [E | A].
  - eapply Answered_grown; [exact L |]. cbn [history after].
    apply Answered_here; [exact E | longer].
  - eapply Answered_from; [| exact A]. longer.
Qed.

(** ** How long a wait can be *)

Section PollBound.

Variable cl : GeckoClient.
Variable timeout : Z.
Variable query : Call.
Variable State : Type.
Variable observe : Returns query -> State.
Variable done : State -> bool.
Variable sleepFirst : bool.
Variable firstMsg loopMsg : string.
Variable timeoutError : error.

Let loop := pollLoop cl timeout query State observe done sleepFirst loopMsg.
Let wait :=
  poll cl timeout query State observe done sleepFirst firstMsg loopMsg timeoutError.

Lemma pollLoop_more_fuel fuel ps k : forall s w,
  fst (loop fuel ps s w) <> None ->
  loop (fuel + k) ps s w = loop fuel ps s w.
Proof.
  subst loop. induction fuel as [| fuel IH]; intros s w; cbn [pollLoop Nat.add]; go.
  - destruct (_ && _) eqn:E0; cbn [fst].
    + intros H. now contradiction H.
    + intros _. destruct k; cbn [pollLoop]; go; rewrite E0; reflexivity.
  - destruct (_ && _); [| reflexivity].
    destruct sleepFirst.
    + destruct (respond cl _ query) as [v | text]; [apply IH | reflexivity].
    + destruct (respond cl _ query) as [v | text]; [apply IH | reflexivity].
Qed.

Lemma pollLoop_length fuel ps : forall s w,
  (length (history (snd (loop fuel ps s w))) <= length (history w) + 2 * fuel)%nat.
Proof.
  subst loop. induction fuel as [| fuel IH]; intros s w; cbn [pollLoop]; go.
  - destruct (_ && _); cbn [snd]; lia.
  - destruct (_ && _); cbn [snd]; [| lia].
    destruct sleepFirst.
    + destruct (respond cl _ query) as [v | text].
      * etransitivity; [apply IH |]. cbn [history after length]. lia.
      * cbn [snd history after length]. lia.
    + destruct (respond cl _ query) as [v | text].
      * etransitivity; [apply IH |]. cbn [history after length]. lia.
      * cbn [snd history after length]. lia.
Qed.

Lemma poll_more_fuel fuel k w :
  fst (wait fuel w) <> None -> wait (fuel + k) w = wait fuel w.
Proof.
  subst wait. unfold poll. go.
  destruct (respond cl _ query) as [v | text]; [| reflexivity].
  intros H.
  rewrite (pollLoop_more_fuel fuel _ k); [reflexivity |].
  fold loop in H |- *. destruct (loop fuel _ _ _) as [[r |] w']; cbn [fst];
    [discriminate |]. now contradiction H.
Qed.

Lemma poll_length fuel w :
  (length (history (snd (wait fuel w))) <= length (history w) + 2 * fuel + 1)%nat.
Proof.
  subst wait. unfold poll. go.
  destruct (respond cl _ query) as [v | text];
    [| cbn [snd history after length]; lia].
  pose proof (pollLoop_length fuel (now (after cl (Called query) w)) (observe v)
                (after cl (Called query) w)) as L.
  fold loop. destruct (loop fuel _ _ _) as [[[r | s] |] w']; cbn [snd] in *.
  - cbn [history after length] in L. lia.
  - destruct (negb (done s)); cbn [snd]; cbn [history after length] in L; lia.
  - cbn [history after length] in L. lia.
Qed.

Lemma poll_bounded fuel w :
  timeout <= maxInt64 ->
  (length (history (snd (wait fuel w)))
   <= length (history w) + 2 * S (Z.to_nat (timeout / time_Second)) + 1)%nat.
Proof.
  intros Hmax. set (enough := S (Z.to_nat (timeout / time_Second))).
  destruct (Nat.le_gt_cases fuel enough) as [Hle | Hgt].
  - pose proof (poll_length fuel w). lia.
  - replace fuel with (enough + (fuel - enough))%nat by lia.
    rewrite poll_more_fuel.
    + apply poll_length.
    + apply poll_terminates; [exact Hmax | reflexivity].
Qed.

End PollBound.

(** ** Nonces in the whole workflow *)

Lemma Fresh_trans cl payer h0 h1 h2 :
  Fresh cl payer h0 h1 -> Fresh cl payer h1 h2 -> Fresh cl payer h0 h2.
Proof.
  intros F01 F12. induction F12.
  - exact F01.
  - now apply Fresh_step.
  - eapply Fresh_paid; eauto.
Qed.

Lemma CreateAndSeedXChainAccountFromGenesis_pays_nothing
    privateKey fuel runner amount w :
  Grown (fun e => eventNonce e = None) (history w)
    (history (snd (CreateAndSeedXChainAccountFromGenesis privateKey fuel runner
                     amount w))).
Proof.
  unfold CreateAndSeedXChainAccountFromGenesis. go.
  destruct (respond _ _ InfoApi_GetNodeId) as [nodeId | text];
    [| cbn [snd]; grown].
  destruct (respond _ _ (XChainApi_ImportKey _ _ _)) as [genesis | text];
    [| cbn [snd]; grown].
  destruct (respond _ _ (XChainApi_CreateAddress _ _)) as [address | text];
    [| cbn [snd]; grown].
  destruct (respond _ _ (XChainApi_Send _ _ _ _ _)) as [txnId | text];
    [| cbn [snd]; grown].
  match goal with
  | |- context [waitForXchainTransactionAcceptance ?f ?r ?t ?w0] =>
      pose proof (waitX_grown (fun e => eventNonce e = None)
                    f r t w0 eq_refl eq_refl) as Hx;
      destruct (waitForXchainTransactionAcceptance f r t w0) as [[[err |] |] w1]
  end; cbn [snd] in *; grown.
Qed.

Lemma TransferAvaXChainToPChain_returns_created fuel runner amount w a :
  fst (TransferAvaXChainToPChain fuel runner amount w) = Some (inl a) ->
  respond (client runner) (history w)
    (PChainApi_CreateAccount (username (geckoUser runner))
       (password (geckoUser runner)) None) = Got a.
Proof.
  unfold TransferAvaXChainToPChain, getCurrentPayerNonce. go.
  destruct (respond _ _ (PChainApi_CreateAccount _ _ _)) as [created | text];
    [| discriminate].
  destruct (respond _ _ (XChainApi_ExportAVA _ _ _ _)) as [txnId | text];
    [| discriminate].
  destruct (waitForXchainTransactionAcceptance _ _ _ _) as [[[err |] |] w1];
    cbn [fst snd]; [discriminate | | discriminate].
  destruct (respond _ _ (PChainApi_GetAccount _)) as [account | text];
    [| discriminate].
  destruct (strconv_Atoi _) as [nonce | text]; [| discriminate].
  destruct (respond _ _ (PChainApi_ImportAVA _ _ _ _)) as [unsignedTxn | text];
    [| discriminate].
  destruct (respond _ _ (PChainApi_IssueTx _)) as [issued | text];
    [| discriminate].
  destruct (waitForPchainNonZeroBalance _ _ _ _) as [[res |] w2];
    cbn [fst snd]; [| discriminate].
  intros H. now injection H as ->.
Qed.

Lemma CreateAndSeedXChainAccountFromGenesis_paidBy payer
    privateKey fuel runner amount w :
  Grown (paidBy payer) (history w)
    (history (snd (CreateAndSeedXChainAccountFromGenesis privateKey fuel runner
                     amount w))).
Proof.
  unfold CreateAndSeedXChainAccountFromGenesis. go.
  destruct (respond _ _ InfoApi_GetNodeId) as [nodeId | text];
    [| cbn [snd]; grown].
  destruct (respond _ _ (XChainApi_ImportKey _ _ _)) as [genesis | text];
    [| cbn [snd]; grown].
  destruct (respond _ _ (XChainApi_CreateAddress _ _)) as [address | text];
    [| cbn [snd]; grown].
  destruct (respond _ _ (XChainApi_Send _ _ _ _ _)) as [txnId | text];
    [| cbn [snd]; grown].
  match goal with
  | |- context [waitForXchainTransactionAcceptance ?f ?r ?t ?w0] =>
      pose proof (waitX_grown (paidBy payer) f r t w0 I I) as Hx;
      destruct (waitForXchainTransactionAcceptance f r t w0) as [[[err |] |] w1]
  end; cbn [snd] in *; grown.
Qed.

Lemma TransferAvaXChainToPChain_paidBy fuel runner amount w payer :
  (forall a,
     respond (client runner) (history w)
       (PChainApi_CreateAccount (username (geckoUser runner))
          (password (geckoUser runner)) None) = Got a -> a = payer) ->
  Grown (paidBy payer) (history w)
    (history (snd (TransferAvaXChainToPChain fuel runner amount w))).
Proof.
  intros Hpayer. unfold TransferAvaXChainToPChain, getCurrentPayerNonce. go.
  destruct (respond _ _ (PChainApi_CreateAccount _ _ _)) as [pchainAddress | text];
    [| cbn [snd]; grown].
  specialize (Hpayer pchainAddress eq_refl). subst pchainAddress.
  destruct (respond _ _ (XChainApi_ExportAVA _ _ _ _)) as [txnId | text];
    [| cbn [snd]; grown].
  match goal with
  | |- context [waitForXchainTransactionAcceptance ?f ?r ?t ?w0] =>
      pose proof (waitX_grown (paidBy payer) f r t w0 I I) as Hx;
      destruct (waitForXchainTransactionAcceptance f r t w0) as [[[err |] |] w1]
  end; cbn [snd] in *; [grown | | grown].
  destruct (respond _ _ (PChainApi_GetAccount _)) as [account | text];
    [| cbn [snd]; grown].
  destruct (strconv_Atoi _) as [nonce | text]; [| cbn [snd]; grown].
  destruct (respond _ _ (PChainApi_ImportAVA _ _ _ _)) as [unsignedTxn | text];
    [| cbn [snd]; grown].
  destruct (respond _ _ (PChainApi_IssueTx _)) as [issued | text];
    [| cbn [snd]; grown].
  match goal with
  | |- context [waitForPchainNonZeroBalance ?f ?r ?a ?w0] =>
      pose proof (waitP_grown (paidBy payer) f r a w0 I I) as Hp;
      destruct (waitForPchainNonZeroBalance f r a w0) as [[res |] w2]
  end; cbn [snd] in *; grown.
Qed.

Lemma AddValidatorOnSubnet_paidBy fuel runner nodeId payer stakeAmount w :
  Grown (paidBy payer) (history w)
    (history (snd (AddValidatorOnSubnet fuel runner nodeId payer stakeAmount w))).
Proof.
  unfold AddValidatorOnSubnet, getCurrentPayerNonce. go.
  destruct (respond _ _ (PChainApi_GetAccount _)) as [account | text];
    [| cbn [snd]; grown].
  destruct (strconv_Atoi _) as [nonce | text]; [| cbn [snd]; grown].
  destruct (respond _ _ (PChainApi_AddDefaultSubnetValidator _ _ _ _ _ _ _))
    as [unsignedTxn | text]; [| cbn [snd]; grown].
  destruct (respond _ _ (PChainApi_Sign _ _ _ _)) as [signedTxn | text];
    [| cbn [snd]; grown].
  destruct (respond _ _ (PChainApi_IssueTx _)) as [issued | text];
    [| cbn [snd]; grown].
  match goal with
  | |- context [sleepUntilStartTime ?f ?r ?t ?w0] =>
      pose proof (sleepUntilStartTime_grown (paidBy payer) f r t I w0) as Hs;
      destruct (sleepUntilStartTime f r t w0) as [[[] |] w1]
  end; cbn [snd] in *; [| grown].
  match goal with
  | |- context [waitForValidatorAddition ?f ?r ?n ?s ?w0] =>
      pose proof (waitV_grown (paidBy payer) f r n s w0 I I) as Hw;
      destruct (waitForValidatorAddition f r n s w0) as [[res |] w2]
  end; cbn [snd] in *; grown.
Qed.

Lemma Paid_trans cl payer h0 h1 h2 :
  Paid cl payer h0 h1 -> Paid cl payer h1 h2 -> Paid cl payer h0 h2.
Proof.
  intros [F1 G1] [F2 G2]. split;
    [eapply Fresh_trans; eauto | eapply Grown_trans; eauto].
Qed.

Lemma Paid_quiet cl payer h0 h :
  Grown (fun e => eventNonce e = None) h0 h -> Grown (paidBy payer) h0 h ->
  Paid cl payer h0 h.
Proof.
  intros Hq Hp. split; [| exact Hp]. eapply Fresh_grown; [exact Hq | constructor].
Qed.

Lemma GetFundsAndStartValidating_Paid privateKey fuel runner seed stake w :
  exists payer,
    Paid (client runner) payer (history w)
      (history (snd (GetFundsAndStartValidating privateKey fuel runner seed
                       stake w))).
Proof.
  unfold GetFundsAndStartValidating. go.
  destruct (respond _ _ InfoApi_GetNodeId) as [nodeId | text];
    [| exists EmptyString; cbn [snd]; apply Paid_quiet; grown].
  set (w1 := after (client runner) (Called InfoApi_GetNodeId) w).
  assert (P1 : forall payer, Paid (client runner) payer (history w) (history w1))
    by (intros; apply Paid_quiet; subst w1; grown).
  assert (S1 : forall payer,
            Paid (client runner) payer (history w)
              (history (snd (CreateAndSeedXChainAccountFromGenesis privateKey
                               fuel runner seed w1)))).
  { intros payer. eapply Paid_trans; [apply P1 |]. apply Paid_quiet.
    - apply CreateAndSeedXChainAccountFromGenesis_pays_nothing.
    - apply CreateAndSeedXChainAccountFromGenesis_paidBy. }
  clearbody w1. clear P1.
  destruct (CreateAndSeedXChainAccountFromGenesis privateKey fuel runner seed w1)
    as [[[a1 | err] |] w2]; cbn [fst snd] in *;
    [| exists EmptyString; apply S1 | exists EmptyString; apply S1].
  set (created :=
         respond (client runner) (history w2)
           (PChainApi_CreateAccount (username (geckoUser runner))
              (password (geckoUser runner)) None)).
  set (payer := match created with Got a => a | Failed _ => EmptyString end).
  assert (Hcreated : forall a, created = Got a -> a = payer)
    by (intros a Ha; subst payer; now rewrite Ha).
  exists payer.
  assert (S2 : Paid (client runner) payer (history w)
                 (history (snd (TransferAvaXChainToPChain fuel runner seed w2)))).
  { eapply Paid_trans; [apply S1 |]. split.
    - now apply TransferAvaXChainToPChain_Fresh.
    - now apply TransferAvaXChainToPChain_paidBy. }
  pose proof (TransferAvaXChainToPChain_returns_created fuel runner seed w2) as R2.
  destruct (TransferAvaXChainToPChain fuel runner seed w2)
    as [[[p | err] |] w3]; cbn [fst snd] in *; [| exact S2 | exact S2].
  assert (Hp : p = payer) by (apply Hcreated; exact (R2 p eq_refl)).
  subst p.
  assert (S3 : Paid (client runner) payer (history w)
                 (history (snd (CreateAndSeedXChainAccountFromGenesis privateKey
                                  fuel runner seed w3)))).
  { eapply Paid_trans; [exact S2 |]. apply Paid_quiet.
    - apply CreateAndSeedXChainAccountFromGenesis_pays_nothing.
    - apply CreateAndSeedXChainAccountFromGenesis_paidBy. }
  destruct (CreateAndSeedXChainAccountFromGenesis privateKey fuel runner seed w3)
    as [[[a2 | err] |] w4]; cbn [fst snd] in *; [| exact S3 | exact S3].
  assert (S4 : Paid (client runner) payer (history w)
                 (history (snd (AddValidatorOnSubnet fuel runner nodeId payer
                                  stake w4)))).
  { eapply Paid_trans; [exact S3 |]. split.
    - apply AddValidatorOnSubnet_Fresh.
    - apply AddValidatorOnSubnet_paidBy. }
  destruct (AddValidatorOnSubnet fuel runner nodeId payer stake w4)
    as [[[err |] |] w5]; cbn [fst snd] in *; exact S4.
Qed.

(** Every event that a grown history holds above its base satisfies the
    predicate of the growth. *)
Lemma Grown_at P h0 h post e pre :
  Grown P h0 h -> h = post ++ e :: pre -> (length h0 <= length pre)%nat -> P e.
Proof.
  intros (new & -> & Hn). revert post. induction Hn as [| x new Hx Hn IH];
    intros post E L.
  - exfalso. apply (f_equal (@length Event)) in E. cbn [app] in E.
    rewrite length_app in E. cbn [length] in E. lia.
  - destruct post as [| y post]; cbn [app] in E.
    + injection E as -> _. exact Hx.
    + injection E as _ E. eapply IH; eauto.
Qed.

(** No event of the run is of the kind [K]. *)
Ltac none_of_kind :=
  cbn [history after];
  repeat (apply Grown_cons;
          [first [ intros (? & ? & ? & ? & [=]) | intros (? & ? & ? & [=]) ] |]);
  first [apply Grown_here
        | eapply Grown_trans; [| eassumption]; none_of_kind ].

(** The branch at hand made no call of the kind [K]. *)
Ltac never K :=
  let Hh := fresh "Hh" in let Hl := fresh "Hl" in let He := fresh "He" in
  intros Hh Hl He; exfalso; cbn [snd] in Hh;
  apply (fun G => Grown_at (fun x => ~ K x) _ _ _ _ _ G Hh Hl He);
  none_of_kind.

(** An event of a grown history is one of the new ones, or lies in the
    base. *)
Lemma Grown_cases P h0 h post e pre :
  Grown P h0 h -> h = post ++ e :: pre ->
  (P e /\ Grown P h0 pre) \/ (exists post', h0 = post' ++ e :: pre).
Proof.
  intros (new & -> & Hn). revert post. induction Hn as [| x new Hx Hn IH];
    intros post E.
  - right. now exists post.
  - destruct post as [| y post]; cbn [app] in E.
    + injection E as -> <-. left. split; [exact Hx |]. now exists new.
    + injection E as _ E. now apply IH in E.
Qed.

(** An event of the kind [K] that lies above [h0] lies above [h1] when
    nothing between [h0] and [h1] is of that kind. *)
Lemma above_base (K P : Event -> Prop) h0 h1 h post e pre :
  Grown (fun x => ~ K x) h0 h1 -> Grown P h1 h ->
  h = post ++ e :: pre -> (length h0 <= length pre)%nat -> K e ->
  Grown P h1 pre.
Proof.
  intros G0 G Hh Hl He.
  destruct (Grown_cases _ _ _ _ _ _ G Hh) as [[_ Hp] | [post' Hb]]; [exact Hp |].
  destruct (Grown_at _ _ _ _ _ _ G0 Hb Hl He).
Qed.

(** The only event of the kind [K] above [h0] is [x], when nothing else
    is of that kind. *)
Lemma only_here (K : Event -> Prop) h0 h1 h x post e pre :
  Grown (fun y => ~ K y) h0 h1 -> Grown (fun y => ~ K y) (x :: h1) h ->
  h = post ++ e :: pre -> (length h0 <= length pre)%nat -> K e ->
  e = x /\ pre = h1.
Proof.
  intros G0 G Hh Hl He.
  destruct (Grown_cases _ _ _ _ _ _ G Hh) as [[Hn _] | [post' Hb]];
    [destruct (Hn He) |].
  destruct post' as [| y post']; cbn [app] in Hb.
  - injection Hb as -> ->. now split.
  - injection Hb as _ Hb. destruct (Grown_at _ _ _ _ _ _ G0 Hb Hl He).
Qed.

(** The history has grown from the base. *)
Ltac above :=
  cbn [history after];
  first [ apply Grown_here
        | apply Grown_cons; [exact I |]; above
        | eapply Grown_trans; [| eassumption]; above ].

(** * Further properties, stated *)

(** X3.  A wait primitive only reads: all it does is make its own query
    ([GetTxStatus] of the transaction, [GetCurrentValidators] of the subnet,
    [GetAccount] of the address) and sleep for a second. *)
Theorem waits_only_query_and_sleep :
  forall fuel runner,
    (forall txnId w,
       Grown (fun e => e = Called (XChainApi_GetTxStatus txnId)
                       \/ e = Slept time_Second)
         (history w)
         (history (snd (waitForXchainTransactionAcceptance fuel runner txnId w)))) /\
    (forall nodeId subnetIdPtr w,
       Grown (fun e => e = Called (PChainApi_GetCurrentValidators subnetIdPtr)
                       \/ e = Slept time_Second)
         (history w)
         (history (snd (waitForValidatorAddition fuel runner nodeId subnetIdPtr w)))) /\
    (forall pchainAddress w,
       Grown (fun e => e = Called (PChainApi_GetAccount pchainAddress)
                       \/ e = Slept time_Second)
         (history w)
         (history (snd (waitForPchainNonZeroBalance fuel runner pchainAddress w)))).
Proof.
  intros fuel runner. split; [| split].
  - intros txnId w. apply waitX_grown; auto.
  - intros nodeId subnetIdPtr w. apply waitV_grown; auto.
  - intros pchainAddress w. apply waitP_grown; auto.
Qed.

(** X4.  A wait primitive makes a bounded number of steps, whatever the node
    answers: its first query, and then at most one round of query and sleep
    for each started second of the acceptance timeout, plus one. *)
Theorem waits_are_bounded :
  forall runner,
    networkAcceptanceTimeout runner <= maxInt64 ->
    let most := (2 * enoughFuel runner + 1)%nat in
    (forall fuel txnId w,
       (length (history (snd (waitForXchainTransactionAcceptance fuel runner
                                txnId w)))
        <= length (history w) + most)%nat) /\
    (forall fuel nodeId subnetIdPtr w,
       (length (history (snd (waitForValidatorAddition fuel runner nodeId
                                subnetIdPtr w)))
        <= length (history w) + most)%nat) /\
    (forall fuel pchainAddress w,
       (length (history (snd (waitForPchainNonZeroBalance fuel runner
                                pchainAddress w)))
        <= length (history w) + most)%nat).
Proof.
  intros runner Hmax most. subst most. unfold enoughFuel. split; [| split].
  - intros fuel txnId w. rewrite waitX_poll.
    pose proof (poll_bounded (client runner) (networkAcceptanceTimeout runner)
                  (XChainApi_GetTxStatus txnId) string (fun s => s)
                  (fun s => String.eqb s TRANSACTION_ACCEPTED_STATUS) false
                  "Failed to get status." "Failed to get status."
                  (NewError ("Timed out waiting for transaction " ++ txnId
                               ++ " to be accepted on the XChain.")%string)
                  fuel w Hmax).
    lia.
  - intros fuel nodeId subnetIdPtr w. rewrite waitV_poll.
    pose proof (poll_bounded (client runner) (networkAcceptanceTimeout runner)
                  (PChainApi_GetCurrentValidators subnetIdPtr) (list Validator)
                  (fun s => s) (checkValidatorInValidators nodeId) true
                  "Could not get current validators"
                  "Could not get current validators"
                  (NewError ("Timed out waiting for validator " ++ nodeId
                     ++ " to be accepted as a validator by the network.")%string)
                  fuel w Hmax).
    lia.
  - intros fuel pchainAddress w. rewrite waitP_poll.
    pose proof (poll_bounded (client runner) (networkAcceptanceTimeout runner)
                  (PChainApi_GetAccount pchainAddress) string Balance
                  (fun b => negb (String.eqb b "0")) false
                  "Could not get PChain account information"
                  "Failed to get account information."
                  (NewError ("Timed out waiting for PChain address "
                               ++ pchainAddress ++ " to receive funds.")%string)
                  fuel w Hmax).
    lia.
Qed.

(** With a timeout of three seconds a wait makes nine steps at most, however
    much fuel it is given. *)
Lemma waits_are_bounded_witness :
  (length (history (snd (waitForXchainTransactionAcceptance 1000
                           (runnerOn (node neverAccepted) 3) "tx-send" start)))
   <= 9)%nat.
Proof.
  destruct (waits_are_bounded (runnerOn (node neverAccepted) 3)) as [HX _].
  - vm_compute. discriminate.
  - exact (HX 1000%nat "tx-send" start).
Defined.

(** X5.  Every workflow but the transfer from the P-chain to the X-chain
    returns, whatever the node answers: twenty rounds are enough for the
    sleep until the start time, and one round for each started second of the
    acceptance timeout, plus one, for a wait. *)
Theorem workflows_return :
  forall privateKey runner fuel,
    networkAcceptanceTimeout runner <= maxInt64 ->
    (20 <= fuel)%nat ->
    (enoughFuel runner <= fuel)%nat ->
    (forall delegateeNodeId pchainAddress stakeAmount w,
       fst (AddDelegatorOnSubnet fuel runner delegateeNodeId pchainAddress
              stakeAmount w) <> None) /\
    (forall nodeId pchainAddress stakeAmount w,
       fst (AddValidatorOnSubnet fuel runner nodeId pchainAddress
              stakeAmount w) <> None) /\
    (forall amount w,
       fst (CreateAndSeedXChainAccountFromGenesis privateKey fuel runner
              amount w) <> None) /\
    (forall amount w,
       fst (TransferAvaXChainToPChain fuel runner amount w) <> None) /\
    (forall seedAmount stakeAmount w,
       fst (GetFundsAndStartValidating privateKey fuel runner seedAmount
              stakeAmount w) <> None).
Proof.
  intros privateKey runner fuel Hmax Hfuel Hwait. repeat split; intros.
  - now apply AddDelegatorOnSubnet_returns.
  - now apply AddValidatorOnSubnet_returns.
  - now apply CreateAndSeedXChainAccountFromGenesis_returns.
  - now apply TransferAvaXChainToPChain_returns.
  - now apply GetFundsAndStartValidating_returns.
Qed.

(** Against a node that never accepts a transaction, the whole workflow
    returns with twenty rounds of fuel. *)
Lemma workflows_return_witness :
  fst (GetFundsAndStartValidating "PrivateKey-1" 20
         (runnerOn (node neverAccepted) 3) 1000 500 start) <> None.
Proof.
  destruct (workflows_return "PrivateKey-1" (runnerOn (node neverAccepted) 3) 20)
    as (_ & _ & _ & _ & Hall).
  - vm_compute. discriminate.
  - apply le_n.
  - apply Nat.leb_le. reflexivity.
  - exact (Hall 1000 500 start).
Defined.

(** X6.  [AddDelegatorOnSubnet] stops at the first call that the node
    answers with an error: that call is the last event of the run, and the
    run returns an error that goes back to the node's.
    [CreateAndSeedXChainAccountFromGenesis] does the same for every call
    after its two [CreateUser] calls. *)
Theorem a_failed_call_ends_the_run_with_its_error :
  forall fuel runner,
    let cl := client runner in
    (forall delegateeNodeId pchainAddress stakeAmount w post c pre text,
       let outcome :=
         AddDelegatorOnSubnet fuel runner delegateeNodeId pchainAddress
           stakeAmount w in
       history (snd outcome) = post ++ Called c :: pre ->
       (length (history w) <= length pre)%nat ->
       respond cl pre c = Failed text ->
       post = [] /\
       exists e, fst outcome = Some (Some e) /\ rootCause e = Foreign text) /\
    (forall privateKey amount w post c pre text,
       let outcome :=
         CreateAndSeedXChainAccountFromGenesis privateKey fuel runner amount w in
       history (snd outcome) = post ++ Called c :: pre ->
       (length (history w) + 2 <= length pre)%nat ->
       respond cl pre c = Failed text ->
       post = [] /\
       exists e, fst outcome = Some (inr e) /\ rootCause e = Foreign text).
Proof.
  intros fuel runner cl. subst cl. split.
  - intros delegateeNodeId pchainAddress stakeAmount w post c pre text outcome
      Hh Hl Hr.
    destruct (AddDelegatorOnSubnet_stopped fuel runner delegateeNodeId
                pchainAddress stakeAmount w) as (failure & Hs & Hres).
    destruct (Stopped_last _ _ _ _ _ _ _ _ Hs Hh Hl Hr) as [-> ->].
    split; [reflexivity |]. exact (Hres text eq_refl).
  - intros privateKey amount w post c pre text outcome Hh Hl Hr.
    destruct (CreateAndSeedXChainAccountFromGenesis_stopped privateKey fuel
                runner amount w) as (failure & Hs & Hres).
    assert (Hl' : (length
                     (history
                        (after (client runner)
                           (Called (KeystoreApi_CreateUser GENESIS_USERNAME
                                      GENESIS_PASSWORD))
                           (after (client runner)
                              (Called (KeystoreApi_CreateUser
                                         (username (geckoUser runner))
                                         (password (geckoUser runner)))) w)))
                   <= length pre)%nat)
      by (cbn [history after length]; lia).
    destruct (Stopped_last _ _ _ _ _ _ _ _ Hs Hh Hl' Hr) as [-> ->].
    split; [reflexivity |]. exact (Hres text eq_refl).
Qed.

(** A delegation that the node refuses to sign ends on the [Sign] call, with
    the node's error. *)
Lemma a_failed_call_ends_the_run_with_its_error_witness :
  let runner := runnerOn (node signingRefused) 3 in
  let outcome := AddDelegatorOnSubnet 30 runner "NodeID-1" "P-test" 1000 start in
  eventsOf (AddDelegatorOnSubnet 30 runner "NodeID-1" "P-test" 1000) start
  = [Called (PChainApi_GetAccount "P-test");
     Called (PChainApi_AddDefaultSubnetDelegator "NodeID-1" 20 259200 1000 4
               "P-test");
     Called (PChainApi_Sign "unsigned-delegator" "P-test" "tester" "secret")] /\
  exists e, fst outcome = Some (Some e) /\ rootCause e = Foreign "incorrect password".
Proof.
  intros runner outcome. split; [reflexivity |].
  destruct (a_failed_call_ends_the_run_with_its_error 30 runner) as [Hdelegate _].
  destruct (Hdelegate "NodeID-1" "P-test" 1000 start []
              (PChainApi_Sign "unsigned-delegator" "P-test" "tester" "secret")
              [Called (PChainApi_AddDefaultSubnetDelegator "NodeID-1" 20 259200
                         1000 4 "P-test");
               Called (PChainApi_GetAccount "P-test")]
              "incorrect password") as [_ Herr].
  - reflexivity.
  - apply Nat.le_0_l.
  - reflexivity.
  - exact Herr.
Defined.

(** X7.  [AddValidatorOnSubnet] and [TransferAvaXChainToPChain] make no call
    after one that the node answered with an error: such a call is the last
    event of the run. *)
Theorem no_call_follows_a_failed_call :
  forall fuel runner,
    let cl := client runner in
    (forall nodeId pchainAddress stakeAmount w post c pre text,
       history (snd (AddValidatorOnSubnet fuel runner nodeId pchainAddress
                       stakeAmount w)) = post ++ Called c :: pre ->
       (length (history w) <= length pre)%nat ->
       respond cl pre c = Failed text ->
       post = []) /\
    (forall amount w post c pre text,
       history (snd (TransferAvaXChainToPChain fuel runner amount w))
       = post ++ Called c :: pre ->
       (length (history w) <= length pre)%nat ->
       respond cl pre c = Failed text ->
       post = []).
Proof.
  intros fuel runner cl. subst cl. split.
  - intros nodeId pchainAddress stakeAmount w post c pre text Hh Hl Hr.
    destruct (AddValidatorOnSubnet_stopped fuel runner nodeId pchainAddress
                stakeAmount w) as (failure & Hs).
    exact (proj1 (Stopped_last _ _ _ _ _ _ _ _ Hs Hh Hl Hr)).
  - intros amount w post c pre text Hh Hl Hr.
    destruct (TransferAvaXChainToPChain_stopped fuel runner amount w)
      as (failure & Hs).
    exact (proj1 (Stopped_last _ _ _ _ _ _ _ _ Hs Hh Hl Hr)).
Qed.

(** A transfer whose balance query fails once the import is issued ends on
    that query. *)
Lemma no_call_follows_a_failed_call_witness :
  let runner := runnerOn (node accountUnreadableAfterIssue) 3 in
  history (snd (TransferAvaXChainToPChain 30 runner 1000 start))
  = Called (PChainApi_GetAccount "P-test") :: history beforeBalanceWait.
Proof.
  intros runner.
  destruct (no_call_follows_a_failed_call 30 runner) as [_ Htransfer].
  pose proof (Htransfer 1000 start [] (PChainApi_GetAccount "P-test")
                (history beforeBalanceWait) "connection refused"
                eq_refl (Nat.le_0_l _) eq_refl) as Hlast.
  reflexivity.
Defined.

(** X8.  Whatever happens in a run of [AddValidatorOnSubnet] or of
    [AddDelegatorOnSubnet], what is passed to the node is what was asked
    for: the registration names the node id, the stake and the payer's
    address given, ends at least 72 hours less 20 seconds after it starts
    and, for a validator, carries the delegation fee rate 500000; and a
    signature is asked for the payer's address with the runner's user name
    and password. *)
Theorem registrations_are_as_asked :
  forall fuel runner nodeId pchainAddress stakeAmount w,
    Grown (registersAs nodeId pchainAddress stakeAmount (geckoUser runner))
      (history w)
      (history (snd (AddValidatorOnSubnet fuel runner nodeId pchainAddress
                       stakeAmount w))) /\
    Grown (registersAs nodeId pchainAddress stakeAmount (geckoUser runner))
      (history w)
      (history (snd (AddDelegatorOnSubnet fuel runner nodeId pchainAddress
                       stakeAmount w))) /\
    stakingSeconds = 72 * 3600 - 20 /\
    DELEGATION_FEE_RATE = 500000.
Proof.
  intros. split; [apply AddValidatorOnSubnet_registers |].
  split; [apply AddDelegatorOnSubnet_registers |].
  split; reflexivity.
Qed.

(** X13.  In the whole of [GetFundsAndStartValidating] there is one P-chain
    address that the import of the transfer and the registration of the
    validator both name, and each of these two calls comes right after a
    [GetAccount] on that address made in the same run and carries the nonce
    that it returned, plus one. *)
Theorem GetFundsAndStartValidating_fetches_nonces_afresh :
  forall privateKey fuel runner seedAmount stakeAmount w,
    let outcome :=
      GetFundsAndStartValidating privateKey fuel runner seedAmount stakeAmount w in
    exists payer,
      freshNonces (client runner) payer (history w) (history (snd outcome)) /\
      Grown (paidBy payer) (history w) (history (snd outcome)).
Proof.
  intros. subst outcome.
  destruct (GetFundsAndStartValidating_Paid privateKey fuel runner
              seedAmount stakeAmount w) as (payer & HF & HG).
  exists payer. split; [now apply Fresh_freshNonces | exact HG].
Qed.

(** ** The success theorems at work, on a node that answers favourably *)

Lemma AddDelegatorOnSubnet_success_witness :
  let runner := runnerOn (node healthy) 3 in
  let w' := snd (AddDelegatorOnSubnet 30 runner "NodeID-1" "P-test" 1000 start) in
  exists startTime endTime nonce unsignedTxn signedTxn issued,
    Answered (client runner) (history start) (history w')
      (PChainApi_AddDefaultSubnetDelegator "NodeID-1" startTime endTime 1000
         nonce "P-test")
      unsignedTxn /\
    Answered (client runner) (history start) (history w')
      (PChainApi_Sign unsignedTxn "P-test" "tester" "secret") signedTxn /\
    Answered (client runner) (history start) (history w')
      (PChainApi_IssueTx signedTxn) issued /\
    Time_Unix (now start) + 20 <= startTime /\
    startTime <= Time_Unix (now w') /\
    startTime + stakingSeconds <= endTime.
Proof.
  intros runner w'.
  apply (AddDelegatorOnSubnet_success 30 runner "NodeID-1" "P-test" 1000 start w').
  vm_compute. reflexivity.
Defined.

Lemma AddValidatorOnSubnet_success_witness :
  let runner := runnerOn (node healthy) 3 in
  let w' := snd (AddValidatorOnSubnet 30 runner "NodeID-1" "P-test" 1000 start) in
  exists startTime endTime nonce unsignedTxn signedTxn issued,
    Answered (client runner) (history start) (history w')
      (PChainApi_AddDefaultSubnetValidator "NodeID-1" startTime endTime 1000
         nonce "P-test" DELEGATION_FEE_RATE)
      unsignedTxn /\
    Answered (client runner) (history start) (history w')
      (PChainApi_Sign unsignedTxn "P-test" "tester" "secret") signedTxn /\
    Answered (client runner) (history start) (history w')
      (PChainApi_IssueTx signedTxn) issued /\
    Time_Unix (now start) + 20 <= startTime /\
    startTime <= Time_Unix (now w') /\
    startTime + stakingSeconds <= endTime.
Proof.
  intros runner w'.
  apply (AddValidatorOnSubnet_success 30 runner "NodeID-1" "P-test" 1000 start w').
  vm_compute. reflexivity.
Defined.

Lemma TransferAvaXChainToPChain_success_witness :
  let runner := runnerOn (node healthy) 3 in
  let w' := snd (TransferAvaXChainToPChain 30 runner 1000 start) in
  exists txnId nonce unsignedTxn issued,
    Answered (client runner) (history start) (history w')
      (PChainApi_CreateAccount "tester" "secret" None) "P-test" /\
    Answered (client runner) (history start) (history w')
      (XChainApi_ExportAVA "P-test" 1000 "tester" "secret") txnId /\
    Answered (client runner) (history start) (history w')
      (XChainApi_GetTxStatus txnId) TRANSACTION_ACCEPTED_STATUS /\
    Answered (client runner) (history start) (history w')
      (PChainApi_ImportAVA "tester" "secret" "P-test" nonce) unsignedTxn /\
    Answered (client runner) (history start) (history w')
      (PChainApi_IssueTx unsignedTxn) issued.
Proof.
  intros runner w'.
  apply (TransferAvaXChainToPChain_success 30 runner 1000 start w' "P-test").
  vm_compute. reflexivity.
Defined.

Lemma TransferAvaPChainToXChain_success_witness :
  let runner := runnerOn (node (importReadyAfter 2 (Got "tx-import"))) 3 in
  let w' := snd (TransferAvaPChainToXChain 30 runner "P-test" "X-test" 7 start) in
  exists nonce unsignedTxnId signedTxnId issued txnId,
    Answered (client runner) (history start) (history w')
      (PChainApi_ExportAVA 7 "test" nonce) unsignedTxnId /\
    Answered (client runner) (history start) (history w')
      (PChainApi_Sign unsignedTxnId "P-test" "tester" "secret") signedTxnId /\
    Answered (client runner) (history start) (history w')
      (PChainApi_IssueTx signedTxnId) issued /\
    Answered (client runner) (history start) (history w')
      (XChainApi_ImportAVA "X-test" "tester" "secret") txnId /\
    Answered (client runner) (history start) (history w')
      (XChainApi_GetTxStatus txnId) TRANSACTION_ACCEPTED_STATUS.
Proof.
  intros runner w'.
  apply (TransferAvaPChainToXChain_success 30 runner "P-test" "X-test" 7 start w'
           "X-test").
  vm_compute. reflexivity.
Defined.

Example GetFundsAndStartValidating_payer_on_a_healthy_node :
  let runner := runnerOn (node healthy) 3 in
  let h := history (snd (GetFundsAndStartValidating "PrivateKey-1" 30 runner
                           1000 500 start)) in
  In (Called (PChainApi_ImportAVA "tester" "secret" "P-test" 4)) h /\
  In (Called (PChainApi_AddDefaultSubnetValidator "NodeID-1" 20 259200 500 4
                "P-test" DELEGATION_FEE_RATE)) h.
Proof. vm_compute. split; auto 80. Qed.

(** X14.  [TransferAvaXChainToPChain] builds the import on the P-chain only
    after the export has been seen accepted: whenever a run calls
    [PChainApi.ImportAVA], the call is made for the runner's user, and before
    it, in the same run, the node has answered the [XChainApi.ExportAVA] of
    the amount to the address that the import names, and has answered
    "Accepted" to a [GetTxStatus] of the transaction of that export. *)
Theorem import_is_built_only_after_the_export_is_accepted :
  forall fuel runner amount w post e pre,
    let cl := client runner in
    let outcome := TransferAvaXChainToPChain fuel runner amount w in
    history (snd outcome) = post ++ e :: pre ->
    (length (history w) <= length pre)%nat ->
    isPChainImport e ->
    exists pchainAddress txnId nonce,
      e = Called (PChainApi_ImportAVA (username (geckoUser runner))
                    (password (geckoUser runner)) pchainAddress nonce) /\
      Answered cl (history w) pre
        (XChainApi_ExportAVA pchainAddress amount (username (geckoUser runner))
           (password (geckoUser runner))) txnId /\
      Answered cl (history w) pre
        (XChainApi_GetTxStatus txnId) TRANSACTION_ACCEPTED_STATUS.
Proof.
  intros fuel runner amount w post e pre cl outcome. subst cl outcome.
  unfold TransferAvaXChainToPChain, getCurrentPayerNonce. go.
  destruct (respond _ _ (PChainApi_CreateAccount _ _ _)) as [pchainAddress | text];
    [| never isPChainImport].
  destruct (respond _ _ (XChainApi_ExportAVA _ _ _ _)) as [txnId | text] eqn:E2;
    [| never isPChainImport].
  match goal with
  | |- context [waitForXchainTransactionAcceptance ?f ?r ?t ?w0] =>
      pose proof (waitX_grown (fun e => ~ isPChainImport e) f r t w0
                    ltac:(intros (? & ? & ? & ? & [=]))
                    ltac:(intros (? & ? & ? & ? & [=]))) as Hx;
      pose proof (waitX_grown (fun _ => True) f r t w0 I I) as Hx';
      destruct (waitForXchainTransactionAcceptance f r t w0)
        as [[[err |] |] w1] eqn:EW
  end; cbn [fst snd] in *; [never isPChainImport | | never isPChainImport].
  pose proof (waitX_answered_accepted _ _ _ _ _ (history w) EW ltac:(longer))
    as Ha.
  assert (Hexport :
    Answered (client runner) (history w) (history w1)
      (XChainApi_ExportAVA pchainAddress amount (username (geckoUser runner))
         (password (geckoUser runner))) txnId) by answered.
  assert (Hbase :
    Grown (fun x => ~ isPChainImport x) (history w)
      (Called (PChainApi_GetAccount pchainAddress) :: history w1))
    by none_of_kind.
  destruct (respond _ _ (PChainApi_GetAccount _)) as [account | text];
    [| never isPChainImport].
  destruct (strconv_Atoi _) as [nonce | text]; [| never isPChainImport].
  assert (Hend : forall h,
    Grown (fun x => ~ isPChainImport x)
      (Called (PChainApi_ImportAVA (username (geckoUser runner))
                 (password (geckoUser runner)) pchainAddress (int_add nonce 1))
         :: Called (PChainApi_GetAccount pchainAddress) :: history w1) h ->
    h = post ++ e :: pre -> (length (history w) <= length pre)%nat ->
    isPChainImport e ->
    exists pchainAddress0 txnId0 nonce0,
      e = Called (PChainApi_ImportAVA (username (geckoUser runner))
                    (password (geckoUser runner)) pchainAddress0 nonce0) /\
      Answered (client runner) (history w) pre
        (XChainApi_ExportAVA pchainAddress0 amount (username (geckoUser runner))
           (password (geckoUser runner))) txnId0 /\
      Answered (client runner) (history w) pre
        (XChainApi_GetTxStatus txnId0) TRANSACTION_ACCEPTED_STATUS).
  { intros h G Hh Hl He.
    destruct (only_here _ _ _ _ _ _ _ _ Hbase G Hh Hl He) as [-> ->].
    exists pchainAddress, txnId, (int_add nonce 1).
    split; [reflexivity |]. split; apply Answered_cons; assumption. }
  destruct (respond _ _ (PChainApi_ImportAVA _ _ _ _)) as [unsignedTxn | text];
    [| cbn [snd history after]; apply Hend; apply Grown_here].
  destruct (respond _ _ (PChainApi_IssueTx _)) as [issued | text];
    [| cbn [snd history after]; apply Hend;
       apply Grown_cons; [intros (? & ? & ? & ? & [=]) | apply Grown_here]].
  match goal with
  | |- context [waitForPchainNonZeroBalance ?f ?r ?a ?w0] =>
      pose proof (waitP_grown (fun e => ~ isPChainImport e) f r a w0
                    ltac:(intros (? & ? & ? & ? & [=]))
                    ltac:(intros (? & ? & ? & ? & [=]))) as Hp;
      destruct (waitForPchainNonZeroBalance f r a w0) as [[res |] w2]
  end; cbn [fst snd] in *; apply Hend;
    (eapply Grown_trans; [| exact Hp]); cbn [history after];
    (apply Grown_cons; [intros (? & ? & ? & ? & [=]) | apply Grown_here]).
Qed.

Lemma import_is_built_only_after_the_export_is_accepted_witness :
  let runner := runnerOn (node healthy) 3 in
  let before :=
    [Called (PChainApi_GetAccount "P-test");
     Called (XChainApi_GetTxStatus "tx-export");
     Called (XChainApi_ExportAVA "P-test" 1000 "tester" "secret");
     Called (PChainApi_CreateAccount "tester" "secret" None)] in
  exists pchainAddress txnId nonce,
    Called (PChainApi_ImportAVA "tester" "secret" "P-test" 4)
    = Called (PChainApi_ImportAVA "tester" "secret" pchainAddress nonce) /\
    Answered (client runner) (history start) before
      (XChainApi_ExportAVA pchainAddress 1000 "tester" "secret") txnId /\
    Answered (client runner) (history start) before
      (XChainApi_GetTxStatus txnId) TRANSACTION_ACCEPTED_STATUS.
Proof.
  intros runner before.
  apply (import_is_built_only_after_the_export_is_accepted 30 runner 1000 start
           [Called (PChainApi_GetAccount "P-test");
            Called (PChainApi_IssueTx "unsigned-import")]
           (Called (PChainApi_ImportAVA "tester" "secret" "P-test" 4))
           before).
  - vm_compute. reflexivity.
  - cbn. lia.
  - now exists "tester", "secret", "P-test", 4.
Defined.

(** X15.  [TransferAvaPChainToXChain] tries the import on the X-chain only
    after the export has been issued: before every call of
    [XChainApi.ImportAVA] that a run makes, in the same run, the node has
    built the export of the amount to the X-chain address without its
    prefix, has signed what it built for the P-chain address and the runner's
    user, and has answered the [IssueTx] of the signed transaction. *)
Theorem import_is_tried_only_after_the_export_is_issued :
  forall fuel runner pchainAddress xchainAddress amount w post e pre,
    let cl := client runner in
    let outcome :=
      TransferAvaPChainToXChain fuel runner pchainAddress xchainAddress amount w in
    history (snd outcome) = post ++ e :: pre ->
    (length (history w) <= length pre)%nat ->
    isXChainImport e ->
    exists nonce unsignedTxnId signedTxnId issued,
      Answered cl (history w) pre
        (PChainApi_ExportAVA amount
           (strings_TrimPrefix xchainAddress XCHAIN_ADDRESS_PREFIX) nonce)
        unsignedTxnId /\
      Answered cl (history w) pre
        (PChainApi_Sign unsignedTxnId pchainAddress
           (username (geckoUser runner)) (password (geckoUser runner)))
        signedTxnId /\
      Answered cl (history w) pre
        (PChainApi_IssueTx signedTxnId) issued.
Proof.
  intros fuel runner pchainAddress xchainAddress amount w post e pre cl outcome.
  subst cl outcome.
  unfold TransferAvaPChainToXChain, getCurrentPayerNonce. go.
  destruct (respond _ _ (PChainApi_GetAccount _)) as [account | text];
    [| never isXChainImport].
  destruct (strconv_Atoi _) as [nonce | text]; [| never isXChainImport].
  destruct (respond _ _ (PChainApi_ExportAVA _ _ _)) as [unsignedTxnId | text]
    eqn:E2; [| never isXChainImport].
  destruct (respond _ _ (PChainApi_Sign _ _ _ _)) as [signedTxnId | text] eqn:E3;
    [| never isXChainImport].
  destruct (respond _ _ (PChainApi_IssueTx _)) as [issued | text] eqn:E4;
    [| never isXChainImport].
  match goal with
  | |- context [TransferAvaPChainToXChain_loop _ _ _ _ (after _ _ ?wb)] =>
      assert (Hbase : Grown (fun y => ~ isXChainImport y) (history w) (history wb))
        by none_of_kind;
      assert (Hend : forall h,
        Grown (fun _ => True) (history wb) h ->
        h = post ++ e :: pre -> (length (history w) <= length pre)%nat ->
        isXChainImport e ->
        exists nonce0 unsignedTxnId0 signedTxnId0 issued0,
          Answered (client runner) (history w) pre
            (PChainApi_ExportAVA amount
               (strings_TrimPrefix xchainAddress XCHAIN_ADDRESS_PREFIX) nonce0)
            unsignedTxnId0 /\
          Answered (client runner) (history w) pre
            (PChainApi_Sign unsignedTxnId0 pchainAddress
               (username (geckoUser runner)) (password (geckoUser runner)))
            signedTxnId0 /\
          Answered (client runner) (history w) pre
            (PChainApi_IssueTx signedTxnId0) issued0)
  end.
  { intros h G Hh Hl He.
    pose proof (above_base _ _ _ _ _ _ _ _ Hbase G Hh Hl He) as Hpre.
    exists (int_add nonce 1), unsignedTxnId, signedTxnId, issued.
    split; [| split]; (eapply Answered_grown; [exact Hpre |]); answered. }
  match goal with
  | |- context [TransferAvaPChainToXChain_loop ?f ?r ?x ?i ?w0] =>
      pose proof (importLoop_grown (fun _ => True) f r x I I i w0) as L;
      destruct (TransferAvaPChainToXChain_loop f r x i w0)
        as [[[res | txnId] |] w1]
  end; cbn [fst snd] in *.
  - apply Hend. above.
  - match goal with
    | |- context [waitForXchainTransactionAcceptance ?f ?r ?t ?w0] =>
        pose proof (waitX_grown (fun _ => True) f r t w0 I I) as Hx;
        destruct (waitForXchainTransactionAcceptance f r t w0)
          as [[[err |] |] w2]
    end; cbn [fst snd] in *; apply Hend; above.
  - apply Hend. above.
Qed.

Lemma import_is_tried_only_after_the_export_is_issued_witness :
  let runner := runnerOn (node (importReadyAfter 2 (Got "tx-import"))) 3 in
  let before :=
    [Called (PChainApi_IssueTx "signed");
     Called (PChainApi_Sign "unsigned-export" "P-test" "tester" "secret");
     Called (PChainApi_ExportAVA 7 "test" 4);
     Called (PChainApi_GetAccount "P-test")] in
  exists nonce unsignedTxnId signedTxnId issued,
    Answered (client runner) (history start) before
      (PChainApi_ExportAVA 7 "test" nonce) unsignedTxnId /\
    Answered (client runner) (history start) before
      (PChainApi_Sign unsignedTxnId "P-test" "tester" "secret") signedTxnId /\
    Answered (client runner) (history start) before
      (PChainApi_IssueTx signedTxnId) issued.
Proof.
  intros runner before.
  apply (import_is_tried_only_after_the_export_is_issued 30 runner "P-test"
           "X-test" 7 start
           [Called (XChainApi_GetTxStatus "tx-import");
            Slept 1000000000;
            Called (XChainApi_ImportAVA "X-test" "tester" "secret");
            Slept 1000000000;
            Called (XChainApi_ImportAVA "X-test" "tester" "secret")]
           (Called (XChainApi_ImportAVA "X-test" "tester" "secret"))
           before).
  - vm_compute. reflexivity.
  - cbn. lia.
  - now exists "X-test", "tester", "secret".
Defined.
